(** * OpenPose [Wrapper]: graph construction and boundary ports

    A shallow embedding of [include/openpose/wrapper/wrapper.hpp].  The
    [Wrapper] owns a [ThreadManager] (the scheduler), a set of worker
    slots filled by [configure] and the [setWorker*] functions, and builds
    the scheduler's graph in [configureThreadManager].

    Conventions.
    - [std::shared_ptr<T>] is [option T]: [None] is [nullptr].
    - A worker is named by the object it denotes: the constructors of
      [Worker] other than [WUser] are the objects that the Wrapper itself
      creates with [std::make_shared]; [WUser n] is the n-th object created
      by the caller.  Two pointers are equal iff they name the same object.
    - [unsigned int] is a [Z] reduced modulo 2^32, [unsigned long long] a
      [Z] reduced modulo 2^64; both reductions are written out.
    - A member function is a computation in [M]: it receives the object,
      returns the changed object, and either a value or the exception that
      left the function.  State changes made before a [throw] persist. *)

From Stdlib Require Import ZArith String List Bool Lia PrimFloat.
Import ListNotations.
Open Scope string_scope.
Open Scope list_scope.
Open Scope Z_scope.

(** ** Exceptions and the state-and-exception monad *)

(** Modelled from the spec: [error] of [utilities/errorAndLog.hpp] (not
    part of this file) raises the exception that the design calls a
    ConfigurationError, carrying its message. *)
Inductive Exn : Type :=
| ConfigurationError (what : string).

Definition what (e : Exn) : string :=
  match e with ConfigurationError m => m end.

Definition Result (A : Type) : Type := (Exn + A)%type.

Definition raises {A : Type} (r : Result A) : Prop :=
  exists e, r = inl e.

Definition St (S A : Type) : Type := S -> Result A * S.

Definition ret {S A : Type} (a : A) : St S A :=
  fun s => (inr a, s).

Definition bind {S A B : Type} (m : St S A) (k : A -> St S B) : St S B :=
  fun s => match m s with
           | (inl e, s') => (inl e, s')
           | (inr a, s') => k a s'
           end.

Definition error {S A : Type} (message : string) : St S A :=
  fun s => (inl (ConfigurationError message), s).

Definition get {S : Type} : St S S :=
  fun s => (inr s, s).

Definition modify {S : Type} (f : S -> S) : St S unit :=
  fun s => (inr tt, f s).

Definition when {S : Type} (c : bool) (m : St S unit) : St S unit :=
  if c then m else ret tt.

(** [try { body } catch (const std::exception& e) { error(e.what(), ...); }]:
    every member function has this shape. *)
Definition tryCatch {S A : Type} (body : St S A) : St S A :=
  fun s => match body s with
           | (inl e, s') => error (what e) s'
           | (inr a, s') => (inr a, s')
           end.

Declare Scope op_scope.
Delimit Scope op_scope with op.
Notation "x <- m ;; k" := (bind m (fun x => k))
  (at level 100, m at next level, right associativity) : op_scope.
Notation "m ;;; k" := (bind m (fun _ => k))
  (at level 100, right associativity) : op_scope.
Open Scope op_scope.

(** ** Workers, data and enumerations *)

Inductive Worker : Type :=
| WUser (n : nat)
| WDatumProducer
| WIdGenerator
| WCvMatToOpInput
| WCvMatToOpOutput
| WPoseExtractor (gpuId : Z)
| WFaceExtractor (gpuId : Z)
| WHandExtractor (gpuId : Z)
| WPoseRenderer (i : nat)
| WHandRenderer (i : nat)
| WFaceRenderer (i : nat)
| WQueueOrderer
| WOpOutputToCvMat
| WKeyPointScaler
| WPoseSaver
| WPoseJsonSaver
| WPoseJsonCocoSaver
| WImageSaver
| WVideoSaver
| WHeatMapSaver
| WGuiInfoAdder
| WGui.

(** [TWorker = std::shared_ptr<Worker<...>>]. *)
Definition TWorker : Type := option Worker.


(** [std::shared_ptr<TDatums>]; a datum is named by a number. *)
Definition TDatumsPtr : Type := option nat.

(** The enumerators that [wrapper.hpp] names. *)
Inductive ThreadManagerMode : Type :=
| Asynchronous
| AsynchronousIn
| AsynchronousOut
| Synchronous.

(** [ScaleMode]: the enumerators that [wrapper.hpp] names, and
    [ScaleModeOther] for any enumerator it does not name. *)
Inductive ScaleMode : Type :=
| InputResolution
| NetOutputResolution
| OutputResolution
| UnsignedChar
| ScaleModeOther.

Definition ThreadManagerMode_eqb (a b : ThreadManagerMode) : bool :=
  match a, b with
  | Asynchronous, Asynchronous
  | AsynchronousIn, AsynchronousIn
  | AsynchronousOut, AsynchronousOut
  | Synchronous, Synchronous => true
  | _, _ => false
  end.

Definition ScaleMode_eqb (a b : ScaleMode) : bool :=
  match a, b with
  | InputResolution, InputResolution
  | NetOutputResolution, NetOutputResolution
  | OutputResolution, OutputResolution
  | UnsignedChar, UnsignedChar
  | ScaleModeOther, ScaleModeOther => true
  | _, _ => false
  end.

Definition isNull {A : Type} (p : option A) : bool :=
  match p with None => true | Some _ => false end.

Definition empty {A : Type} (v : list A) : bool :=
  match v with [] => true | _ :: _ => false end.

Definition wrap32 (z : Z) : Z := z mod 2 ^ 32.
Definition wrap64 (z : Z) : Z := z mod 2 ^ 64.

(** ** The scheduler *)

Module ThreadManager.

(** One call of [add]: a stage, its thread and its two channels. *)
Record Stage : Type := mkStage {
  threadId : Z;
  units : list TWorker;
  inputChannelIndex : Z;
  outputChannelIndex : Z
}.

Record Channel : Type := mkChannel {
  capacity : nat;
  items : list TDatumsPtr;
  closed : bool
}.

(** Modelled from the spec: the class [ThreadManager] of
    [thread/headers.hpp] (not part of this file), after sections 3, 4.1,
    4.2 and 4.5 of the design.  [graph] is the sequence of accepted
    stages in the order they were added, [channels] the channel list.
    [issued] is a history of every [add] call received since the last
    reset, accepted or not; nothing reads it. *)
Record t : Type := mk {
  mode : ThreadManagerMode;
  queueCapacity : nat;
  graph : list Stage;
  channels : list Channel;
  running : bool;
  issued : list Stage
}.

Definition create (m : ThreadManagerMode) (cap : nat) : t :=
  mk m cap [] [] false [].

Definition closeAll (cs : list Channel) : list Channel :=
  map (fun c => mkChannel (capacity c) (items c) true) cs.

(** [stop()]: "sets the running flag to false, closes every channel". *)
Definition stop (tm : t) : t :=
  mk (mode tm) (queueCapacity tm) (graph tm) (closeAll (channels tm)) false
     (issued tm).

(** [reset()]: "stops if running, then clears the graph and channel
    list". *)
Definition reset (tm : t) : t :=
  mk (mode tm) (queueCapacity tm) [] [] false [].

(** The validation of [addStage]: "inputChannelIndex < outputChannelIndex
    and thread ids are assigned in non-decreasing order as the graph is
    built". *)
Definition lastThreadId (g : list Stage) : option Z :=
  match rev g with
  | [] => None
  | s :: _ => Some (threadId s)
  end.

Definition stageOk (g : list Stage) (s : Stage) : bool :=
  (inputChannelIndex s <? outputChannelIndex s)
  && match lastThreadId g with
     | None => true
     | Some t0 => t0 <=? threadId s
     end.

(** Channels 0 .. [outputChannelIndex] exist once a stage is accepted. *)
Definition growChannels (cap : nat) (cs : list Channel) (n : nat)
  : list Channel :=
  cs ++ repeat (mkChannel cap [] false) (n - length cs)%nat.

Definition msgTopological : string :=
  "Stages must be added in topological order.".

Definition add (tid : Z) (ws : list TWorker) (qIn qOut : Z)
  : St t unit :=
  fun tm =>
    let s := mkStage tid ws qIn qOut in
    if stageOk (graph tm) s then
      (inr tt,
       mk (mode tm) (queueCapacity tm) (graph tm ++ [s])
          (growChannels (queueCapacity tm) (channels tm)
                        (S (Z.to_nat qOut)))
          (running tm) (issued tm ++ [s]))
    else
      (inl (ConfigurationError msgTopological),
       mk (mode tm) (queueCapacity tm) (graph tm) (channels tm)
          (running tm) (issued tm ++ [s])).

(** [start()] spawns the worker loops and returns at once; [exec()]
    ([run()] in the design) returns when the pipeline has stopped. *)
Definition start : St t unit :=
  fun tm =>
    (inr tt,
     mk (mode tm) (queueCapacity tm) (graph tm) (channels tm) true
        (issued tm)).

Definition exec : St t unit :=
  fun tm => (inr tt, stop tm).

Definition isRunning (tm : t) : bool := running tm.

(** Section 4.1: the four channel operations.  A call that would block
    until another thread acts on the channel is [None]. *)
Definition chTryPush (d : TDatumsPtr) (c : Channel) : bool * Channel :=
  if closed c || (capacity c <=? length (items c))%nat
  then (false, c)
  else (true, mkChannel (capacity c) (items c ++ [d]) false).

Definition chWaitPush (d : TDatumsPtr) (c : Channel)
  : option (bool * Channel) :=
  if closed c then Some (false, c)
  else if (capacity c <=? length (items c))%nat then None
  else Some (true, mkChannel (capacity c) (items c ++ [d]) false).

Definition chTryPop (c : Channel) : option TDatumsPtr * Channel :=
  match items c with
  | [] => (None, c)
  | d :: rest => (Some d, mkChannel (capacity c) rest (closed c))
  end.

Definition chWaitPop (c : Channel)
  : option (option TDatumsPtr * Channel) :=
  match items c with
  | [] => if closed c then Some (None, c) else None
  | d :: rest => Some (Some d, mkChannel (capacity c) rest (closed c))
  end.

Definition setChannels (tm : t) (cs : list Channel) : t :=
  mk (mode tm) (queueCapacity tm) (graph tm) cs (running tm) (issued tm).

(** Section 4.5: the boundary operations forward to the first and to
    the last channel.  Without channels there is nothing to push to or
    to pop from and the operation reports failure. *)
Definition tryPush (d : TDatumsPtr) : St t bool :=
  fun tm =>
    match channels tm with
    | [] => (inr false, tm)
    | c :: cs =>
        let (ok, c') := chTryPush d c in
        (inr ok, setChannels tm (c' :: cs))
    end.

Definition tryEmplace : TDatumsPtr -> St t bool := tryPush.

Definition waitAndPush (d : TDatumsPtr) : St t (option bool) :=
  fun tm =>
    match channels tm with
    | [] => (inr (Some false), tm)
    | c :: cs =>
        match chWaitPush d c with
        | None => (inr None, tm)
        | Some (ok, c') => (inr (Some ok), setChannels tm (c' :: cs))
        end
    end.

Definition waitAndEmplace : TDatumsPtr -> St t (option bool) :=
  waitAndPush.

Definition tryPop : St t (option TDatumsPtr) :=
  fun tm =>
    match rev (channels tm) with
    | [] => (inr None, tm)
    | c :: cs =>
        let (d, c') := chTryPop c in
        (inr d, setChannels tm (rev (c' :: cs)))
    end.

Definition waitAndPop : St t (option (option TDatumsPtr)) :=
  fun tm =>
    match rev (channels tm) with
    | [] => (inr (Some None), tm)
    | c :: cs =>
        match chWaitPop c with
        | None => (inr None, tm)
        | Some (d, c') =>
            (inr (Some d), setChannels tm (rev (c' :: cs)))
        end
    end.

End ThreadManager.

(** ** Configuration structures

    Of the structures in [wrapperStruct*.hpp] (not part of this file) the
    fields below are those that [wrapper.hpp] reads to decide something;
    fields that are only handed to the constructor of a collaborator
    (model folder, pose model, file formats, ...) are left out. *)

(** [cv::Size]. *)
Record Size : Type := mkSize { width : Z; height : Z }.

(** A product of two [int]s, as two's complement arithmetic gives it. *)
Definition wrapInt (z : Z) : Z := (z + 2 ^ 31) mod 2 ^ 32 - 2 ^ 31.

Definition area (s : Size) : Z := wrapInt (width s * height s).

Definition Size_neqb (a b : Size) : bool :=
  negb (width a =? width b) || negb (height a =? height b).

(** What the producer answers to [get(CV_CAP_PROP_FRAME_WIDTH)] and
    [get(CV_CAP_PROP_FRAME_HEIGHT)], converted to [int]. *)
Record Producer : Type := mkProducer {
  getFrameWidth : Z;
  getFrameHeight : Z
}.

Record WrapperStructPose : Type := mkWrapperStructPose {
  netInputSize : Size;
  outputSize : Size;
  scalesNumber : Z;
  scaleGap : float;
  renderOutput : bool;
  alphaPose : float;
  alphaHeatMap : float;
  heatMapTypes : list nat;
  heatMapScaleMode : ScaleMode;
  poseScaleMode : ScaleMode;
  gpuNumber : Z;
  gpuNumberStart : Z
}.

Record WrapperStructFace : Type := mkWrapperStructFace {
  extractAndRenderFace : bool
}.

Record WrapperStructHand : Type := mkWrapperStructHand {
  extractAndRenderHands : bool
}.

Record WrapperStructInput : Type := mkWrapperStructInput {
  producerSharedPtr : option Producer;
  realTimeProcessing : bool;
  framesRepeat : bool
}.

Record WrapperStructOutput : Type := mkWrapperStructOutput {
  displayGui : bool;
  guiVerbose : bool;
  fullScreen : bool;
  writePose : string;
  writePoseJson : string;
  writeCocoJson : string;
  writeImages : string;
  writeVideo : string;
  writeHeatMaps : string
}.

Definition sempty (s : string) : bool :=
  match s with EmptyString => true | String _ _ => false end.

(** ** The Wrapper object *)

Record Wrapper : Type := mkWrapper {
  mThreadManagerMode : ThreadManagerMode;
  spVideoSeek : bool * Z;
  mThreadManager : ThreadManager.t;
  mGpuNumber : Z;
  mUserInputWsOnNewThread : bool;
  mUserPostProcessingWsOnNewThread : bool;
  mUserOutputWsOnNewThread : bool;
  mThreadId : Z;
  mMultiThreadEnabled : bool;
  mUserInputWs : list TWorker;
  wDatumProducer : TWorker;
  spWIdGenerator : TWorker;
  spWCvMatToOpInput : TWorker;
  spWCvMatToOpOutput : TWorker;
  spWPoses : list (list TWorker);
  mPostProcessingWs : list TWorker;
  mUserPostProcessingWs : list TWorker;
  mOutputWs : list TWorker;
  spWGui : TWorker;
  mUserOutputWs : list TWorker
}.

Definition M : Type -> Type := St Wrapper.

(** Assignments to one member. *)
Definition set_mThreadManager (v : ThreadManager.t) (w : Wrapper) : Wrapper :=
  mkWrapper (mThreadManagerMode w) (spVideoSeek w) v (mGpuNumber w)
    (mUserInputWsOnNewThread w) (mUserPostProcessingWsOnNewThread w)
    (mUserOutputWsOnNewThread w) (mThreadId w) (mMultiThreadEnabled w)
    (mUserInputWs w) (wDatumProducer w) (spWIdGenerator w)
    (spWCvMatToOpInput w) (spWCvMatToOpOutput w) (spWPoses w)
    (mPostProcessingWs w) (mUserPostProcessingWs w) (mOutputWs w)
    (spWGui w) (mUserOutputWs w).

Definition set_mGpuNumber (v : Z) (w : Wrapper) : Wrapper :=
  mkWrapper (mThreadManagerMode w) (spVideoSeek w) (mThreadManager w) v
    (mUserInputWsOnNewThread w) (mUserPostProcessingWsOnNewThread w)
    (mUserOutputWsOnNewThread w) (mThreadId w) (mMultiThreadEnabled w)
    (mUserInputWs w) (wDatumProducer w) (spWIdGenerator w)
    (spWCvMatToOpInput w) (spWCvMatToOpOutput w) (spWPoses w)
    (mPostProcessingWs w) (mUserPostProcessingWs w) (mOutputWs w)
    (spWGui w) (mUserOutputWs w).

Definition set_mUserInputWsOnNewThread (v : bool) (w : Wrapper) : Wrapper :=
  mkWrapper (mThreadManagerMode w) (spVideoSeek w) (mThreadManager w)
    (mGpuNumber w) v (mUserPostProcessingWsOnNewThread w)
    (mUserOutputWsOnNewThread w) (mThreadId w) (mMultiThreadEnabled w)
    (mUserInputWs w) (wDatumProducer w) (spWIdGenerator w)
    (spWCvMatToOpInput w) (spWCvMatToOpOutput w) (spWPoses w)
    (mPostProcessingWs w) (mUserPostProcessingWs w) (mOutputWs w)
    (spWGui w) (mUserOutputWs w).

Definition set_mUserPostProcessingWsOnNewThread (v : bool) (w : Wrapper)
  : Wrapper :=
  mkWrapper (mThreadManagerMode w) (spVideoSeek w) (mThreadManager w)
    (mGpuNumber w) (mUserInputWsOnNewThread w) v
    (mUserOutputWsOnNewThread w) (mThreadId w) (mMultiThreadEnabled w)
    (mUserInputWs w) (wDatumProducer w) (spWIdGenerator w)
    (spWCvMatToOpInput w) (spWCvMatToOpOutput w) (spWPoses w)
    (mPostProcessingWs w) (mUserPostProcessingWs w) (mOutputWs w)
    (spWGui w) (mUserOutputWs w).

Definition set_mUserOutputWsOnNewThread (v : bool) (w : Wrapper) : Wrapper :=
  mkWrapper (mThreadManagerMode w) (spVideoSeek w) (mThreadManager w)
    (mGpuNumber w) (mUserInputWsOnNewThread w)
    (mUserPostProcessingWsOnNewThread w) v (mThreadId w)
    (mMultiThreadEnabled w)
    (mUserInputWs w) (wDatumProducer w) (spWIdGenerator w)
    (spWCvMatToOpInput w) (spWCvMatToOpOutput w) (spWPoses w)
    (mPostProcessingWs w) (mUserPostProcessingWs w) (mOutputWs w)
    (spWGui w) (mUserOutputWs w).

Definition set_mThreadId (v : Z) (w : Wrapper) : Wrapper :=
  mkWrapper (mThreadManagerMode w) (spVideoSeek w) (mThreadManager w)
    (mGpuNumber w) (mUserInputWsOnNewThread w)
    (mUserPostProcessingWsOnNewThread w) (mUserOutputWsOnNewThread w) v
    (mMultiThreadEnabled w)
    (mUserInputWs w) (wDatumProducer w) (spWIdGenerator w)
    (spWCvMatToOpInput w) (spWCvMatToOpOutput w) (spWPoses w)
    (mPostProcessingWs w) (mUserPostProcessingWs w) (mOutputWs w)
    (spWGui w) (mUserOutputWs w).

Definition set_mMultiThreadEnabled (v : bool) (w : Wrapper) : Wrapper :=
  mkWrapper (mThreadManagerMode w) (spVideoSeek w) (mThreadManager w)
    (mGpuNumber w) (mUserInputWsOnNewThread w)
    (mUserPostProcessingWsOnNewThread w) (mUserOutputWsOnNewThread w)
    (mThreadId w) v
    (mUserInputWs w) (wDatumProducer w) (spWIdGenerator w)
    (spWCvMatToOpInput w) (spWCvMatToOpOutput w) (spWPoses w)
    (mPostProcessingWs w) (mUserPostProcessingWs w) (mOutputWs w)
    (spWGui w) (mUserOutputWs w).

Definition set_mUserInputWs (v : list TWorker) (w : Wrapper) : Wrapper :=
  mkWrapper (mThreadManagerMode w) (spVideoSeek w) (mThreadManager w)
    (mGpuNumber w) (mUserInputWsOnNewThread w)
    (mUserPostProcessingWsOnNewThread w) (mUserOutputWsOnNewThread w)
    (mThreadId w) (mMultiThreadEnabled w)
    v (wDatumProducer w) (spWIdGenerator w)
    (spWCvMatToOpInput w) (spWCvMatToOpOutput w) (spWPoses w)
    (mPostProcessingWs w) (mUserPostProcessingWs w) (mOutputWs w)
    (spWGui w) (mUserOutputWs w).

Definition set_wDatumProducer (v : TWorker) (w : Wrapper) : Wrapper :=
  mkWrapper (mThreadManagerMode w) (spVideoSeek w) (mThreadManager w)
    (mGpuNumber w) (mUserInputWsOnNewThread w)
    (mUserPostProcessingWsOnNewThread w) (mUserOutputWsOnNewThread w)
    (mThreadId w) (mMultiThreadEnabled w)
    (mUserInputWs w) v (spWIdGenerator w)
    (spWCvMatToOpInput w) (spWCvMatToOpOutput w) (spWPoses w)
    (mPostProcessingWs w) (mUserPostProcessingWs w) (mOutputWs w)
    (spWGui w) (mUserOutputWs w).

Definition set_spWIdGenerator (v : TWorker) (w : Wrapper) : Wrapper :=
  mkWrapper (mThreadManagerMode w) (spVideoSeek w) (mThreadManager w)
    (mGpuNumber w) (mUserInputWsOnNewThread w)
    (mUserPostProcessingWsOnNewThread w) (mUserOutputWsOnNewThread w)
    (mThreadId w) (mMultiThreadEnabled w)
    (mUserInputWs w) (wDatumProducer w) v
    (spWCvMatToOpInput w) (spWCvMatToOpOutput w) (spWPoses w)
    (mPostProcessingWs w) (mUserPostProcessingWs w) (mOutputWs w)
    (spWGui w) (mUserOutputWs w).

Definition set_spWCvMatToOpInput (v : TWorker) (w : Wrapper) : Wrapper :=
  mkWrapper (mThreadManagerMode w) (spVideoSeek w) (mThreadManager w)
    (mGpuNumber w) (mUserInputWsOnNewThread w)
    (mUserPostProcessingWsOnNewThread w) (mUserOutputWsOnNewThread w)
    (mThreadId w) (mMultiThreadEnabled w)
    (mUserInputWs w) (wDatumProducer w) (spWIdGenerator w)
    v (spWCvMatToOpOutput w) (spWPoses w)
    (mPostProcessingWs w) (mUserPostProcessingWs w) (mOutputWs w)
    (spWGui w) (mUserOutputWs w).

Definition set_spWCvMatToOpOutput (v : TWorker) (w : Wrapper) : Wrapper :=
  mkWrapper (mThreadManagerMode w) (spVideoSeek w) (mThreadManager w)
    (mGpuNumber w) (mUserInputWsOnNewThread w)
    (mUserPostProcessingWsOnNewThread w) (mUserOutputWsOnNewThread w)
    (mThreadId w) (mMultiThreadEnabled w)
    (mUserInputWs w) (wDatumProducer w) (spWIdGenerator w)
    (spWCvMatToOpInput w) v (spWPoses w)
    (mPostProcessingWs w) (mUserPostProcessingWs w) (mOutputWs w)
    (spWGui w) (mUserOutputWs w).

Definition set_spWPoses (v : list (list TWorker)) (w : Wrapper) : Wrapper :=
  mkWrapper (mThreadManagerMode w) (spVideoSeek w) (mThreadManager w)
    (mGpuNumber w) (mUserInputWsOnNewThread w)
    (mUserPostProcessingWsOnNewThread w) (mUserOutputWsOnNewThread w)
    (mThreadId w) (mMultiThreadEnabled w)
    (mUserInputWs w) (wDatumProducer w) (spWIdGenerator w)
    (spWCvMatToOpInput w) (spWCvMatToOpOutput w) v
    (mPostProcessingWs w) (mUserPostProcessingWs w) (mOutputWs w)
    (spWGui w) (mUserOutputWs w).

Definition set_mPostProcessingWs (v : list TWorker) (w : Wrapper) : Wrapper :=
  mkWrapper (mThreadManagerMode w) (spVideoSeek w) (mThreadManager w)
    (mGpuNumber w) (mUserInputWsOnNewThread w)
    (mUserPostProcessingWsOnNewThread w) (mUserOutputWsOnNewThread w)
    (mThreadId w) (mMultiThreadEnabled w)
    (mUserInputWs w) (wDatumProducer w) (spWIdGenerator w)
    (spWCvMatToOpInput w) (spWCvMatToOpOutput w) (spWPoses w)
    v (mUserPostProcessingWs w) (mOutputWs w)
    (spWGui w) (mUserOutputWs w).

Definition set_mUserPostProcessingWs (v : list TWorker) (w : Wrapper)
  : Wrapper :=
  mkWrapper (mThreadManagerMode w) (spVideoSeek w) (mThreadManager w)
    (mGpuNumber w) (mUserInputWsOnNewThread w)
    (mUserPostProcessingWsOnNewThread w) (mUserOutputWsOnNewThread w)
    (mThreadId w) (mMultiThreadEnabled w)
    (mUserInputWs w) (wDatumProducer w) (spWIdGenerator w)
    (spWCvMatToOpInput w) (spWCvMatToOpOutput w) (spWPoses w)
    (mPostProcessingWs w) v (mOutputWs w)
    (spWGui w) (mUserOutputWs w).

Definition set_mOutputWs (v : list TWorker) (w : Wrapper) : Wrapper :=
  mkWrapper (mThreadManagerMode w) (spVideoSeek w) (mThreadManager w)
    (mGpuNumber w) (mUserInputWsOnNewThread w)
    (mUserPostProcessingWsOnNewThread w) (mUserOutputWsOnNewThread w)
    (mThreadId w) (mMultiThreadEnabled w)
    (mUserInputWs w) (wDatumProducer w) (spWIdGenerator w)
    (spWCvMatToOpInput w) (spWCvMatToOpOutput w) (spWPoses w)
    (mPostProcessingWs w) (mUserPostProcessingWs w) v
    (spWGui w) (mUserOutputWs w).

Definition set_spWGui (v : TWorker) (w : Wrapper) : Wrapper :=
  mkWrapper (mThreadManagerMode w) (spVideoSeek w) (mThreadManager w)
    (mGpuNumber w) (mUserInputWsOnNewThread w)
    (mUserPostProcessingWsOnNewThread w) (mUserOutputWsOnNewThread w)
    (mThreadId w) (mMultiThreadEnabled w)
    (mUserInputWs w) (wDatumProducer w) (spWIdGenerator w)
    (spWCvMatToOpInput w) (spWCvMatToOpOutput w) (spWPoses w)
    (mPostProcessingWs w) (mUserPostProcessingWs w) (mOutputWs w)
    v (mUserOutputWs w).

Definition set_mUserOutputWs (v : list TWorker) (w : Wrapper) : Wrapper :=
  mkWrapper (mThreadManagerMode w) (spVideoSeek w) (mThreadManager w)
    (mGpuNumber w) (mUserInputWsOnNewThread w)
    (mUserPostProcessingWsOnNewThread w) (mUserOutputWsOnNewThread w)
    (mThreadId w) (mMultiThreadEnabled w)
    (mUserInputWs w) (wDatumProducer w) (spWIdGenerator w)
    (spWCvMatToOpInput w) (spWCvMatToOpOutput w) (spWPoses w)
    (mPostProcessingWs w) (mUserPostProcessingWs w) (mOutputWs w)
    (spWGui w) v.

(** A call on the member [mThreadManager]. *)
Definition onThreadManager {A : Type} (m : St ThreadManager.t A) : M A :=
  fun w => let (r, tm) := m (mThreadManager w) in (r, set_mThreadManager tm w).

(** ** Member functions *)

Section WrapperFunctions.

(** [formatAsDirectory] of [utilities/fileSystem.hpp] is not part of
    this file and is taken as it comes. *)
Variable formatAsDirectory : string -> string.

(** Members that the constructor leaves uninitialised hold whatever
    value they happen to hold. *)
Record Indeterminate : Type := mkIndeterminate {
  anyGpuNumber : Z;
  anyInputOnNewThread : bool;
  anyPostProcessingOnNewThread : bool;
  anyOutputOnNewThread : bool;
  anyThreadId : Z
}.

(** [Wrapper(threadManagerMode)].  [cap] is the capacity that the
    scheduler gives to its channels. *)
Definition Wrapper_new (threadManagerMode : ThreadManagerMode)
    (cap : nat) (u : Indeterminate) : Wrapper :=
  mkWrapper threadManagerMode (false, 0)
    (ThreadManager.create threadManagerMode cap)
    (anyGpuNumber u) (anyInputOnNewThread u)
    (anyPostProcessingOnNewThread u) (anyOutputOnNewThread u)
    (anyThreadId u) true
    [] None None None None [] [] [] [] None [].

(** The messages of the errors that later statements name. *)
Definition msgNullWorker : string := "Your worker is a nullptr.".
Definition msgNotConfigured : string :=
  "Configure the Wrapper class before calling `start()`.".
Definition msgOneProducer : string :=
  "You need to have 1 and only 1 producer selected. You can introduce your own producer by using setWorkerInput() or use the OpenPose default producer by configuring it in the configure function) or use the ThreadManagerMode::Asynchronous(In) mode.".
Definition msgNoOutput : string := "No output selected.".
Definition msgNoInput : string := "No input selected.".
Definition msgEmplace : string :=
  "Emplace cannot be called if an input worker was already selected.".
Definition msgPush : string :=
  "Push cannot be called if an input worker was already selected.".
Definition msgPop : string :=
  "Pop cannot be called if an output worker was already selected.".

Definition disableMultiThreading : M unit :=
  tryCatch (modify (set_mMultiThreadEnabled false)).

Definition setWorkerInput (worker : TWorker) (workerOnNewThread : bool)
  : M unit :=
  tryCatch (
    modify (set_mUserInputWs []) ;;;
    when (isNull worker) (error msgNullWorker) ;;;
    modify (fun w => set_mUserInputWs (mUserInputWs w ++ [worker]) w) ;;;
    modify (set_mUserInputWsOnNewThread workerOnNewThread)).

Definition setWorkerPostProcessing (worker : TWorker)
    (workerOnNewThread : bool) : M unit :=
  tryCatch (
    modify (set_mUserPostProcessingWs []) ;;;
    when (isNull worker) (error msgNullWorker) ;;;
    modify (fun w =>
      set_mUserPostProcessingWs (mUserPostProcessingWs w ++ [worker]) w) ;;;
    modify (set_mUserPostProcessingWsOnNewThread workerOnNewThread)).

Definition setWorkerOutput (worker : TWorker) (workerOnNewThread : bool)
  : M unit :=
  tryCatch (
    modify (set_mUserOutputWs []) ;;;
    when (isNull worker) (error msgNullWorker) ;;;
    modify (fun w => set_mUserOutputWs (mUserOutputWs w ++ [worker]) w) ;;;
    modify (set_mUserOutputWsOnNewThread workerOnNewThread)).

(** *** [configure] *)

Definition notAsynchronousOut (m : ThreadManagerMode) : bool :=
  negb (ThreadManagerMode_eqb m Asynchronous)
  && negb (ThreadManagerMode_eqb m AsynchronousOut).

Definition notAsynchronousIn (m : ThreadManagerMode) : bool :=
  negb (ThreadManagerMode_eqb m Asynchronous)
  && negb (ThreadManagerMode_eqb m AsynchronousIn).

Definition additionalMessage : string :=
  " You could also set mThreadManagerMode = mThreadManagerMode::Asynchronous(Out) and/or add your own output worker class before calling this function.".

(** [for (i = 0; i < v.size(); i++) v.at(i).emplace_back(make(i));] *)
Fixpoint emplaceBackEach (make : nat -> Worker) (i : nat)
    (v : list (list TWorker)) : list (list TWorker) :=
  match v with
  | [] => []
  | x :: rest => (x ++ [Some (make i)]) :: emplaceBackEach make (S i) rest
  end.

Definition emplaceBackIf (c : bool) (x : Worker) (v : list TWorker)
  : list TWorker :=
  if c then v ++ [Some x] else v.

(** The checks "no contradictory flags enabled". *)
Definition checkFlags (wrapperStructPose : WrapperStructPose)
    (wrapperStructInput : WrapperStructInput)
    (wrapperStructOutput : WrapperStructOutput) : M unit :=
  when (PrimFloat.ltb (alphaPose wrapperStructPose) 0
        || PrimFloat.ltb 1 (alphaPose wrapperStructPose)
        || PrimFloat.ltb (alphaHeatMap wrapperStructPose) 0
        || PrimFloat.ltb 1 (alphaHeatMap wrapperStructPose))
    (error "Alpha value for blending must be in the range [0,1].") ;;;
  when (PrimFloat.leb (scaleGap wrapperStructPose) 0
        && (1 <? scalesNumber wrapperStructPose))
    (error "The scale gap must be greater than 0 (it has no effect if the number of scales is 1).") ;;;
  when (negb (renderOutput wrapperStructPose)
        && (negb (sempty (writeImages wrapperStructOutput))
            || negb (sempty (writeVideo wrapperStructOutput))))
    (error "In order to save the rendered frames (`write_images` or `write_video`), you must set `render_output` to true.") ;;;
  when (negb (sempty (writeHeatMaps wrapperStructOutput))
        && empty (heatMapTypes wrapperStructPose))
    (error "In order to save the heatmaps (`write_heatmaps`), you need to pick which heat maps you want to save: `heatmaps_add_X` flags or fill the wrapperStructPose.heatMapTypes.") ;;;
  when (negb (sempty (writeHeatMaps wrapperStructOutput))
        && negb (ScaleMode_eqb (heatMapScaleMode wrapperStructPose)
                               UnsignedChar))
    (error "In order to save the heatmaps, you must set wrapperStructPose.heatMapScaleMode to ScaleMode::UnsignedChar, i.e. range [0, 255].") ;;;
  w <- get ;;
  when (empty (mUserOutputWs w)
        && notAsynchronousOut (mThreadManagerMode w))
    (let savingSomething :=
       negb (sempty (writeImages wrapperStructOutput))
       || negb (sempty (writeVideo wrapperStructOutput))
       || negb (sempty (writePose wrapperStructOutput))
       || negb (sempty (writePoseJson wrapperStructOutput))
       || negb (sempty (writeCocoJson wrapperStructOutput))
       || negb (sempty (writeHeatMaps wrapperStructOutput)) in
     when (negb (displayGui wrapperStructOutput) && negb savingSomething)
       (error ("No output is selected (`no_display`) and no results are generated (no `write_X` flags enabled). Thus, no output would be generated."
               ++ additionalMessage)%string) ;;;
     when ((displayGui wrapperStructOutput
            && guiVerbose wrapperStructOutput)
           && negb (renderOutput wrapperStructPose))
       (error ("No render is enabled (`no_render_output`), so you should also remove the display (set `no_display` or `no_gui_verbose`)."
               ++ additionalMessage)%string) ;;;
     when (framesRepeat wrapperStructInput && savingSomething)
       (error "Frames repetition (`frames_repeat`) is enabled as well as some writing function (`write_X`). This program would never stop recording the same frames over and over. Please, disable repetition or remove writing.")) ;;;
  when (negb (sempty (writeVideo wrapperStructOutput))
        && isNull (producerSharedPtr wrapperStructInput))
    (error "Writting video is only available if the OpenPose producer is used (i.e. wrapperStructInput.producerSharedPtr cannot be a nullptr).").

(** "Common parameters": [finalOutputSize] and [producerSize]. *)
Definition commonParameters (wrapperStructPose : WrapperStructPose)
    (wrapperStructInput : WrapperStructInput) : M (Size * Size) :=
  let finalOutputSize := outputSize wrapperStructPose in
  match producerSharedPtr wrapperStructInput with
  | Some producer =>
      let producerSize :=
        mkSize (getFrameWidth producer) (getFrameHeight producer) in
      if (width (outputSize wrapperStructPose) =? -1)
         || (height (outputSize wrapperStructPose) =? -1)
      then
        if 0 <? area producerSize
        then ret (producerSize, producerSize)
        else error "Output resolution = input resolution not valid for image reading (size might change between images)."
      else ret (finalOutputSize, producerSize)
  | None =>
      if (width finalOutputSize =? -1) || (height finalOutputSize =? -1)
      then error "Output resolution cannot be (-1 x -1) unless wrapperStructInput.producerSharedPtr is also set."
      else ret (finalOutputSize, mkSize (-1) (-1))
  end.

(** Pose, face and hand workers of every replica.  An extractor is
    named by the device it is built for,
    [gpuId + wrapperStructPose.gpuNumberStart]; a renderer by its index in
    [spWPoses]. *)
Definition buildPoses (wrapperStructPose : WrapperStructPose)
    (wrapperStructFace : WrapperStructFace)
    (wrapperHandStruct : WrapperStructHand) : list (list TWorker) :=
  let poseExtractors := seq 0 (Z.to_nat (gpuNumber wrapperStructPose)) in
  let poseRenderers :=
    if renderOutput wrapperStructPose then poseExtractors else [] in
  let v0 := map (fun gpuId =>
                   [Some (WPoseExtractor
                            (Z.of_nat gpuId
                             + gpuNumberStart wrapperStructPose))])
                poseExtractors in
  let v1 := if extractAndRenderFace wrapperStructFace
            then emplaceBackEach
                   (fun gpuId =>
                      WFaceExtractor
                        (Z.of_nat gpuId + gpuNumberStart wrapperStructPose))
                   0 v0
            else v0 in
  let v2 := if extractAndRenderHands wrapperHandStruct
            then emplaceBackEach
                   (fun gpuId =>
                      WHandExtractor
                        (Z.of_nat gpuId + gpuNumberStart wrapperStructPose))
                   0 v1
            else v1 in
  let v3 := if negb (empty poseRenderers)
            then emplaceBackEach WPoseRenderer 0 v2 else v2 in
  let v4 := if extractAndRenderHands wrapperHandStruct
            then emplaceBackEach WHandRenderer 0 v3 else v3 in
  if extractAndRenderFace wrapperStructFace
  then emplaceBackEach WFaceRenderer 0 v4 else v4.

(** "Intermediate workers". *)
Definition buildPostProcessing (wrapperStructPose : WrapperStructPose)
    (poses : list (list TWorker))
    (finalOutputSize producerSize : Size) : list TWorker :=
  let netOutputSize := netInputSize wrapperStructPose in
  let p0 := emplaceBackIf (1 <? Z.of_nat (length poses))
              WQueueOrderer [] in
  let p1 := emplaceBackIf (renderOutput wrapperStructPose)
              WOpOutputToCvMat p0 in
  emplaceBackIf
    (negb (ScaleMode_eqb (poseScaleMode wrapperStructPose) OutputResolution)
     && (negb (ScaleMode_eqb (poseScaleMode wrapperStructPose)
                             InputResolution)
         || Size_neqb finalOutputSize producerSize)
     && (negb (ScaleMode_eqb (poseScaleMode wrapperStructPose)
                             NetOutputResolution)
         || Size_neqb finalOutputSize netOutputSize))
    WKeyPointScaler p1.

Definition buildOutput (wrapperStructInput : WrapperStructInput)
    (wrapperStructOutput : WrapperStructOutput) : list TWorker :=
  let writeImagesCleaned :=
    formatAsDirectory (writeImages wrapperStructOutput) in
  let writePoseCleaned :=
    formatAsDirectory (writePose wrapperStructOutput) in
  let writePoseJsonCleaned :=
    formatAsDirectory (writePoseJson wrapperStructOutput) in
  let writeHeatMapsCleaned :=
    formatAsDirectory (writeHeatMaps wrapperStructOutput) in
  let o0 := emplaceBackIf (negb (sempty writePoseCleaned)) WPoseSaver [] in
  let o1 := emplaceBackIf (negb (sempty writePoseJsonCleaned))
              WPoseJsonSaver o0 in
  let o2 := emplaceBackIf (negb (sempty (writeCocoJson wrapperStructOutput)))
              WPoseJsonCocoSaver o1 in
  let o3 := emplaceBackIf (negb (sempty writeImagesCleaned))
              WImageSaver o2 in
  let o4 := emplaceBackIf
              (negb (sempty (writeVideo wrapperStructOutput))
               && negb (isNull (producerSharedPtr wrapperStructInput)))
              WVideoSaver o3 in
  let o5 := emplaceBackIf (negb (sempty writeHeatMapsCleaned))
              WHeatMapSaver o4 in
  emplaceBackIf (displayGui wrapperStructOutput
                 && guiVerbose wrapperStructOutput)
    WGuiInfoAdder o5.

(** The five-argument [configure], to which the other three forward. *)
Definition configure (wrapperStructPose : WrapperStructPose)
    (wrapperStructFace : WrapperStructFace)
    (wrapperHandStruct : WrapperStructHand)
    (wrapperStructInput : WrapperStructInput)
    (wrapperStructOutput : WrapperStructOutput) : M unit :=
  tryCatch (
    checkFlags wrapperStructPose wrapperStructInput wrapperStructOutput ;;;
    sizes <- commonParameters wrapperStructPose wrapperStructInput ;;
    let finalOutputSize := fst sizes in
    let producerSize := snd sizes in
    modify (set_mGpuNumber (gpuNumber wrapperStructPose)) ;;;
    modify (set_wDatumProducer
              (if isNull (producerSharedPtr wrapperStructInput)
               then None else Some WDatumProducer)) ;;;
    modify (set_spWCvMatToOpInput (Some WCvMatToOpInput)) ;;;
    modify (set_spWCvMatToOpOutput (Some WCvMatToOpOutput)) ;;;
    modify (set_spWPoses
              (buildPoses wrapperStructPose wrapperStructFace
                          wrapperHandStruct)) ;;;
    w <- get ;;
    modify (set_mPostProcessingWs
              (buildPostProcessing wrapperStructPose (spWPoses w)
                                   finalOutputSize producerSize)) ;;;
    modify (set_mOutputWs
              (buildOutput wrapperStructInput wrapperStructOutput)) ;;;
    modify (set_spWGui
              (if displayGui wrapperStructOutput
               then Some WGui else None))).

Definition WrapperStructFace_default : WrapperStructFace :=
  mkWrapperStructFace false.

Definition WrapperStructHand_default : WrapperStructHand :=
  mkWrapperStructHand false.

Definition configure3 (wrapperStructPose : WrapperStructPose)
    (wrapperStructInput : WrapperStructInput)
    (wrapperStructOutput : WrapperStructOutput) : M unit :=
  tryCatch (configure wrapperStructPose WrapperStructFace_default
              WrapperStructHand_default wrapperStructInput
              wrapperStructOutput).

Definition configureFace (wrapperStructPose : WrapperStructPose)
    (wrapperStructFace : WrapperStructFace)
    (wrapperStructInput : WrapperStructInput)
    (wrapperStructOutput : WrapperStructOutput) : M unit :=
  tryCatch (configure wrapperStructPose wrapperStructFace
              WrapperStructHand_default wrapperStructInput
              wrapperStructOutput).

Definition configureHand (wrapperStructPose : WrapperStructPose)
    (wrapperHandStruct : WrapperStructHand)
    (wrapperStructInput : WrapperStructInput)
    (wrapperStructOutput : WrapperStructOutput) : M unit :=
  tryCatch (configure wrapperStructPose WrapperStructFace_default
              wrapperHandStruct wrapperStructInput wrapperStructOutput).

(** *** Thread ids, merging, graph construction *)

Definition threadIdPP : M Z :=
  tryCatch (
    w <- get ;;
    when (mMultiThreadEnabled w)
      (modify (fun w => set_mThreadId (wrap32 (mThreadId w + 1)) w)) ;;;
    w' <- get ;;
    ret (mThreadId w')).

Definition mergeWorkers (workersA workersB : list TWorker)
  : list TWorker :=
  fold_left (fun workersToReturn worker => workersToReturn ++ [worker])
            workersB workersA.

(** [mThreadManager.add(threadId, workers, queueIn, queueOut)]. *)
Definition add (tid : Z) (ws : list TWorker) (qIn qOut : Z) : M unit :=
  onThreadManager (ThreadManager.add tid ws qIn qOut).

(** [v.at(i)], which throws [std::out_of_range] past the end. *)
Definition at_ {A : Type} (v : list A) (i : nat) : M A :=
  match nth_error v i with
  | Some x => ret x
  | None => error "vector::_M_range_check"
  end.

(** [for (auto& x : v) body(x);] *)
Fixpoint forEach {A : Type} (v : list A) (body : A -> M unit) : M unit :=
  match v with
  | [] => ret tt
  | x :: rest => body x ;;; forEach rest body
  end.

(** The local variables [queueIn] and [queueOut]. *)
Definition Queues : Type := (Z * Z)%type.
Definition queueIn (q : Queues) : Z := fst q.
Definition queueOut (q : Queues) : Z := snd q.
(** The value of the pair after [queueIn++, queueOut++]. *)
Definition incr (q : Queues) : Queues :=
  (wrap64 (queueIn q + 1), wrap64 (queueOut q + 1)).

(** "Security checks". *)
Definition securityChecks : M unit :=
  w <- get ;;
  when (isNull (spWCvMatToOpInput w) || isNull (spWCvMatToOpOutput w))
    (error msgNotConfigured) ;;;
  when (Bool.eqb (isNull (wDatumProducer w)) (empty (mUserInputWs w))
        && notAsynchronousIn (mThreadManagerMode w))
    (error msgOneProducer) ;;;
  when (empty (mOutputWs w) && empty (mUserOutputWs w)
        && isNull (spWGui w)
        && notAsynchronousOut (mThreadManagerMode w))
    (error msgNoOutput).

(** The producer and the id generator with the two converters. *)
Definition addInput (q : Queues) : M Queues :=
  w <- get ;;
  if negb (empty (mUserInputWs w)) && mUserInputWsOnNewThread w then
    add (mThreadId w) (mUserInputWs w) (queueIn q) (queueOut q) ;;;
    threadIdPP ;;;
    w1 <- get ;;
    add (mThreadId w1)
        [spWIdGenerator w1; spWCvMatToOpInput w1; spWCvMatToOpOutput w1]
        (queueIn (incr q)) (queueOut (incr q)) ;;;
    ret (incr (incr q))
  else
    workersAux <-
      (if negb (empty (mUserInputWs w)) then
         ret (mergeWorkers [] (mUserInputWs w))
       else if negb (isNull (wDatumProducer w)) then
         ret (mergeWorkers [] [wDatumProducer w])
       else if notAsynchronousIn (mThreadManagerMode w) then
         error msgNoInput
       else ret []) ;;
    let workersAux :=
      mergeWorkers workersAux
        [spWIdGenerator w; spWCvMatToOpInput w; spWCvMatToOpOutput w] in
    add (mThreadId w) workersAux (queueIn q) (queueOut q) ;;;
    ret (incr q).

(** "Pose estimation & rendering"; [addReplica] is the body of the
    loop over [spWPoses]. *)
Definition addReplica (q : Queues) (wPose : list TWorker) : M unit :=
  w <- get ;;
  add (mThreadId w) wPose (queueIn q) (queueOut q) ;;;
  threadIdPP ;;;
  ret tt.

Definition addPoses (q : Queues) : M Queues :=
  w <- get ;;
  if negb (empty (spWPoses w)) then
    (if mMultiThreadEnabled w then
       forEach (spWPoses w) (addReplica q)
     else
       wPose <- at_ (spWPoses w) 0 ;;
       add (mThreadId w) wPose (queueIn q) (queueOut q)) ;;;
    ret (incr q)
  else ret q.

(** Post-processing, user post-processing and output workers. *)
Definition addPostProcessing (q : Queues) : M Queues :=
  w <- get ;;
  if negb (empty (mUserPostProcessingWs w))
     && mUserPostProcessingWsOnNewThread w then
    q1 <-
      (if negb (empty (mPostProcessingWs w)) then
         add (mThreadId w) (mPostProcessingWs w) (queueIn q) (queueOut q) ;;;
         threadIdPP ;;;
         ret (incr q)
       else ret q) ;;
    w1 <- get ;;
    add (mThreadId w1) (mUserPostProcessingWs w1)
        (queueIn q1) (queueOut q1) ;;;
    threadIdPP ;;;
    w2 <- get ;;
    if negb (empty (mOutputWs w2)) then
      add (mThreadId w2) (mOutputWs w2)
          (queueIn (incr q1)) (queueOut (incr q1)) ;;;
      threadIdPP ;;;
      ret (incr (incr q1))
    else ret (incr q1)
  else
    let workersAux :=
      mergeWorkers (mPostProcessingWs w) (mUserPostProcessingWs w) in
    let workersAux := mergeWorkers workersAux (mOutputWs w) in
    if negb (empty workersAux) then
      add (mThreadId w) workersAux (queueIn q) (queueOut q) ;;;
      threadIdPP ;;;
      ret (incr q)
    else ret q.

(** "User output worker". *)
Definition addUserOutput (q : Queues) : M Queues :=
  w <- get ;;
  if negb (empty (mUserOutputWs w)) then
    if mUserOutputWsOnNewThread w then
      add (mThreadId w) (mUserOutputWs w) (queueIn q) (queueOut q) ;;;
      threadIdPP ;;;
      ret (incr q)
    else
      add (wrap32 (mThreadId w - 1)) (mUserOutputWs w)
          (queueIn q) (queueOut q) ;;;
      ret (incr q)
  else ret q.

(** "OpenPose GUI". *)
Definition addGui (q : Queues) : M Queues :=
  w <- get ;;
  if negb (isNull (spWGui w)) then
    add (mThreadId w) [spWGui w] (queueIn q) (queueOut q) ;;;
    threadIdPP ;;;
    ret (incr q)
  else ret q.

Definition configureThreadManager : M unit :=
  tryCatch (
    securityChecks ;;;
    onThreadManager (modify ThreadManager.reset) ;;;
    modify (set_mThreadId 0) ;;;
    let q : Queues := (0, 1) in
    modify (set_spWIdGenerator (Some WIdGenerator)) ;;;
    q <- addInput q ;;
    threadIdPP ;;;
    q <- addPoses q ;;
    q <- addPostProcessing q ;;
    q <- addUserOutput q ;;
    q <- addGui q ;;
    ret tt).

(** *** Life cycle *)

Definition exec : M unit :=
  tryCatch (
    configureThreadManager ;;;
    onThreadManager ThreadManager.exec).

Definition start : M unit :=
  tryCatch (
    configureThreadManager ;;;
    onThreadManager ThreadManager.start).

Definition stop : M unit :=
  tryCatch (onThreadManager (modify ThreadManager.stop)).

Definition isRunning : M bool :=
  tryCatch (
    w <- get ;;
    ret (ThreadManager.isRunning (mThreadManager w))).

Definition reset : M unit :=
  tryCatch (
    onThreadManager (modify ThreadManager.reset) ;;;
    modify (set_mThreadId 0) ;;;
    modify (set_mUserInputWs []) ;;;
    modify (set_wDatumProducer None) ;;;
    modify (set_spWCvMatToOpInput None) ;;;
    modify (set_spWCvMatToOpOutput None) ;;;
    modify (set_spWPoses []) ;;;
    modify (set_mPostProcessingWs []) ;;;
    modify (set_mUserPostProcessingWs []) ;;;
    modify (set_mOutputWs []) ;;;
    modify (set_spWGui None) ;;;
    modify (set_mUserOutputWs [])).

(** [~Wrapper()]. *)
Definition Wrapper_delete : M unit :=
  tryCatch (stop ;;; reset).

(** *** Boundary ports

    The blocking variants answer [None] where the call would not return
    before another thread acts on the channel. *)

Definition tryEmplace (tDatums : TDatumsPtr) : M bool :=
  tryCatch (
    w <- get ;;
    when (negb (empty (mUserInputWs w)))
      (error msgEmplace) ;;;
    onThreadManager (ThreadManager.tryEmplace tDatums)).

Definition waitAndEmplace (tDatums : TDatumsPtr) : M (option bool) :=
  tryCatch (
    w <- get ;;
    when (negb (empty (mUserInputWs w)))
      (error msgEmplace) ;;;
    onThreadManager (ThreadManager.waitAndEmplace tDatums)).

Definition tryPush (tDatums : TDatumsPtr) : M bool :=
  tryCatch (
    w <- get ;;
    when (negb (empty (mUserInputWs w)))
      (error msgPush) ;;;
    onThreadManager (ThreadManager.tryPush tDatums)).

Definition waitAndPush (tDatums : TDatumsPtr) : M (option bool) :=
  tryCatch (
    w <- get ;;
    when (negb (empty (mUserInputWs w)))
      (error msgPush) ;;;
    onThreadManager (ThreadManager.waitAndPush tDatums)).

(** [Some d]: the call returns [true] and [tDatums] is [d]. *)
Definition tryPop : M (option TDatumsPtr) :=
  tryCatch (
    w <- get ;;
    when (negb (empty (mUserOutputWs w)))
      (error msgPop) ;;;
    onThreadManager ThreadManager.tryPop).

Definition waitAndPop : M (option (option TDatumsPtr)) :=
  tryCatch (
    w <- get ;;
    when (negb (empty (mUserOutputWs w)))
      (error msgPop) ;;;
    onThreadManager ThreadManager.waitAndPop).

End WrapperFunctions.

(** ** Vocabulary of the statements *)

Abbreviation Stage := ThreadManager.Stage.
Abbreviation mkStage := ThreadManager.mkStage.
Abbreviation threadId := ThreadManager.threadId.
Abbreviation units := ThreadManager.units.
Abbreviation inputChannelIndex := ThreadManager.inputChannelIndex.
Abbreviation outputChannelIndex := ThreadManager.outputChannelIndex.
Abbreviation graph := ThreadManager.graph.
Abbreviation issued := ThreadManager.issued.
Abbreviation stageOk := ThreadManager.stageOk.

(** How many of the two producer slots are filled, and how many of the
    three consumer slots. *)
Definition producers (w : Wrapper) : nat :=
  ((if isNull (wDatumProducer w) then 0 else 1)
   + (if empty (mUserInputWs w) then 0 else 1))%nat.

Definition consumers (w : Wrapper) : nat :=
  ((if empty (mOutputWs w) then 0 else 1)
   + (if empty (mUserOutputWs w) then 0 else 1)
   + (if isNull (spWGui w) then 0 else 1))%nat.

(** [configure] has filled the two converters. *)
Definition configured (w : Wrapper) : Prop :=
  spWCvMatToOpInput w <> None /\ spWCvMatToOpOutput w <> None.

(** All the workers of a graph, in stage order. *)
Definition flatten (g : list Stage) : list TWorker :=
  concat (map units g).

(** The workers that feed the first channel in the graph that
    [configureThreadManager] builds. *)
Definition ingress (w : Wrapper) : list TWorker :=
  if negb (empty (mUserInputWs w)) then mUserInputWs w
  else if negb (isNull (wDatumProducer w)) then [wDatumProducer w]
  else [].

(** *** The calls that graph construction issues

    [addAll cs] hands the stages [cs] to the scheduler one after the
    other and stops at the first one that is refused. *)
Fixpoint addAll (cs : list Stage) : St ThreadManager.t unit :=
  match cs with
  | [] => ret tt
  | c :: rest =>
      ThreadManager.add (threadId c) (units c) (inputChannelIndex c)
                        (outputChannelIndex c) ;;;
      addAll rest
  end.

(** A block of graph construction is summarised by the stages it hands
    over, the thread id it leaves in [mThreadId] and the value it
    returns. *)
Record Plan (A : Type) : Type := mkPlan {
  calls : list Stage;
  tidAfter : Z;
  value : A
}.
Arguments mkPlan {A} _ _ _.
Arguments calls {A} _.
Arguments tidAfter {A} _.
Arguments value {A} _.

(** [m], started in [w], behaves as [p] says: it issues exactly the calls
    of [p] up to the first refused one; if none is refused it returns the
    value of [p] and leaves [tidAfter p] in [mThreadId]; nothing but
    [mThreadManager] and [mThreadId] changes. *)
Definition runs {A : Type} (m : M A) (w : Wrapper) (p : Plan A) : Prop :=
  match addAll (calls p) (mThreadManager w) with
  | (inr _, tm) =>
      m w = (inr (value p), set_mThreadId (tidAfter p) (set_mThreadManager tm w))
  | (inl e, tm) =>
      exists t, m w = (inl e, set_mThreadId t (set_mThreadManager tm w))
  end.

(** [threadIdPP] on the value [t]. *)
Definition pp (w : Wrapper) (t : Z) : Z :=
  if mMultiThreadEnabled w then wrap32 (t + 1) else t.

Definition planInput (w : Wrapper) (t : Z) (q : Queues) : Plan Queues :=
  let sequencer :=
    [spWIdGenerator w; spWCvMatToOpInput w; spWCvMatToOpOutput w] in
  if negb (empty (mUserInputWs w)) && mUserInputWsOnNewThread w then
    mkPlan [mkStage t (mUserInputWs w) (queueIn q) (queueOut q);
            mkStage (pp w t) sequencer
                    (queueIn (incr q)) (queueOut (incr q))]
           (pp w t) (incr (incr q))
  else
    mkPlan [mkStage t (ingress w ++ sequencer) (queueIn q) (queueOut q)]
           t (incr q).

(** One stage per replica, on consecutive threads. *)
Fixpoint planReplicas (t : Z) (q : Queues) (poses : list (list TWorker))
  : Plan unit :=
  match poses with
  | [] => mkPlan [] t tt
  | wPose :: rest =>
      let p := planReplicas (wrap32 (t + 1)) q rest in
      mkPlan (mkStage t wPose (queueIn q) (queueOut q) :: calls p)
             (tidAfter p) (value p)
  end.

Definition planPoses (w : Wrapper) (t : Z) (q : Queues) : Plan Queues :=
  match spWPoses w with
  | [] => mkPlan [] t q
  | wPose :: _ =>
      if mMultiThreadEnabled w then
        let p := planReplicas t q (spWPoses w) in
        mkPlan (calls p) (tidAfter p) (incr q)
      else
        mkPlan [mkStage t wPose (queueIn q) (queueOut q)] t (incr q)
  end.

Definition planPostProcessing (w : Wrapper) (t : Z) (q : Queues)
  : Plan Queues :=
  if negb (empty (mUserPostProcessingWs w))
     && mUserPostProcessingWsOnNewThread w then
    let p1 :=
      if negb (empty (mPostProcessingWs w)) then
        mkPlan [mkStage t (mPostProcessingWs w) (queueIn q) (queueOut q)]
               (pp w t) (incr q)
      else mkPlan [] t q in
    let t1 := tidAfter p1 in
    let q1 := value p1 in
    let user :=
      mkStage t1 (mUserPostProcessingWs w) (queueIn q1) (queueOut q1) in
    if negb (empty (mOutputWs w)) then
      mkPlan (calls p1 ++
              [user;
               mkStage (pp w t1) (mOutputWs w)
                       (queueIn (incr q1)) (queueOut (incr q1))])
             (pp w (pp w t1)) (incr (incr q1))
    else mkPlan (calls p1 ++ [user]) (pp w t1) (incr q1)
  else
    let workersAux :=
      (mPostProcessingWs w ++ mUserPostProcessingWs w) ++ mOutputWs w in
    if negb (empty workersAux) then
      mkPlan [mkStage t workersAux (queueIn q) (queueOut q)] (pp w t) (incr q)
    else mkPlan [] t q.

Definition planUserOutput (w : Wrapper) (t : Z) (q : Queues)
  : Plan Queues :=
  if negb (empty (mUserOutputWs w)) then
    if mUserOutputWsOnNewThread w then
      mkPlan [mkStage t (mUserOutputWs w) (queueIn q) (queueOut q)]
             (pp w t) (incr q)
    else
      mkPlan [mkStage (wrap32 (t - 1)) (mUserOutputWs w)
                      (queueIn q) (queueOut q)]
             t (incr q)
  else mkPlan [] t q.

Definition planGui (w : Wrapper) (t : Z) (q : Queues) : Plan Queues :=
  if negb (isNull (spWGui w)) then
    mkPlan [mkStage t [spWGui w] (queueIn q) (queueOut q)] (pp w t) (incr q)
  else mkPlan [] t q.

(** The whole construction, from [mThreadId = 0] and queues 0 and 1. *)
Definition planGraph (w : Wrapper) : Plan unit :=
  let p1 := planInput w 0 (0, 1) in
  let p2 := planPoses w (pp w (tidAfter p1)) (value p1) in
  let p3 := planPostProcessing w (tidAfter p2) (value p2) in
  let p4 := planUserOutput w (tidAfter p3) (value p3) in
  let p5 := planGui w (tidAfter p4) (value p4) in
  mkPlan (calls p1 ++ calls p2 ++ calls p3 ++ calls p4 ++ calls p5)
         (tidAfter p5) tt.

(** The state in which the stages are added: scheduler reset, thread id
    0, a new id generator. *)
Definition prepared (w : Wrapper) : Wrapper :=
  set_spWIdGenerator (Some WIdGenerator)
    (set_mThreadId 0
       (set_mThreadManager (ThreadManager.reset (mThreadManager w)) w)).

(** The statements of [configureThreadManager] that follow the creation
    of the id generator. *)
Definition buildGraph : M unit :=
  q <- addInput (0, 1) ;;
  threadIdPP ;;;
  q <- addPoses q ;;
  q <- addPostProcessing q ;;
  q <- addUserOutput q ;;
  q <- addGui q ;;
  ret tt.

(** Some producer is selected, or the first channel is a boundary port. *)
Definition inputSelected (w : Wrapper) : bool :=
  negb (empty (mUserInputWs w)) || negb (isNull (wDatumProducer w))
  || negb (notAsynchronousIn (mThreadManagerMode w)).

(** The stages that graph construction hands to the scheduler. *)
Definition plannedStages (w : Wrapper) : list Stage :=
  calls (planGraph (prepared w)).

(** The scheduler accepts the stages [cs] one after the other on top of
    the graph [g]. *)
Fixpoint chainOk (g cs : list Stage) : bool :=
  match cs with
  | [] => true
  | c :: rest => stageOk g c && chainOk (g ++ [c]) rest
  end.

(** Thread ids never decrease along a list of stages. *)
Fixpoint nonDecreasing (cs : list Stage) : Prop :=
  match cs with
  | [] => True
  | c :: rest =>
      match rest with
      | [] => True
      | d :: _ => threadId c <= threadId d
      end /\ nonDecreasing rest
  end.

(** *** Objects that the public functions can produce *)

(** The worker slots of the object. *)
Definition slots (w : Wrapper) : list TWorker :=
  mUserInputWs w
  ++ [wDatumProducer w; spWCvMatToOpInput w; spWCvMatToOpOutput w]
  ++ concat (spWPoses w)
  ++ mPostProcessingWs w ++ mUserPostProcessingWs w ++ mOutputWs w
  ++ [spWGui w] ++ mUserOutputWs w.

(** The id generator is in no slot but its own, and the number of
    replicas is an [int]. *)
Definition wellFormed (w : Wrapper) : Prop :=
  ~ In (Some WIdGenerator) (slots w)
  /\ Z.of_nat (length (spWPoses w)) < 2 ^ 31.

(** A call of a public member function.  The caller's workers are
    objects of the caller ([None] is [nullptr]). *)
Inductive Call : Type :=
| CallDisableMultiThreading
| CallSetWorkerInput (worker : option nat) (workerOnNewThread : bool)
| CallSetWorkerPostProcessing (worker : option nat)
                              (workerOnNewThread : bool)
| CallSetWorkerOutput (worker : option nat) (workerOnNewThread : bool)
| CallConfigure (wrapperStructPose : WrapperStructPose)
                (wrapperStructFace : WrapperStructFace)
                (wrapperHandStruct : WrapperStructHand)
                (wrapperStructInput : WrapperStructInput)
                (wrapperStructOutput : WrapperStructOutput)
| CallExec
| CallStart
| CallStop
| CallTryEmplace (tDatums : TDatumsPtr)
| CallWaitAndEmplace (tDatums : TDatumsPtr)
| CallTryPush (tDatums : TDatumsPtr)
| CallWaitAndPush (tDatums : TDatumsPtr)
| CallTryPop
| CallWaitAndPop.

Definition ignore {A : Type} (m : M A) : M unit :=
  fun w => let (r, w') := m w in
           (match r with inl e => inl e | inr _ => inr tt end, w').

Definition perform (formatAsDirectory : string -> string) (c : Call)
  : M unit :=
  match c with
  | CallDisableMultiThreading => disableMultiThreading
  | CallSetWorkerInput n b => setWorkerInput (option_map WUser n) b
  | CallSetWorkerPostProcessing n b =>
      setWorkerPostProcessing (option_map WUser n) b
  | CallSetWorkerOutput n b => setWorkerOutput (option_map WUser n) b
  | CallConfigure p f h i o => configure formatAsDirectory p f h i o
  | CallExec => exec
  | CallStart => start
  | CallStop => stop
  | CallTryEmplace d => ignore (tryEmplace d)
  | CallWaitAndEmplace d => ignore (waitAndEmplace d)
  | CallTryPush d => ignore (tryPush d)
  | CallWaitAndPush d => ignore (waitAndPush d)
  | CallTryPop => ignore tryPop
  | CallWaitAndPop => ignore waitAndPop
  end.

(** [gpuNumber] is an [int]. *)
Definition wellTyped (c : Call) : Prop :=
  match c with
  | CallConfigure p _ _ _ _ => gpuNumber p < 2 ^ 31
  | _ => True
  end.

Inductive reachable (formatAsDirectory : string -> string)
  : Wrapper -> Prop :=
| reachable_new (m : ThreadManagerMode) (cap : nat) (u : Indeterminate) :
    reachable formatAsDirectory (Wrapper_new m cap u)
| reachable_call (c : Call) (w : Wrapper) :
    reachable formatAsDirectory w -> wellTyped c ->
    reachable formatAsDirectory (snd (perform formatAsDirectory c w)).

(** *** Objects used as examples *)

(** A formatter that leaves the empty path empty. *)
Definition asDirectory (s : string) : string :=
  if sempty s then s else (s ++ "/")%string.

Definition anyValues : Indeterminate :=
  mkIndeterminate 0 false false false 0.

Definition poseOn (gpus : Z) : WrapperStructPose :=
  mkWrapperStructPose (mkSize 656 368) (mkSize 1280 720) 1 0.25%float true
    0.5%float 0.5%float [] UnsignedChar InputResolution gpus 0.

Definition videoInput : WrapperStructInput :=
  mkWrapperStructInput (Some (mkProducer 1280 720)) false false.

Definition noPath : string := EmptyString.

Definition noOutput : WrapperStructOutput :=
  mkWrapperStructOutput false false false noPath noPath noPath noPath
    noPath noPath.

Definition guiOutput : WrapperStructOutput :=
  mkWrapperStructOutput true false false noPath noPath noPath noPath
    noPath noPath.

Definition guiAndPoseFiles : WrapperStructOutput :=
  mkWrapperStructOutput true false false "poses" noPath noPath noPath
    noPath noPath.

Definition after {A : Type} (m : M A) (w : Wrapper) : Wrapper := snd (m w).

(** [Wrapper(Asynchronous)], [configure] with a video producer,
    [start()]. *)
Definition asynchronousWithProducer : Wrapper :=
  after start
    (after (configure3 asDirectory (poseOn 1) videoInput noOutput)
       (Wrapper_new Asynchronous 1 anyValues)).

(** [Wrapper(Asynchronous)], [configure] that writes pose files and shows
    the GUI, [start()]. *)
Definition asynchronousWithConsumers : Wrapper :=
  after start
    (after (configure3 asDirectory (poseOn 1) videoInput guiAndPoseFiles)
       (Wrapper_new Asynchronous 1 anyValues)).

(** [Wrapper(Synchronous)] configured with two consumers: a pose saver
    and the GUI. *)
Definition twoConsumers : Wrapper :=
  after (configure3 asDirectory (poseOn 1) videoInput guiAndPoseFiles)
    (Wrapper_new Synchronous 1 anyValues).

(** [Wrapper(Synchronous)] configured with a video producer and the
    GUI, on [gpus] devices. *)
Definition videoToGui (gpus : Z) : Wrapper :=
  after (configure3 asDirectory (poseOn gpus) videoInput guiOutput)
    (Wrapper_new Synchronous 1 anyValues).

(** [disableMultiThreading()], [setWorkerOutput(worker, false)],
    [configure] with a video producer and the GUI on two devices. *)
Definition singleThreadUserOutput : Wrapper :=
  after (configure3 asDirectory (poseOn 2) videoInput guiOutput)
    (after (setWorkerOutput (Some (WUser 0)) false)
       (after disableMultiThreading
          (Wrapper_new Synchronous 1 anyValues))).

(** The same without the GUI. *)
Definition singleThreadUserOutputNoGui : Wrapper :=
  after (configure3 asDirectory (poseOn 2) videoInput noOutput)
    (after (setWorkerOutput (Some (WUser 0)) false)
       (after disableMultiThreading
          (Wrapper_new Synchronous 1 anyValues))).

(** A user input worker on the caller's side and a user output worker. *)
Definition userInputAndOutput : Wrapper :=
  after (configure3 asDirectory (poseOn 2)
           (mkWrapperStructInput None false false) noOutput)
    (after (setWorkerOutput (Some (WUser 1)) true)
       (after (setWorkerInput (Some (WUser 0)) true)
          (Wrapper_new Synchronous 1 anyValues))).

(** What the security checks answer. *)
Definition checksOutcome (w : Wrapper) : Result unit :=
  if isNull (spWCvMatToOpInput w) || isNull (spWCvMatToOpOutput w)
  then inl (ConfigurationError msgNotConfigured)
  else if Bool.eqb (isNull (wDatumProducer w)) (empty (mUserInputWs w))
          && notAsynchronousIn (mThreadManagerMode w)
  then inl (ConfigurationError msgOneProducer)
  else if empty (mOutputWs w) && empty (mUserOutputWs w)
          && isNull (spWGui w)
          && notAsynchronousOut (mThreadManagerMode w)
  then inl (ConfigurationError msgNoOutput)
  else inr tt.

(** The object after a [configure] that returns. *)
Definition configuredWith (formatAsDirectory : string -> string)
    (p : WrapperStructPose) (f : WrapperStructFace) (h : WrapperStructHand)
    (i : WrapperStructInput) (o : WrapperStructOutput)
    (finalOutputSize producerSize : Size) (w : Wrapper) : Wrapper :=
  mkWrapper (mThreadManagerMode w) (spVideoSeek w) (mThreadManager w)
    (gpuNumber p) (mUserInputWsOnNewThread w)
    (mUserPostProcessingWsOnNewThread w) (mUserOutputWsOnNewThread w)
    (mThreadId w) (mMultiThreadEnabled w) (mUserInputWs w)
    (if isNull (producerSharedPtr i) then None else Some WDatumProducer)
    (spWIdGenerator w) (Some WCvMatToOpInput) (Some WCvMatToOpOutput)
    (buildPoses p f h)
    (buildPostProcessing p (buildPoses p f h) finalOutputSize producerSize)
    (mUserPostProcessingWs w) (buildOutput formatAsDirectory i o)
    (if displayGui o then Some WGui else None) (mUserOutputWs w).

Definition notIdGenerator (y : TWorker) : Prop := y <> Some WIdGenerator.

(** The result is the error with the message [msg]. *)
Definition raisesWith {A : Type} (r : Result A) (msg : string) : Prop :=
  r = inl (ConfigurationError msg).

(** [chainFrom last cs]: the stages [cs] are accepted one after the other
    when the thread id of the last accepted stage is [last]. *)
Fixpoint chainFrom (last : option Z) (cs : list Stage) : bool :=
  match cs with
  | [] => true
  | c :: rest =>
      (inputChannelIndex c <? outputChannelIndex c)
      && match last with
         | None => true
         | Some t0 => t0 <=? threadId c
         end
      && chainFrom (Some (threadId c)) rest
  end.

Fixpoint lastOf (last : option Z) (cs : list Stage) : option Z :=
  match cs with
  | [] => last
  | c :: rest => lastOf (Some (threadId c)) rest
  end.

(** The two queue indices are consecutive and at most [n]. *)
Definition consecutive (n : Z) (q : Queues) : Prop :=
  queueOut q = queueIn q + 1 /\ 0 <= queueIn q <= n.

(** The one configuration in which the thread id of the user output
    worker wraps around and the GUI follows it. *)
Definition wrappedBeforeGui (w : Wrapper) : bool :=
  negb (mMultiThreadEnabled w) && negb (empty (mUserOutputWs w))
  && negb (mUserOutputWsOnNewThread w) && negb (isNull (spWGui w)).

(** What a block contributes to the chain: it is accepted after [last],
    leaves [last'] as the last thread id and [t'] in [mThreadId], and
    keeps the queue indices consecutive. *)
Definition block (last : option Z) (p : Plan Queues) (last' : option Z)
    (t' n : Z) : Prop :=
  chainFrom last (calls p) = true /\ lastOf last (calls p) = last'
  /\ tidAfter p = t' /\ consecutive n (value p).

(** Between two blocks, in multi-thread mode the last stage is on the
    thread before [mThreadId]; in single-thread mode both are 0. *)
Definition threadInv (w : Wrapper) (bound : Z) (last : option Z) (t : Z)
  : Prop :=
  last = Some (if mMultiThreadEnabled w then t - 1 else t)
  /\ (if mMultiThreadEnabled w then 1 <= t <= bound else t = 0).

Definition onThreadZero (s : Stage) : Prop := threadId s = 0.

(** The workers that graph construction puts after the replicas. *)
Definition postWorkers (w : Wrapper) : list TWorker :=
  (mPostProcessingWs w ++ mUserPostProcessingWs w ++ mOutputWs w)
  ++ mUserOutputWs w ++ (if isNull (spWGui w) then [] else [spWGui w]).

(** The replicas that graph construction adds: all of them, or the first
    one in single-thread mode. *)
Definition addedReplicas (w : Wrapper) : list (list TWorker) :=
  if mMultiThreadEnabled w then spWPoses w else firstn 1 (spWPoses w).

(** The shape of a graph: the stages [pre], then the stage [sequencer]
    whose units are [ing] followed by the id generator and the two
    converters, then the replicas, then the stages [post]. *)
Definition graphShape (w : Wrapper) (g : list Stage)
    (pre : list Stage) (sequencer : Stage) (replicas post : list Stage)
    (ing : list TWorker) : Prop :=
  g = pre ++ sequencer :: replicas ++ post
  /\ flatten pre ++ ing = ingress w
  /\ units sequencer
     = ing ++ [Some WIdGenerator; spWCvMatToOpInput w; spWCvMatToOpOutput w]
  /\ map units replicas = addedReplicas w
  /\ Forall (fun r => inputChannelIndex r = outputChannelIndex sequencer)
            replicas
  /\ flatten post = postWorkers w.

(** A slot for a user worker is empty or holds one worker of the
    caller. *)
Definition userSlot (l : list TWorker) : Prop :=
  l = [] \/ exists n, l = [Some (WUser n)].

(** No producer: [producerSharedPtr = nullptr]. *)
Definition noInput : WrapperStructInput :=
  mkWrapperStructInput None false false.

(** The object [w] with other leftovers of an earlier run: another
    scheduler state, another thread id, another id generator. *)
Definition withLeftovers (tm : ThreadManager.t) (t : Z) (g : TWorker)
    (w : Wrapper) : Wrapper :=
  set_spWIdGenerator g (set_mThreadId t (set_mThreadManager tm w)).

(** What a call of [setWorker*] leaves in its slot. *)
Definition slotOf (worker : option nat) : list TWorker :=
  match worker with
  | None => []
  | Some n => [Some (WUser n)]
  end.

(** The members that only the caller's own calls decide: the three user
    slots, the debug switch and the mode. *)
Definition userSide (w : Wrapper)
  : list TWorker * list TWorker * list TWorker * bool * ThreadManagerMode :=
  (mUserInputWs w, mUserPostProcessingWs w, mUserOutputWs w,
   mMultiThreadEnabled w, mThreadManagerMode w).

(** The user side after the call [c]. *)
Definition userSideAfter (c : Call) (w : Wrapper)
  : list TWorker * list TWorker * list TWorker * bool * ThreadManagerMode :=
  match c with
  | CallDisableMultiThreading =>
      (mUserInputWs w, mUserPostProcessingWs w, mUserOutputWs w, false,
       mThreadManagerMode w)
  | CallSetWorkerInput n _ =>
      (slotOf n, mUserPostProcessingWs w, mUserOutputWs w,
       mMultiThreadEnabled w, mThreadManagerMode w)
  | CallSetWorkerPostProcessing n _ =>
      (mUserInputWs w, slotOf n, mUserOutputWs w,
       mMultiThreadEnabled w, mThreadManagerMode w)
  | CallSetWorkerOutput n _ =>
      (mUserInputWs w, mUserPostProcessingWs w, slotOf n,
       mMultiThreadEnabled w, mThreadManagerMode w)
  | _ => userSide w
  end.

(** A stage writes the channel after the one it reads. *)
Definition consecutiveQueues (s : Stage) : Prop :=
  outputChannelIndex s = inputChannelIndex s + 1
  /\ 0 <= inputChannelIndex s.

(** The stages [cs] are on the threads [t], [t + 1], [t + 2], ..., one
    thread each. *)
Definition ownThreads (t : Z) (cs : list Stage) : Prop :=
  map threadId cs = map (fun k => t + Z.of_nat k) (seq 0 (length cs)).

(** The workers of the replica at index [i] of [spWPoses], in the order
    in which [configure] appends them: the extractors are the ones built
    for the device [i + gpuNumberStart], the renderers the ones built in
    the [i]-th turn of their loops. *)
Definition replica (p : WrapperStructPose) (f : WrapperStructFace)
    (h : WrapperStructHand) (i : nat) : list TWorker :=
  let device := Z.of_nat i + gpuNumberStart p in
  [Some (WPoseExtractor device)]
  ++ (if extractAndRenderFace f then [Some (WFaceExtractor device)] else [])
  ++ (if extractAndRenderHands h then [Some (WHandExtractor device)] else [])
  ++ (if renderOutput p then [Some (WPoseRenderer i)] else [])
  ++ (if extractAndRenderHands h then [Some (WHandRenderer i)] else [])
  ++ (if extractAndRenderFace f then [Some (WFaceRenderer i)] else []).

(** A formatter keeps a path that is not empty from becoming empty. *)
Definition keepsPaths (formatAsDirectory : string -> string) : Prop :=
  forall s, sempty s = false -> sempty (formatAsDirectory s) = false.

(** The stages [cs] are chained from channel [qi]: the first one reads
    [qi], each one writes the channel after the one it reads, and each
    later one reads the channel that the stage before it writes. *)
Fixpoint chained (qi : Z) (cs : list Stage) : Prop :=
  match cs with
  | [] => True
  | c :: rest =>
      inputChannelIndex c = qi /\ outputChannelIndex c = qi + 1
      /\ chained (qi + 1) rest
  end.

(** The stages [rs] stand side by side: all of them read channel [qi]
    and write channel [qi + 1]. *)
Definition sideBySide (qi : Z) (rs : list Stage) : Prop :=
  Forall (fun r => inputChannelIndex r = qi /\ outputChannelIndex r = qi + 1)
         rs.

(** Every member but the three user slots. *)
Definition otherMembers (w : Wrapper) :=
  (mThreadManagerMode w, spVideoSeek w, mThreadManager w, mGpuNumber w,
   mUserInputWsOnNewThread w, mUserPostProcessingWsOnNewThread w,
   mUserOutputWsOnNewThread w, mThreadId w, mMultiThreadEnabled w,
   wDatumProducer w, spWIdGenerator w, spWCvMatToOpInput w,
   spWCvMatToOpOutput w, spWPoses w, mPostProcessingWs w, mOutputWs w,
   spWGui w).

(** A call other than [configure]. *)
Definition notConfigure (c : Call) : Prop :=
  match c with
  | CallConfigure _ _ _ _ _ => False
  | _ => True
  end.

(** One of the checks of [configure] raises: a check on the flags or a
    check on the output resolution. *)
Definition rejectedByChecks (p : WrapperStructPose) (i : WrapperStructInput)
    (o : WrapperStructOutput) (w : Wrapper) : Prop :=
  raises (fst (checkFlags p i o w)) \/ raises (fst (commonParameters p i w)).

(** The objects on which no [configure] has got past its checks: a new
    Wrapper, and what any public function other than [configure], or a
    [configure] that its checks reject, makes of such an object. *)
Inductive neverConfigured (formatAsDirectory : string -> string)
  : Wrapper -> Prop :=
| neverConfigured_new (m : ThreadManagerMode) (cap : nat)
    (u : Indeterminate) :
    neverConfigured formatAsDirectory (Wrapper_new m cap u)
| neverConfigured_call (c : Call) (w : Wrapper) :
    neverConfigured formatAsDirectory w -> notConfigure c ->
    neverConfigured formatAsDirectory (snd (perform formatAsDirectory c w))
| neverConfigured_rejected (p : WrapperStructPose) (f : WrapperStructFace)
    (h : WrapperStructHand) (i : WrapperStructInput)
    (o : WrapperStructOutput) (w : Wrapper) :
    neverConfigured formatAsDirectory w -> rejectedByChecks p i o w ->
    neverConfigured formatAsDirectory
      (snd (configure formatAsDirectory p f h i o w)).

(** [setWorkerInput(worker, true)], [disableMultiThreading()], a
    [configure] that is rejected for want of an output, [stop()]. *)
Definition rejectedThenStopped : Wrapper :=
  snd (perform asDirectory CallStop
         (snd (configure asDirectory (poseOn 1) WrapperStructFace_default
                 WrapperStructHand_default noInput noOutput
                 (snd (perform asDirectory CallDisableMultiThreading
                         (snd (perform asDirectory
                                 (CallSetWorkerInput (Some 0%nat) true)
                                 (Wrapper_new Synchronous 1 anyValues)))))))).

(** * Proofs *)

(** ** The monad and the blocks of graph construction *)

(** [destruct] with the names used below for the members. *)
Ltac destruct_wrapper w :=
  destruct w as [fMode fSeek fTm fGpus fInT fPpT fOutT fTid fMulti fUserIn
                 fProd fIdGen fCvIn fCvOut fPoses fPost fUserPost fOut fGui
                 fUserOut].

Lemma tryCatch_eq {S A : Type} (m : St S A) (s : S) : tryCatch m s = m s.
Proof.
  unfold tryCatch, error. destruct (m s) as [[e | a] s']; [destruct e |]; reflexivity.
Qed.

Lemma mergeWorkers_app (a b : list TWorker) : mergeWorkers a b = a ++ b.
Proof.
  unfold mergeWorkers. revert a.
  induction b as [| x b IH]; intro a; simpl.
  - now rewrite app_nil_r.
  - rewrite IH, <- app_assoc. reflexivity.
Qed.

Lemma set_same (w : Wrapper) :
  set_mThreadId (mThreadId w) (set_mThreadManager (mThreadManager w) w) = w.
Proof. destruct_wrapper w; reflexivity. Qed.

Lemma bind_assoc {S A B C : Type} (m : St S A) (f : A -> St S B)
    (g : B -> St S C) (s : S) :
  bind (bind m f) g s = bind m (fun x => bind (f x) g) s.
Proof.
  unfold bind. destruct (m s) as [[e | a] s1]; reflexivity.
Qed.

Lemma addAll_app (a b : list Stage) (tm : ThreadManager.t) :
  addAll (a ++ b) tm = (addAll a ;;; addAll b) tm.
Proof.
  revert tm. induction a as [| c a IH]; intro tm; simpl.
  - reflexivity.
  - rewrite bind_assoc. unfold bind at 1 2.
    destruct (ThreadManager.add _ _ _ _ tm) as [[e | []] tm1]; [reflexivity |].
    apply IH.
Qed.

Lemma runs_ret {A : Type} (a : A) (w : Wrapper) :
  runs (ret a) w (mkPlan [] (mThreadId w) a).
Proof. unfold runs; simpl. now rewrite set_same. Qed.

Lemma runs_get {A : Type} (k : Wrapper -> M A) (w : Wrapper) (p : Plan A) :
  runs (k w) w p -> runs (bind get k) w p.
Proof. unfold runs, bind, get. auto. Qed.

Lemma runs_add (tid : Z) (ws : list TWorker) (qi qo : Z) (w : Wrapper) :
  runs (add tid ws qi qo) w (mkPlan [mkStage tid ws qi qo] (mThreadId w) tt).
Proof.
  unfold runs, add, onThreadManager; simpl. unfold bind, ret.
  destruct (ThreadManager.add tid ws qi qo (mThreadManager w)) as [[e | []] tm].
  - exists (mThreadId w). destruct_wrapper w; reflexivity.
  - destruct_wrapper w; reflexivity.
Qed.

Lemma runs_threadIdPP (w : Wrapper) :
  runs threadIdPP w (mkPlan [] (pp w (mThreadId w)) (pp w (mThreadId w))).
Proof.
  unfold runs, threadIdPP, pp; simpl. rewrite tryCatch_eq.
  unfold bind, get, when, modify, ret.
  destruct_wrapper w; simpl. destruct fMulti; reflexivity.
Qed.

Lemma runs_bind {A B : Type} (m : M A) (k : A -> M B) (w : Wrapper)
    (p1 : Plan A) (p2 : Plan B) :
  runs m w p1 ->
  (forall tm, runs (k (value p1))
                   (set_mThreadId (tidAfter p1) (set_mThreadManager tm w)) p2) ->
  runs (bind m k) w (mkPlan (calls p1 ++ calls p2) (tidAfter p2) (value p2)).
Proof.
  unfold runs; simpl. intros H1 H2. rewrite addAll_app. unfold bind at 1.
  destruct (addAll (calls p1) (mThreadManager w)) as [[e | []] tm1].
  - destruct H1 as [t H1]. exists t. unfold bind. now rewrite H1.
  - specialize (H2 tm1). simpl in H2. unfold bind. rewrite H1.
    destruct (addAll (calls p2) tm1) as [[e | []] tm2].
    + destruct H2 as [t H2]. exists t. rewrite H2. destruct_wrapper w; reflexivity.
    + rewrite H2. destruct_wrapper w; reflexivity.
Qed.

Arguments ThreadManager.add : simpl never.
Arguments mergeWorkers : simpl never.
Arguments wrap32 : simpl never.
Arguments wrap64 : simpl never.

Ltac unfold_m :=
  unfold add, onThreadManager, threadIdPP, at_;
  repeat rewrite tryCatch_eq;
  unfold bind, get, when, modify, ret, error.

Ltac step_add :=
  match goal with
  | |- context [ThreadManager.add ?a ?b ?c ?d ?tm] =>
      destruct (ThreadManager.add a b c d tm) as [[?e | []] ?tm]
  end.

Ltac norm :=
  repeat first [ progress (cbv beta zeta) | progress simpl
               | rewrite mergeWorkers_app | rewrite app_nil_r
               | progress unfold_m ].

Ltac finish_runs :=
  simpl; try (eexists; reflexivity); try reflexivity.

Lemma runs_addGui (q : Queues) (w : Wrapper) :
  runs (addGui q) w (planGui w (mThreadId w) q).
Proof.
  unfold runs, addGui, planGui, pp.
  destruct_wrapper w; simpl. unfold bind at 1, get at 1; simpl.
  destruct fGui, fMulti; simpl;
    unfold_m; simpl; repeat (step_add; simpl); finish_runs.
Qed.

Lemma runs_addUserOutput (q : Queues) (w : Wrapper) :
  runs (addUserOutput q) w (planUserOutput w (mThreadId w) q).
Proof.
  unfold runs, addUserOutput, planUserOutput, pp.
  destruct_wrapper w; simpl. unfold bind at 1, get at 1; simpl.
  destruct fUserOut, fOutT, fMulti; simpl;
    unfold_m; simpl; repeat (step_add; simpl); finish_runs.
Qed.

Lemma runs_addPostProcessing (q : Queues) (w : Wrapper) :
  runs (addPostProcessing q) w (planPostProcessing w (mThreadId w) q).
Proof.
  unfold runs, addPostProcessing, planPostProcessing, pp.
  destruct_wrapper w; simpl. unfold bind at 1, get at 1; simpl.
  destruct fUserPost, fPpT, fPost, fOut, fMulti; simpl.
  all: norm; repeat (step_add; norm); finish_runs.
Qed.

Lemma runs_addInput (q : Queues) (w : Wrapper) :
  inputSelected w = true ->
  runs (addInput q) w (planInput w (mThreadId w) q).
Proof.
  unfold inputSelected, runs, addInput, planInput, ingress, pp.
  destruct_wrapper w; simpl. unfold bind at 1, get at 1; simpl.
  destruct fUserIn, fInT, fProd, fMulti; simpl; intro Hsel;
    norm;
    try (destruct (notAsynchronousIn fMode); try discriminate);
    norm; repeat (step_add; norm); finish_runs.
Qed.

Lemma runs_addReplica (q : Queues) (wPose : list TWorker) (w : Wrapper) :
  mMultiThreadEnabled w = true ->
  runs (addReplica q wPose) w
       (mkPlan [mkStage (mThreadId w) wPose (queueIn q) (queueOut q)]
               (wrap32 (mThreadId w + 1)) tt).
Proof.
  unfold addReplica, runs. destruct_wrapper w; simpl. intros ->.
  norm; repeat (step_add; norm); finish_runs.
Qed.

Lemma runs_replicas (q : Queues) (poses : list (list TWorker)) :
  forall w : Wrapper,
    mMultiThreadEnabled w = true ->
    runs (forEach poses (addReplica q)) w
         (planReplicas (mThreadId w) q poses).
Proof.
  induction poses as [| wPose rest IH]; intros w Hm.
  - apply runs_ret.
  - simpl forEach. simpl planReplicas.
    pose proof (runs_bind _ (fun _ => forEach rest (addReplica q)) w _
                  (planReplicas (wrap32 (mThreadId w + 1)) q rest)
                  (runs_addReplica q wPose w Hm)) as H.
    simpl in H. apply H. intro tm.
    specialize (IH (set_mThreadId (wrap32 (mThreadId w + 1))
                                  (set_mThreadManager tm w))).
    simpl in IH. apply IH. destruct_wrapper w; assumption.
Qed.

Lemma runs_addPoses (q : Queues) (w : Wrapper) :
  runs (addPoses q) w (planPoses w (mThreadId w) q).
Proof.
  unfold addPoses, planPoses. apply runs_get.
  destruct (spWPoses w) as [| wPose rest] eqn:Hp; cbn [empty negb].
  - apply runs_ret.
  - destruct (mMultiThreadEnabled w) eqn:Hm.
    + rewrite <- Hp.
      pose proof (runs_bind _ (fun _ => ret (incr q)) w _
                    (mkPlan [] (tidAfter (planReplicas (mThreadId w) q (spWPoses w))) (incr q))
                    (runs_replicas q (spWPoses w) w Hm)) as H.
      simpl in H. rewrite app_nil_r in H. apply H. intro tm.
      pose proof (runs_ret (incr q) (set_mThreadId
           (tidAfter (planReplicas (mThreadId w) q (spWPoses w)))
           (set_mThreadManager tm w))) as H1.
      simpl in H1. exact H1.
    + unfold runs. destruct_wrapper w; simpl in *. subst.
      norm; repeat (step_add; norm); finish_runs.
Qed.

Lemma runs_then_ret {A B : Type} (m : M A) (b : B) (w : Wrapper)
    (p : Plan A) :
  runs m w p ->
  runs (bind m (fun _ => ret b)) w (mkPlan (calls p) (tidAfter p) b).
Proof.
  intro H.
  pose proof (runs_bind m (fun _ => ret b) w p (mkPlan [] (tidAfter p) b) H)
    as H1.
  simpl in H1. rewrite app_nil_r in H1. apply H1. intro tm.
  exact (runs_ret b (set_mThreadId (tidAfter p) (set_mThreadManager tm w))).
Qed.

Lemma runs_buildGraph (w : Wrapper) :
  mThreadId w = 0 -> inputSelected w = true ->
  runs buildGraph w (planGraph w).
Proof.
  intros Ht Hsel. unfold buildGraph, planGraph.
  set (p1 := planInput w 0 (0, 1)).
  set (p2 := planPoses w (pp w (tidAfter p1)) (value p1)).
  set (p3 := planPostProcessing w (tidAfter p2) (value p2)).
  set (p4 := planUserOutput w (tidAfter p3) (value p3)).
  set (p5 := planGui w (tidAfter p4) (value p4)).
  refine (runs_bind _ _ w p1
            (mkPlan (calls p2 ++ calls p3 ++ calls p4 ++ calls p5)
                    (tidAfter p5) tt) _ _).
  { unfold p1. rewrite <- Ht. apply runs_addInput, Hsel. }
  intro tm1.
  refine (runs_bind _ _ _ (mkPlan [] (pp w (tidAfter p1)) (pp w (tidAfter p1)))
            (mkPlan (calls p2 ++ calls p3 ++ calls p4 ++ calls p5)
                    (tidAfter p5) tt) _ _).
  { exact (runs_threadIdPP _). }
  intro tm2.
  refine (runs_bind _ _ _ p2
            (mkPlan (calls p3 ++ calls p4 ++ calls p5) (tidAfter p5) tt) _ _).
  { exact (runs_addPoses _ _). }
  intro tm3.
  refine (runs_bind _ _ _ p3
            (mkPlan (calls p4 ++ calls p5) (tidAfter p5) tt) _ _).
  { exact (runs_addPostProcessing _ _). }
  intro tm4.
  refine (runs_bind _ _ _ p4 (mkPlan (calls p5) (tidAfter p5) tt) _ _).
  { exact (runs_addUserOutput _ _). }
  intro tm5.
  refine (runs_then_ret _ tt _ p5 _).
  exact (runs_addGui _ _).
Qed.

(** ** What the scheduler does with a list of stages *)

Lemma add_fst (t : Z) (ws : list TWorker) (qi qo : Z) (tm : ThreadManager.t) :
  fst (ThreadManager.add t ws qi qo tm) =
  if stageOk (graph tm) (mkStage t ws qi qo) then inr tt
  else inl (ConfigurationError ThreadManager.msgTopological).
Proof.
  unfold ThreadManager.add.
  destruct (stageOk (graph tm) (mkStage t ws qi qo)); reflexivity.
Qed.

Lemma add_issued (t : Z) (ws : list TWorker) (qi qo : Z)
    (tm : ThreadManager.t) :
  issued (snd (ThreadManager.add t ws qi qo tm)) =
  issued tm ++ [mkStage t ws qi qo].
Proof.
  unfold ThreadManager.add.
  destruct (stageOk (graph tm) (mkStage t ws qi qo)); reflexivity.
Qed.

Lemma add_graph (t : Z) (ws : list TWorker) (qi qo : Z)
    (tm : ThreadManager.t) :
  graph (snd (ThreadManager.add t ws qi qo tm)) =
  if stageOk (graph tm) (mkStage t ws qi qo)
  then graph tm ++ [mkStage t ws qi qo] else graph tm.
Proof.
  unfold ThreadManager.add.
  destruct (stageOk (graph tm) (mkStage t ws qi qo)); reflexivity.
Qed.

Lemma addAll_cons (c : Stage) (cs : list Stage) (tm : ThreadManager.t) :
  addAll (c :: cs) tm =
  if stageOk (graph tm) c
  then addAll cs (snd (ThreadManager.add (threadId c) (units c)
                         (inputChannelIndex c) (outputChannelIndex c) tm))
  else (inl (ConfigurationError ThreadManager.msgTopological),
        snd (ThreadManager.add (threadId c) (units c)
               (inputChannelIndex c) (outputChannelIndex c) tm)).
Proof.
  destruct c as [t ws qi qo]. cbn [addAll threadId units inputChannelIndex
    outputChannelIndex ThreadManager.threadId ThreadManager.units
    ThreadManager.inputChannelIndex ThreadManager.outputChannelIndex].
  unfold bind, ThreadManager.add.
  destruct (stageOk (graph tm) (mkStage t ws qi qo)); reflexivity.
Qed.

Lemma addAll_fst (cs : list Stage) :
  forall tm : ThreadManager.t,
    fst (addAll cs tm) =
    if chainOk (graph tm) cs then inr tt
    else inl (ConfigurationError ThreadManager.msgTopological).
Proof.
  induction cs as [| c cs IH]; intro tm.
  - reflexivity.
  - rewrite addAll_cons. cbn [chainOk].
    destruct (stageOk (graph tm) c) eqn:Hc; cbn [andb fst].
    + rewrite IH, add_graph.
      destruct c as [t ws qi qo]; cbn in *. rewrite Hc. reflexivity.
    + reflexivity.
Qed.

Lemma addAll_accepted (cs : list Stage) :
  forall tm : ThreadManager.t,
    chainOk (graph tm) cs = true ->
    graph (snd (addAll cs tm)) = graph tm ++ cs
    /\ issued (snd (addAll cs tm)) = issued tm ++ cs.
Proof.
  induction cs as [| c cs IH]; intros tm H.
  - cbn. now rewrite !app_nil_r.
  - rewrite addAll_cons. cbn [chainOk] in H.
    apply andb_prop in H. destruct H as [Hc H]. rewrite Hc.
    destruct (IH (snd (ThreadManager.add (threadId c) (units c)
                         (inputChannelIndex c) (outputChannelIndex c) tm)))
      as [Hg Hi].
    { rewrite add_graph. destruct c as [t ws qi qo]; cbn in *.
      rewrite Hc. exact H. }
    rewrite Hg, Hi, add_graph, add_issued.
    destruct c as [t ws qi qo]; cbn in *. rewrite Hc.
    rewrite <- !app_assoc. split; reflexivity.
Qed.

(** Every stage up to the first refused one is in the history. *)
Lemma addAll_issued (a b : list Stage) (tm : ThreadManager.t) :
  chainOk (graph tm) a = true -> (length b <= 1)%nat ->
  issued (snd (addAll (a ++ b) tm)) = issued tm ++ a ++ b.
Proof.
  intros Ha Hb. rewrite addAll_app. unfold bind.
  destruct (addAll_accepted a tm Ha) as [_ Hi].
  pose proof (addAll_fst a tm) as Hf. rewrite Ha in Hf.
  destruct (addAll a tm) as [r tm1]. cbn [fst snd] in *. subst r.
  destruct b as [| c [| d b]]; [| | cbn in Hb; lia].
  - cbn. rewrite Hi. now rewrite !app_nil_r.
  - rewrite addAll_cons.
    destruct (stageOk (graph tm1) c); cbn [addAll ret snd];
      rewrite add_issued, Hi; destruct c; cbn; now rewrite app_assoc.
Qed.

Lemma addAll_issued_incl (cs : list Stage) :
  forall (tm : ThreadManager.t) (s : Stage),
    In s (issued (snd (addAll cs tm))) -> In s (issued tm) \/ In s cs.
Proof.
  induction cs as [| c cs IH]; intros tm s H.
  - left. exact H.
  - rewrite addAll_cons in H.
    destruct (stageOk (graph tm) c).
    + apply IH in H. rewrite add_issued in H.
      destruct H as [H | H]; [| right; now right].
      apply in_app_or in H. destruct H as [H | [H | []]]; [now left |].
      right. left. destruct c; exact H.
    + cbn [snd] in H. rewrite add_issued in H.
      apply in_app_or in H. destruct H as [H | [H | []]]; [now left |].
      right. left. destruct c; exact H.
Qed.

(** ** [configureThreadManager] as checks followed by a plan *)

Lemma runs_outcome {A : Type} (m : M A) (w : Wrapper) (p : Plan A) :
  runs m w p ->
  fst (m w) = (if chainOk (graph (mThreadManager w)) (calls p)
               then inr (value p)
               else inl (ConfigurationError ThreadManager.msgTopological))
  /\ exists t,
       snd (m w) =
       set_mThreadId t
         (set_mThreadManager (snd (addAll (calls p) (mThreadManager w))) w).
Proof.
  unfold runs. intro H.
  pose proof (addAll_fst (calls p) (mThreadManager w)) as Hf.
  destruct (addAll (calls p) (mThreadManager w)) as [[e | u] tm1];
    cbn [fst snd] in *.
  - destruct H as [t H]. rewrite H. cbn [fst snd].
    destruct (chainOk _ _); [discriminate |]. injection Hf as ->.
    split; [reflexivity |]. now exists t.
  - rewrite H. cbn [fst snd].
    destruct (chainOk _ _); [| discriminate]. split; [reflexivity |].
    now exists (tidAfter p).
Qed.

Lemma securityChecks_eq (w : Wrapper) :
  securityChecks w = (checksOutcome w, w).
Proof.
  unfold securityChecks, checksOutcome, bind, get, when, error, ret.
  destruct (isNull (spWCvMatToOpInput w) || isNull (spWCvMatToOpOutput w));
    [reflexivity |].
  destruct (Bool.eqb (isNull (wDatumProducer w)) (empty (mUserInputWs w))
            && notAsynchronousIn (mThreadManagerMode w)); [reflexivity |].
  destruct (empty (mOutputWs w) && empty (mUserOutputWs w)
            && isNull (spWGui w)
            && notAsynchronousOut (mThreadManagerMode w)); reflexivity.
Qed.

Lemma configureThreadManager_eq (w : Wrapper) :
  configureThreadManager w =
  match checksOutcome w with
  | inl e => (inl e, w)
  | inr _ => buildGraph (prepared w)
  end.
Proof.
  unfold configureThreadManager. rewrite tryCatch_eq.
  unfold bind at 1. rewrite securityChecks_eq.
  destruct (checksOutcome w) as [e | []]; reflexivity.
Qed.

Lemma checks_inputSelected (w : Wrapper) :
  checksOutcome w = inr tt -> inputSelected (prepared w) = true.
Proof.
  unfold checksOutcome, inputSelected.
  destruct_wrapper w; cbn.
  destruct (isNull fCvIn || isNull fCvOut); [discriminate |].
  destruct fProd, fUserIn, (notAsynchronousIn fMode); cbn;
    try discriminate; reflexivity.
Qed.

(** Once the checks have passed, the outcome of graph construction is
    that of handing the planned stages to the reset scheduler. *)
Lemma configureThreadManager_plan (w : Wrapper) :
  checksOutcome w = inr tt ->
  fst (configureThreadManager w) =
    (if chainOk [] (plannedStages w) then inr tt
     else inl (ConfigurationError ThreadManager.msgTopological))
  /\ exists t,
       snd (configureThreadManager w) =
       set_mThreadId t
         (set_mThreadManager
            (snd (addAll (plannedStages w)
                         (ThreadManager.reset (mThreadManager w))))
            (prepared w)).
Proof.
  intro Hc. rewrite configureThreadManager_eq, Hc.
  apply (runs_outcome buildGraph (prepared w) (planGraph (prepared w))).
  apply runs_buildGraph; [reflexivity | now apply checks_inputSelected].
Qed.

(** ** Setting a user worker *)

(** C9: [setWorkerInput], [setWorkerPostProcessing] and [setWorkerOutput]
    called with a null worker raise an error after having cleared their
    slot: after the failed call that slot is empty, whatever it held, and
    every other member, the placement flag of the slot included, is as
    before. *)
Theorem setWorker_null_clears_slot (workerOnNewThread : bool) (w : Wrapper) :
  (fst (setWorkerInput None workerOnNewThread w)
   = inl (ConfigurationError msgNullWorker)
   /\ mUserInputWs (snd (setWorkerInput None workerOnNewThread w)) = []
   /\ mUserPostProcessingWs (snd (setWorkerInput None workerOnNewThread w))
      = mUserPostProcessingWs w
   /\ mUserOutputWs (snd (setWorkerInput None workerOnNewThread w))
      = mUserOutputWs w
   /\ otherMembers (snd (setWorkerInput None workerOnNewThread w))
      = otherMembers w)
  /\ (fst (setWorkerPostProcessing None workerOnNewThread w)
      = inl (ConfigurationError msgNullWorker)
      /\ mUserPostProcessingWs
           (snd (setWorkerPostProcessing None workerOnNewThread w)) = []
      /\ mUserInputWs
           (snd (setWorkerPostProcessing None workerOnNewThread w))
         = mUserInputWs w
      /\ mUserOutputWs
           (snd (setWorkerPostProcessing None workerOnNewThread w))
         = mUserOutputWs w
      /\ otherMembers
           (snd (setWorkerPostProcessing None workerOnNewThread w))
         = otherMembers w)
  /\ (fst (setWorkerOutput None workerOnNewThread w)
      = inl (ConfigurationError msgNullWorker)
      /\ mUserOutputWs (snd (setWorkerOutput None workerOnNewThread w)) = []
      /\ mUserInputWs (snd (setWorkerOutput None workerOnNewThread w))
         = mUserInputWs w
      /\ mUserPostProcessingWs
           (snd (setWorkerOutput None workerOnNewThread w))
         = mUserPostProcessingWs w
      /\ otherMembers (snd (setWorkerOutput None workerOnNewThread w))
         = otherMembers w).
Proof.
  unfold setWorkerInput, setWorkerPostProcessing, setWorkerOutput.
  rewrite !tryCatch_eq. unfold bind, modify, when, error, ret.
  destruct_wrapper w. cbn. repeat split; reflexivity.
Qed.

(** With a worker the slot holds exactly that worker afterwards. *)
Lemma setWorkerOutput_some (x : Worker) (b : bool) (w : Wrapper) :
  setWorkerOutput (Some x) b w
  = (inr tt, set_mUserOutputWsOnNewThread b (set_mUserOutputWs [Some x] w)).
Proof. reflexivity. Qed.

(** ** Boundary ports *)

Lemma onThreadManager_frame {A : Type} (m : St ThreadManager.t A)
    (w : Wrapper) :
  snd (onThreadManager m w) = set_mThreadManager (snd (m (mThreadManager w))) w.
Proof.
  unfold onThreadManager. destruct (m (mThreadManager w)); reflexivity.
Qed.

(** C1, as the code has it: while a user input worker is set, the four
    ingress operations raise an error and change nothing (in particular
    nothing is pushed); while a user output worker is set, the two egress
    operations do.  The check is part of every call.  Without a user
    worker the call is handed to the scheduler, whatever else is
    configured. *)
Theorem boundary_ports_exclude_user_workers (w : Wrapper)
    (tDatums : TDatumsPtr) :
  (mUserInputWs w <> [] ->
     tryEmplace tDatums w = (inl (ConfigurationError msgEmplace), w)
     /\ waitAndEmplace tDatums w = (inl (ConfigurationError msgEmplace), w)
     /\ tryPush tDatums w = (inl (ConfigurationError msgPush), w)
     /\ waitAndPush tDatums w = (inl (ConfigurationError msgPush), w))
  /\ (mUserOutputWs w <> [] ->
        tryPop w = (inl (ConfigurationError msgPop), w)
        /\ waitAndPop w = (inl (ConfigurationError msgPop), w))
  /\ (mUserInputWs w = [] ->
        tryEmplace tDatums w
        = onThreadManager (ThreadManager.tryEmplace tDatums) w
        /\ waitAndEmplace tDatums w
           = onThreadManager (ThreadManager.waitAndEmplace tDatums) w
        /\ tryPush tDatums w
           = onThreadManager (ThreadManager.tryPush tDatums) w
        /\ waitAndPush tDatums w
           = onThreadManager (ThreadManager.waitAndPush tDatums) w)
  /\ (mUserOutputWs w = [] ->
        tryPop w = onThreadManager ThreadManager.tryPop w
        /\ waitAndPop w = onThreadManager ThreadManager.waitAndPop w).
Proof.
  unfold tryEmplace, waitAndEmplace, tryPush, waitAndPush, tryPop,
    waitAndPop.
  rewrite !tryCatch_eq. unfold bind, get, when, error, ret.
  split; [| split; [| split]]; intro H.
  - destruct (mUserInputWs w); [contradiction | repeat split; reflexivity].
  - destruct (mUserOutputWs w); [contradiction | repeat split; reflexivity].
  - rewrite H; cbn [empty negb]. repeat split;
      match goal with
      | |- context [onThreadManager ?m w] =>
          destruct (onThreadManager m w) as [[e | a] w']; reflexivity
      end.
  - rewrite H; cbn [empty negb]. repeat split;
      match goal with
      | |- context [onThreadManager ?m w] =>
          destruct (onThreadManager m w) as [[e | a] w']; reflexivity
      end.
Qed.

Lemma boundary_ports_exclude_user_workers_witness :
  tryEmplace (Some 7%nat) (after start userInputAndOutput)
  = (inl (ConfigurationError msgEmplace), after start userInputAndOutput)
  /\ tryPop (after start userInputAndOutput)
     = (inl (ConfigurationError msgPop), after start userInputAndOutput).
Proof.
  destruct (boundary_ports_exclude_user_workers
              (after start userInputAndOutput) (Some 7%nat))
    as [Hin [Hout _]].
  split.
  - apply Hin. vm_compute. discriminate.
  - apply Hout. vm_compute. discriminate.
Defined.

(** C1 as stated fails where only an internal producer, or only internal
    consumers, are configured: with the producer of [configure] in the
    first stage, [tryEmplace] pushes the item into the first channel and
    returns [true]; with a pose saver and the GUI as consumers, [tryPop]
    returns [false] without raising. *)
Lemma boundary_port_beside_internal_producer :
  wDatumProducer asynchronousWithProducer = Some WDatumProducer
  /\ In (Some WDatumProducer)
        (flatten (graph (mThreadManager asynchronousWithProducer)))
  /\ fst (tryEmplace (Some 7%nat) asynchronousWithProducer) = inr true
  /\ option_map ThreadManager.items
       (hd_error (ThreadManager.channels
          (mThreadManager
             (after (tryEmplace (Some 7%nat)) asynchronousWithProducer))))
     = Some [Some 7%nat]
  /\ consumers asynchronousWithConsumers = 2%nat
  /\ fst (tryPop asynchronousWithConsumers) = inr None.
Proof.
  vm_compute. repeat split; auto.
Qed.

(** ** [reset] *)

(** What [reset] does to each member. *)
Lemma reset_eq (w : Wrapper) :
  reset w =
  (inr tt,
   mkWrapper (mThreadManagerMode w) (spVideoSeek w)
     (ThreadManager.reset (mThreadManager w)) (mGpuNumber w)
     (mUserInputWsOnNewThread w) (mUserPostProcessingWsOnNewThread w)
     (mUserOutputWsOnNewThread w) 0 (mMultiThreadEnabled w)
     [] None (spWIdGenerator w) None None [] [] [] [] None []).
Proof. reflexivity. Qed.

(** C8, where the code departs from it: after [start()] on a configured
    object, [reset()] empties every worker slot and sets [mThreadId] to 0,
    but the id generator that [start()] created is still held. *)
Theorem reset_keeps_id_generator :
  let w := after reset (after start (videoToGui 1)) in
  fst (reset (after start (videoToGui 1))) = inr tt
  /\ mThreadId w = 0
  /\ slots w = [None; None; None; None]
  /\ spWPoses w = []
  /\ graph (mThreadManager w) = []
  /\ spWIdGenerator w = Some WIdGenerator.
Proof.
  vm_compute. repeat split; reflexivity.
Qed.

(** [reset] leaves the id generator as it finds it, and with it the
    mode, the debug switch and the placement flags. *)
Lemma reset_frame (w : Wrapper) :
  spWIdGenerator (after reset w) = spWIdGenerator w
  /\ mThreadManagerMode (after reset w) = mThreadManagerMode w
  /\ mMultiThreadEnabled (after reset w) = mMultiThreadEnabled w
  /\ mGpuNumber (after reset w) = mGpuNumber w
  /\ mUserInputWsOnNewThread (after reset w) = mUserInputWsOnNewThread w
  /\ mUserPostProcessingWsOnNewThread (after reset w)
     = mUserPostProcessingWsOnNewThread w
  /\ mUserOutputWsOnNewThread (after reset w) = mUserOutputWsOnNewThread w.
Proof.
  unfold after. rewrite reset_eq. repeat split; reflexivity.
Qed.

(** ** [configure] *)

Lemma checkFlags_state (p : WrapperStructPose) (i : WrapperStructInput)
    (o : WrapperStructOutput) (w : Wrapper) :
  snd (checkFlags p i o w) = w.
Proof.
  unfold checkFlags, bind, get, when, error, ret.
  repeat match goal with
         | |- context [if ?c then _ else _] => destruct c; cbn [snd fst]
         end; reflexivity.
Qed.

Lemma commonParameters_state (p : WrapperStructPose)
    (i : WrapperStructInput) (w : Wrapper) :
  snd (commonParameters p i w) = w.
Proof.
  unfold commonParameters, error, ret.
  destruct (producerSharedPtr i);
    repeat match goal with
           | |- context [if ?c then _ else _] => destruct c; cbn [snd fst]
           end; reflexivity.
Qed.

Lemma configure_eq (fmt : string -> string) (p : WrapperStructPose)
    (f : WrapperStructFace) (h : WrapperStructHand)
    (i : WrapperStructInput) (o : WrapperStructOutput) (w : Wrapper) :
  configure fmt p f h i o w =
  match fst (checkFlags p i o w) with
  | inl e => (inl e, w)
  | inr _ =>
      match fst (commonParameters p i w) with
      | inl e => (inl e, w)
      | inr sizes =>
          (inr tt, configuredWith fmt p f h i o (fst sizes) (snd sizes) w)
      end
  end.
Proof.
  unfold configure. rewrite tryCatch_eq. unfold bind at 1.
  pose proof (checkFlags_state p i o w) as Hs.
  destruct (checkFlags p i o w) as [[e | []] w1]; cbn [fst snd] in *;
    subst w1; [reflexivity |].
  unfold bind at 1.
  pose proof (commonParameters_state p i w) as Hs.
  destruct (commonParameters p i w) as [[e | sizes] w1]; cbn [fst snd] in *;
    subst w1; reflexivity.
Qed.

(** [configure] either raises and leaves the object as it was, or
    returns and fills the slots. *)
Lemma configure_outcome (fmt : string -> string) (p : WrapperStructPose)
    (f : WrapperStructFace) (h : WrapperStructHand)
    (i : WrapperStructInput) (o : WrapperStructOutput) (w : Wrapper) :
  (exists e, configure fmt p f h i o w = (inl e, w))
  \/ (exists fs ps,
        configure fmt p f h i o w
        = (inr tt, configuredWith fmt p f h i o fs ps w)).
Proof.
  rewrite configure_eq.
  destruct (fst (checkFlags p i o w)) as [e | u]; [left; now exists e |].
  destruct (fst (commonParameters p i w)) as [e | sizes];
    [left; now exists e |].
  right. now exists (fst sizes), (snd sizes).
Qed.

Lemma emplaceBackEach_length (make : nat -> Worker)
    (v : list (list TWorker)) :
  forall i, length (emplaceBackEach make i v) = length v.
Proof.
  induction v as [| x v IH]; intro i; cbn; [reflexivity | now rewrite IH].
Qed.

Lemma buildPoses_length (p : WrapperStructPose) (f : WrapperStructFace)
    (h : WrapperStructHand) :
  length (buildPoses p f h) = Z.to_nat (gpuNumber p).
Proof.
  unfold buildPoses.
  repeat match goal with
         | |- context [if ?c then _ else _] => destruct c
         end;
    rewrite ?emplaceBackEach_length, length_map, length_seq; reflexivity.
Qed.

Lemma emplaceBackIf_In (c : bool) (x : Worker) (v : list TWorker)
    (y : TWorker) :
  In y (emplaceBackIf c x v) <-> In y v \/ (c = true /\ y = Some x).
Proof.
  unfold emplaceBackIf. destruct c.
  - rewrite in_app_iff. cbn. intuition congruence.
  - intuition congruence.
Qed.

(** The reorderer is among the intermediate workers exactly when there
    are at least two replicas, and then it is the first of them. *)
Lemma buildPostProcessing_orderer (p : WrapperStructPose)
    (poses : list (list TWorker)) (fs ps : Size) :
  (In (Some WQueueOrderer) (buildPostProcessing p poses fs ps)
   <-> (1 < length poses)%nat)
  /\ ((1 < length poses)%nat ->
      hd_error (buildPostProcessing p poses fs ps) = Some (Some WQueueOrderer)).
Proof.
  unfold buildPostProcessing.
  assert (Hc : (1 <? Z.of_nat (length poses)) = true <-> (1 < length poses)%nat).
  { rewrite Z.ltb_lt. lia. }
  split.
  - rewrite !emplaceBackIf_In. cbn [In]. rewrite <- Hc.
    split; [| tauto].
    intros [[[[] | [H _]] | [_ H]] | [_ H]];
      [exact H | discriminate | discriminate].
  - intro H. apply Hc in H. rewrite H. cbn [emplaceBackIf app].
    unfold emplaceBackIf.
    repeat match goal with
           | |- context [if ?c then _ else _] => destruct c
           end; reflexivity.
Qed.

(** C4: after every [configure] that returns, the number of replicas of
    the pose stage is [gpuNumber] (none if it is negative), and the
    reorderer [WQueueOrderer] is among the intermediate workers -- the
    workers that graph construction puts after the replicas -- exactly
    when [gpuNumber > 1]; it is then the first of them. *)
Theorem reorderer_iff_several_replicas (fmt : string -> string)
    (p : WrapperStructPose) (f : WrapperStructFace) (h : WrapperStructHand)
    (i : WrapperStructInput) (o : WrapperStructOutput) (w w' : Wrapper) :
  configure fmt p f h i o w = (inr tt, w') ->
  length (spWPoses w') = Z.to_nat (gpuNumber p)
  /\ (In (Some WQueueOrderer) (mPostProcessingWs w') <-> 1 < gpuNumber p)
  /\ (1 < gpuNumber p ->
      hd_error (mPostProcessingWs w') = Some (Some WQueueOrderer)).
Proof.
  intro H.
  destruct (configure_outcome fmt p f h i o w) as [[e He] | [fs [ps Hok]]];
    [congruence |].
  rewrite Hok in H. injection H as <-.
  cbn [spWPoses mPostProcessingWs configuredWith].
  pose proof (buildPoses_length p f h) as Hl.
  destruct (buildPostProcessing_orderer p (buildPoses p f h) fs ps)
    as [Hin Hhd].
  rewrite Hl in Hin, Hhd.
  split; [exact Hl |]. split.
  - rewrite Hin. lia.
  - intro Hg. apply Hhd. lia.
Qed.

Lemma reorderer_iff_several_replicas_witness :
  length (spWPoses (videoToGui 2)) = Z.to_nat (gpuNumber (poseOn 2))
  /\ (In (Some WQueueOrderer) (mPostProcessingWs (videoToGui 2))
      <-> 1 < gpuNumber (poseOn 2))
  /\ (1 < gpuNumber (poseOn 2) ->
      hd_error (mPostProcessingWs (videoToGui 2))
      = Some (Some WQueueOrderer)).
Proof.
  apply (reorderer_iff_several_replicas asDirectory (poseOn 2)
           WrapperStructFace_default WrapperStructHand_default
           videoInput guiOutput (Wrapper_new Synchronous 1 anyValues)).
  vm_compute. reflexivity.
Defined.

(** ** Objects that the public functions produce are well formed *)

Lemma wellFormed_Forall (w : Wrapper) :
  wellFormed w <->
  Forall notIdGenerator (slots w)
  /\ Z.of_nat (length (spWPoses w)) < 2 ^ 31.
Proof.
  unfold wellFormed, notIdGenerator. rewrite Forall_forall.
  split; intros [H1 H2]; (split; [| exact H2]).
  - intros y Hy ->. contradiction.
  - intro Hin. exact (H1 _ Hin eq_refl).
Qed.

Lemma emplaceBackEach_Forall (P : TWorker -> Prop) (make : nat -> Worker)
    (v : list (list TWorker)) :
  (forall j, P (Some (make j))) ->
  Forall P (concat v) ->
  forall i, Forall P (concat (emplaceBackEach make i v)).
Proof.
  intros Hm. induction v as [| x v IH]; intros H i; cbn in *.
  - constructor.
  - rewrite Forall_app in H. destruct H as [Hx Hv].
    rewrite !Forall_app. repeat split; auto.
Qed.

Lemma emplaceBackIf_Forall (P : TWorker -> Prop) (c : bool) (x : Worker)
    (v : list TWorker) :
  P (Some x) -> Forall P v -> Forall P (emplaceBackIf c x v).
Proof.
  intros Hx Hv. unfold emplaceBackIf. destruct c; [| exact Hv].
  rewrite Forall_app. split; [exact Hv | now constructor].
Qed.

Lemma buildPoses_notIdGenerator (p : WrapperStructPose)
    (f : WrapperStructFace) (h : WrapperStructHand) :
  Forall notIdGenerator (concat (buildPoses p f h)).
Proof.
  unfold buildPoses.
  assert (H0 : Forall notIdGenerator
                 (concat (map (fun gpuId =>
                                 [Some (WPoseExtractor
                                          (Z.of_nat gpuId
                                           + gpuNumberStart p))])
                              (seq 0 (Z.to_nat (gpuNumber p)))))).
  { generalize 0%nat. induction (Z.to_nat (gpuNumber p)) as [| n IH];
      intro k; cbn; constructor; [discriminate | apply IH]. }
  repeat match goal with
         | |- context [if ?c then _ else _] => destruct c
         end;
    repeat (apply emplaceBackEach_Forall; [discriminate |]); exact H0.
Qed.

Lemma buildPostProcessing_notIdGenerator (p : WrapperStructPose)
    (poses : list (list TWorker)) (fs ps : Size) :
  Forall notIdGenerator (buildPostProcessing p poses fs ps).
Proof.
  unfold buildPostProcessing.
  repeat (apply emplaceBackIf_Forall; [discriminate |]). constructor.
Qed.

Lemma buildOutput_notIdGenerator (fmt : string -> string)
    (i : WrapperStructInput) (o : WrapperStructOutput) :
  Forall notIdGenerator (buildOutput fmt i o).
Proof.
  unfold buildOutput.
  repeat (apply emplaceBackIf_Forall; [discriminate |]). constructor.
Qed.

Lemma wellFormed_new (m : ThreadManagerMode) (cap : nat)
    (u : Indeterminate) :
  wellFormed (Wrapper_new m cap u).
Proof.
  split; cbn; [| lia]. intros [H | [H | [H | [H | []]]]]; discriminate.
Qed.

(** Only the slots and the replicas matter. *)
Lemma wellFormed_same (w w' : Wrapper) :
  slots w' = slots w -> spWPoses w' = spWPoses w ->
  wellFormed w -> wellFormed w'.
Proof.
  unfold wellFormed. intros -> ->. auto.
Qed.

Lemma slots_Forall (P : TWorker -> Prop) (w : Wrapper) :
  Forall P (slots w) <->
  Forall P (mUserInputWs w) /\ P (wDatumProducer w)
  /\ P (spWCvMatToOpInput w) /\ P (spWCvMatToOpOutput w)
  /\ Forall P (concat (spWPoses w)) /\ Forall P (mPostProcessingWs w)
  /\ Forall P (mUserPostProcessingWs w) /\ Forall P (mOutputWs w)
  /\ P (spWGui w) /\ Forall P (mUserOutputWs w).
Proof.
  unfold slots. rewrite !Forall_app.
  split.
  - intros [H1 [H2 [H3 [H4 [H5 [H6 [H7 H8]]]]]]].
    inversion H2 as [| ? ? Ha H2a]; subst.
    inversion H2a as [| ? ? Hb H2b]; subst.
    inversion H2b as [| ? ? Hc _]; subst.
    inversion H7 as [| ? ? Hd _]; subst.
    repeat split; assumption.
  - intros [H1 [H2 [H3 [H4 [H5 [H6 [H7 [H8 [H9 H10]]]]]]]]].
    repeat split; auto.
Qed.

Ltac slots_tac :=
  let Hs := fresh "Hs" in
  let Hl := fresh "Hl" in
  intro Hs; apply wellFormed_Forall in Hs; destruct Hs as [Hs Hl];
  apply slots_Forall in Hs;
  destruct Hs as (?H & ?H & ?H & ?H & ?H & ?H & ?H & ?H & ?H & ?H);
  apply wellFormed_Forall; rewrite slots_Forall.

Lemma wellFormed_configure (fmt : string -> string) (p : WrapperStructPose)
    (f : WrapperStructFace) (h : WrapperStructHand)
    (i : WrapperStructInput) (o : WrapperStructOutput) (w : Wrapper) :
  gpuNumber p < 2 ^ 31 -> wellFormed w ->
  wellFormed (snd (configure fmt p f h i o w)).
Proof.
  intros Hg.
  destruct (configure_outcome fmt p f h i o w) as [[e He] | [fs [ps Hok]]].
  { now rewrite He. }
  rewrite Hok. cbn [snd]. slots_tac.
  cbn [configuredWith mUserInputWs wDatumProducer spWCvMatToOpInput
       spWCvMatToOpOutput spWPoses mPostProcessingWs mUserPostProcessingWs
       mOutputWs spWGui mUserOutputWs].
  repeat split; auto; try discriminate.
  - destruct (isNull (producerSharedPtr i)); discriminate.
  - apply buildPoses_notIdGenerator.
  - apply buildPostProcessing_notIdGenerator.
  - apply buildOutput_notIdGenerator.
  - destruct (displayGui o); discriminate.
  - rewrite buildPoses_length. lia.
Qed.

Lemma wellFormed_setWorkerInput (n : option nat) (b : bool) (w : Wrapper) :
  wellFormed w -> wellFormed (snd (setWorkerInput (option_map WUser n) b w)).
Proof.
  slots_tac. destruct n as [n |]; cbn; repeat split; auto;
    repeat constructor; discriminate.
Qed.

Lemma wellFormed_setWorkerPostProcessing (n : option nat) (b : bool)
    (w : Wrapper) :
  wellFormed w ->
  wellFormed (snd (setWorkerPostProcessing (option_map WUser n) b w)).
Proof.
  slots_tac. destruct n as [n |]; cbn; repeat split; auto;
    repeat constructor; discriminate.
Qed.

Lemma wellFormed_setWorkerOutput (n : option nat) (b : bool) (w : Wrapper) :
  wellFormed w -> wellFormed (snd (setWorkerOutput (option_map WUser n) b w)).
Proof.
  slots_tac. destruct n as [n |]; cbn; repeat split; auto;
    repeat constructor; discriminate.
Qed.

Lemma wellFormed_set_mThreadManager (tm : ThreadManager.t) (w : Wrapper) :
  wellFormed w -> wellFormed (set_mThreadManager tm w).
Proof. apply wellFormed_same; reflexivity. Qed.

Lemma wellFormed_onThreadManager {A : Type} (m : St ThreadManager.t A)
    (w : Wrapper) :
  wellFormed w -> wellFormed (snd (onThreadManager m w)).
Proof.
  rewrite onThreadManager_frame. apply wellFormed_set_mThreadManager.
Qed.

(** Graph construction changes the scheduler, the thread id and the id
    generator, and nothing else. *)
Lemma configureThreadManager_frame (w : Wrapper) :
  exists tm t g,
    snd (configureThreadManager w) =
    set_spWIdGenerator g (set_mThreadId t (set_mThreadManager tm w)).
Proof.
  destruct (checksOutcome w) as [e | []] eqn:Hc.
  - rewrite configureThreadManager_eq, Hc. cbn [snd].
    exists (mThreadManager w), (mThreadId w), (spWIdGenerator w).
    destruct_wrapper w; reflexivity.
  - destruct (configureThreadManager_plan w Hc) as [_ [t Ht]].
    rewrite Ht. eexists _, t, (Some WIdGenerator).
    destruct_wrapper w; reflexivity.
Qed.

Lemma wellFormed_configureThreadManager (w : Wrapper) :
  wellFormed w -> wellFormed (snd (configureThreadManager w)).
Proof.
  destruct (configureThreadManager_frame w) as [tm [t [g H]]]. rewrite H.
  apply wellFormed_same; reflexivity.
Qed.

Lemma start_eq (w : Wrapper) :
  start w =
  match fst (configureThreadManager w) with
  | inl e => (inl e, snd (configureThreadManager w))
  | inr _ =>
      onThreadManager ThreadManager.start (snd (configureThreadManager w))
  end.
Proof.
  unfold start. rewrite tryCatch_eq. unfold bind.
  destruct (configureThreadManager w) as [[e | []] w1]; reflexivity.
Qed.

Lemma exec_eq (w : Wrapper) :
  exec w =
  match fst (configureThreadManager w) with
  | inl e => (inl e, snd (configureThreadManager w))
  | inr _ =>
      onThreadManager ThreadManager.exec (snd (configureThreadManager w))
  end.
Proof.
  unfold exec. rewrite tryCatch_eq. unfold bind.
  destruct (configureThreadManager w) as [[e | []] w1]; reflexivity.
Qed.

(** [start] and [exec] raise what graph construction raises, and nothing
    else. *)
Lemma start_fst (w : Wrapper) :
  fst (start w) = fst (configureThreadManager w).
Proof.
  rewrite start_eq.
  destruct (fst (configureThreadManager w)) as [e | []]; reflexivity.
Qed.

Lemma exec_fst (w : Wrapper) :
  fst (exec w) = fst (configureThreadManager w).
Proof.
  rewrite exec_eq.
  destruct (fst (configureThreadManager w)) as [e | []]; reflexivity.
Qed.

Lemma wellFormed_start (w : Wrapper) :
  wellFormed w -> wellFormed (snd (start w)).
Proof.
  intro H. rewrite start_eq.
  destruct (fst (configureThreadManager w)); cbn [snd].
  - now apply wellFormed_configureThreadManager.
  - now apply wellFormed_onThreadManager, wellFormed_configureThreadManager.
Qed.

Lemma wellFormed_exec (w : Wrapper) :
  wellFormed w -> wellFormed (snd (exec w)).
Proof.
  intro H. rewrite exec_eq.
  destruct (fst (configureThreadManager w)); cbn [snd].
  - now apply wellFormed_configureThreadManager.
  - now apply wellFormed_onThreadManager, wellFormed_configureThreadManager.
Qed.

Lemma wellFormed_ignore {A : Type} (m : M A) (w : Wrapper) :
  wellFormed (snd (m w)) -> wellFormed (snd (ignore m w)).
Proof.
  unfold ignore. destruct (m w); auto.
Qed.

Lemma boundary_frame {A : Type} (c : Wrapper -> bool) (msg : string)
    (m : St ThreadManager.t A) (w : Wrapper) :
  wellFormed w ->
  wellFormed
    (snd (tryCatch (w0 <- get ;; when (c w0) (error msg) ;;;
                    onThreadManager m) w)).
Proof.
  intro H. rewrite tryCatch_eq. unfold bind, get, when, error, ret.
  destruct (c w); cbn [snd]; [exact H |].
  pose proof (onThreadManager_frame m w) as Hf.
  destruct (onThreadManager m w) as [[e | a] w1]; cbn [snd] in *; subst w1;
    now apply wellFormed_set_mThreadManager.
Qed.

Theorem reachable_wellFormed (fmt : string -> string) (w : Wrapper) :
  reachable fmt w -> wellFormed w.
Proof.
  induction 1 as [m cap u | c w Hr IH Ht].
  - apply wellFormed_new.
  - destruct c; cbn [perform wellTyped] in *.
    + exact IH.
    + now apply wellFormed_setWorkerInput.
    + now apply wellFormed_setWorkerPostProcessing.
    + now apply wellFormed_setWorkerOutput.
    + now apply wellFormed_configure.
    + now apply wellFormed_exec.
    + now apply wellFormed_start.
    + unfold stop. rewrite tryCatch_eq. now apply wellFormed_onThreadManager.
    + apply wellFormed_ignore. now apply (boundary_frame
        (fun w0 => negb (empty (mUserInputWs w0)))).
    + apply wellFormed_ignore. now apply (boundary_frame
        (fun w0 => negb (empty (mUserInputWs w0)))).
    + apply wellFormed_ignore. now apply (boundary_frame
        (fun w0 => negb (empty (mUserInputWs w0)))).
    + apply wellFormed_ignore. now apply (boundary_frame
        (fun w0 => negb (empty (mUserInputWs w0)))).
    + apply wellFormed_ignore. now apply (boundary_frame
        (fun w0 => negb (empty (mUserOutputWs w0)))).
    + apply wellFormed_ignore. now apply (boundary_frame
        (fun w0 => negb (empty (mUserOutputWs w0)))).
Qed.

(** ** Which plans the scheduler accepts *)

Lemma lastThreadId_snoc (g : list Stage) (c : Stage) :
  ThreadManager.lastThreadId (g ++ [c]) = Some (threadId c).
Proof.
  unfold ThreadManager.lastThreadId. rewrite rev_app_distr. reflexivity.
Qed.

Lemma chainOk_chainFrom (cs : list Stage) :
  forall g, chainOk g cs = chainFrom (ThreadManager.lastThreadId g) cs.
Proof.
  induction cs as [| c cs IH]; intro g; cbn [chainOk chainFrom].
  - reflexivity.
  - rewrite IH, lastThreadId_snoc. reflexivity.
Qed.

Lemma chainFrom_app (a b : list Stage) :
  forall last,
    chainFrom last (a ++ b) = chainFrom last a && chainFrom (lastOf last a) b.
Proof.
  induction a as [| c a IH]; intro last; cbn [app chainFrom lastOf].
  - reflexivity.
  - rewrite IH. now rewrite !andb_assoc.
Qed.

Lemma lastOf_app (a b : list Stage) :
  forall last, lastOf last (a ++ b) = lastOf (lastOf last a) b.
Proof.
  induction a as [| c a IH]; intro last; cbn [app lastOf]; auto.
Qed.

Lemma wrap32_small (z : Z) : 0 <= z < 2 ^ 32 -> wrap32 z = z.
Proof. intro H. unfold wrap32. now apply Z.mod_small. Qed.

Lemma wrap64_small (z : Z) : 0 <= z < 2 ^ 64 -> wrap64 z = z.
Proof. intro H. unfold wrap64. now apply Z.mod_small. Qed.

Lemma wrap32_minus_one : wrap32 (0 - 1) = 4294967295.
Proof. reflexivity. Qed.

Lemma consecutive_incr (n : Z) (q : Queues) :
  n < 2 ^ 62 -> consecutive n q -> consecutive (n + 1) (incr q).
Proof.
  unfold consecutive, incr, queueIn, queueOut. destruct q as [qi qo].
  cbn [fst snd]. intros Hn [-> Hq].
  rewrite !wrap64_small by lia. lia.
Qed.

Lemma consecutive_weaken (n m : Z) (q : Queues) :
  n <= m -> consecutive n q -> consecutive m q.
Proof. unfold consecutive. intros Hn [H1 H2]. split; [exact H1 | lia]. Qed.

Lemma consecutive_lt (n : Z) (q : Queues) :
  consecutive n q -> (queueIn q <? queueOut q) = true.
Proof. intros [H _]. apply Z.ltb_lt. lia. Qed.

Ltac chain_tac :=
  cbn [calls tidAfter value chainFrom lastOf threadId
    inputChannelIndex outputChannelIndex ThreadManager.threadId
    ThreadManager.inputChannelIndex ThreadManager.outputChannelIndex app];
  repeat match goal with
         | H : consecutive _ ?q |- context [queueIn ?q <? queueOut ?q] =>
             rewrite (consecutive_lt _ _ H)
         end;
  rewrite ?wrap32_small by lia;
  repeat match goal with
         | |- context [?a <=? ?b] =>
             replace (a <=? b) with true by (symmetry; apply Z.leb_le; lia)
         end;
  cbn [andb];
  unfold consecutive in *;
  repeat split;
  try reflexivity;
  try (f_equal; lia);
  try lia.

Lemma chain_input (w : Wrapper) :
  let p := planInput w 0 (0, 1) in
  chainFrom None (calls p) = true
  /\ threadInv w 2 (lastOf None (calls p)) (pp w (tidAfter p))
  /\ consecutive 2 (value p).
Proof.
  unfold planInput, threadInv, pp, consecutive, incr, queueIn, queueOut.
  destruct (negb (empty (mUserInputWs w)) && mUserInputWsOnNewThread w),
    (mMultiThreadEnabled w);
    cbn [calls tidAfter value chainFrom lastOf fst snd
         ThreadManager.threadId ThreadManager.inputChannelIndex
         ThreadManager.outputChannelIndex];
    rewrite ?wrap32_small, ?wrap64_small by (cbn; lia);
    rewrite ?wrap32_small, ?wrap64_small by (cbn; lia);
    cbn; repeat split; try reflexivity; lia.
Qed.

Lemma chain_replicas (q : Queues) (n : Z) (poses : list (list TWorker)) :
  forall t,
    1 <= t -> t + Z.of_nat (length poses) < 2 ^ 32 -> consecutive n q ->
    let p := planReplicas t q poses in
    chainFrom (Some (t - 1)) (calls p) = true
    /\ lastOf (Some (t - 1)) (calls p) = Some (tidAfter p - 1)
    /\ tidAfter p = t + Z.of_nat (length poses).
Proof.
  induction poses as [| wPose rest IH]; intros t Ht Hb Hq.
  - cbn. repeat split; lia.
  - cbn [planReplicas calls tidAfter chainFrom lastOf length
         ThreadManager.threadId ThreadManager.inputChannelIndex
         ThreadManager.outputChannelIndex] in *.
    rewrite Nat2Z.inj_succ in *.
    rewrite wrap32_small by lia.
    destruct (IH (t + 1)) as [H1 [H2 H3]]; [lia | lia | exact Hq |].
    replace (t + 1 - 1) with t in * by lia.
    rewrite (consecutive_lt _ _ Hq), H1, H2, H3.
    replace (t - 1 <=? t) with true by (symmetry; apply Z.leb_le; lia).
    repeat split; lia.
Qed.

Lemma chain_poses (w : Wrapper) (bound n : Z) (last : option Z) (t : Z)
    (q : Queues) :
  threadInv w bound last t ->
  (mMultiThreadEnabled w = true ->
   bound + Z.of_nat (length (spWPoses w)) < 2 ^ 32) ->
  consecutive n q -> n < 2 ^ 62 ->
  let p := planPoses w t q in
  chainFrom last (calls p) = true
  /\ threadInv w (bound + Z.of_nat (length (spWPoses w)))
       (lastOf last (calls p)) (tidAfter p)
  /\ consecutive (n + 1) (value p).
Proof.
  unfold planPoses, threadInv. intros [-> Ht] Hb Hq Hn.
  assert (Hq1 : consecutive (n + 1) (incr q))
    by (apply consecutive_incr; [lia | exact Hq]).
  destruct (spWPoses w) as [| wPose rest] eqn:Hp.
  - clear Hb. destruct (mMultiThreadEnabled w); chain_tac.
  - rewrite <- Hp in *. destruct (mMultiThreadEnabled w).
    + specialize (Hb eq_refl).
      destruct (chain_replicas q n (spWPoses w) t) as [H1 [H2 H3]];
        [lia | lia | exact Hq |].
      cbn [calls tidAfter value]. rewrite H1, H2, H3.
      split; [reflexivity |]. split; [split; [reflexivity | lia] |].
      exact Hq1.
    + clear Hb. subst t. chain_tac.
Qed.

Lemma chain_postProcessing (w : Wrapper) (bound n : Z) (last : option Z)
    (t : Z) (q : Queues) :
  threadInv w bound last t -> bound + 3 < 2 ^ 32 ->
  consecutive n q -> n < 2 ^ 60 ->
  let p := planPostProcessing w t q in
  chainFrom last (calls p) = true
  /\ threadInv w (bound + 3) (lastOf last (calls p)) (tidAfter p)
  /\ consecutive (n + 3) (value p).
Proof.
  unfold planPostProcessing, threadInv, pp. intros [-> Ht] Hb Hq Hn.
  assert (Hq1 : consecutive (n + 1) (incr q)) by (apply consecutive_incr; [lia | exact Hq]).
  assert (Hq2 : consecutive (n + 1 + 1) (incr (incr q)))
    by (apply consecutive_incr; [lia | exact Hq1]).
  assert (Hq3 : consecutive (n + 1 + 1 + 1) (incr (incr (incr q))))
    by (apply consecutive_incr; [lia | exact Hq2]).
  destruct (negb (empty (mUserPostProcessingWs w))
            && mUserPostProcessingWsOnNewThread w),
    (negb (empty (mPostProcessingWs w))), (negb (empty (mOutputWs w))),
    (negb (empty ((mPostProcessingWs w ++ mUserPostProcessingWs w)
                  ++ mOutputWs w))),
    (mMultiThreadEnabled w); try subst t; chain_tac.
Qed.

Lemma chain_userOutput (w : Wrapper) (bound n : Z) (last : option Z)
    (t : Z) (q : Queues) :
  threadInv w bound last t -> bound + 1 < 2 ^ 32 ->
  consecutive n q -> n < 2 ^ 60 ->
  mMultiThreadEnabled w = true \/ empty (mUserOutputWs w) = true
  \/ mUserOutputWsOnNewThread w = true ->
  let p := planUserOutput w t q in
  chainFrom last (calls p) = true
  /\ threadInv w (bound + 1) (lastOf last (calls p)) (tidAfter p)
  /\ consecutive (n + 1) (value p).
Proof.
  unfold planUserOutput, threadInv, pp. intros [-> Ht] Hb Hq Hn Hc.
  assert (Hq1 : consecutive (n + 1) (incr q))
    by (apply consecutive_incr; [lia | exact Hq]).
  destruct (empty (mUserOutputWs w)), (mUserOutputWsOnNewThread w),
    (mMultiThreadEnabled w); cbn [negb];
    try (destruct Hc as [Hc | [Hc | Hc]]; discriminate);
    try subst t; chain_tac.
Qed.

Lemma chain_gui (w : Wrapper) (bound n : Z) (last : option Z) (t : Z)
    (q : Queues) :
  threadInv w bound last t -> bound + 1 < 2 ^ 32 ->
  consecutive n q -> n < 2 ^ 60 ->
  let p := planGui w t q in
  chainFrom last (calls p) = true
  /\ threadInv w (bound + 1) (lastOf last (calls p)) (tidAfter p)
  /\ consecutive (n + 1) (value p).
Proof.
  unfold planGui, threadInv, pp. intros [-> Ht] Hb Hq Hn.
  assert (Hq1 : consecutive (n + 1) (incr q))
    by (apply consecutive_incr; [lia | exact Hq]).
  destruct (isNull (spWGui w)), (mMultiThreadEnabled w); cbn [negb];
    try subst t; chain_tac.
Qed.

(** The wrapped thread id: the user output stage is accepted and leaves
    2^32 - 1 as the last thread id; the GUI stage, on thread 0, is then
    refused. *)
Lemma chain_userOutput_wrapped (w : Wrapper) (n : Z) (q : Queues) :
  mMultiThreadEnabled w = false -> empty (mUserOutputWs w) = false ->
  mUserOutputWsOnNewThread w = false -> consecutive n q -> n < 2 ^ 60 ->
  let p := planUserOutput w 0 q in
  calls p = [mkStage 4294967295 (mUserOutputWs w) (queueIn q) (queueOut q)]
  /\ chainFrom (Some 0) (calls p) = true
  /\ lastOf (Some 0) (calls p) = Some 4294967295
  /\ tidAfter p = 0 /\ consecutive (n + 1) (value p).
Proof.
  unfold planUserOutput. intros _ -> -> Hq Hn. cbn [negb].
  rewrite wrap32_minus_one.
  cbn [calls tidAfter value chainFrom lastOf ThreadManager.threadId
       ThreadManager.inputChannelIndex ThreadManager.outputChannelIndex].
  rewrite (consecutive_lt _ _ Hq).
  split; [reflexivity |]. split; [reflexivity |]. split; [reflexivity |].
  split; [reflexivity |]. apply consecutive_incr; [lia | exact Hq].
Qed.

Lemma chain_gui_wrapped (w : Wrapper) (n : Z) (q : Queues) :
  consecutive n q ->
  chainFrom (Some 4294967295) (calls (planGui w 0 q)) = isNull (spWGui w).
Proof.
  unfold planGui. intro Hq. destruct (isNull (spWGui w)); cbn [negb].
  - reflexivity.
  - cbn [calls chainFrom ThreadManager.threadId
         ThreadManager.inputChannelIndex ThreadManager.outputChannelIndex].
    rewrite (consecutive_lt _ _ Hq). reflexivity.
Qed.

(** The scheduler accepts every planned stage, except that it refuses
    the GUI stage after a wrapped thread id. *)
Lemma planGraph_chain (w : Wrapper) :
  Z.of_nat (length (spWPoses w)) < 2 ^ 31 ->
  chainFrom None (calls (planGraph w)) = negb (wrappedBeforeGui w).
Proof.
  intro Hlen. unfold planGraph.
  set (p1 := planInput w 0 (0, 1)).
  set (p2 := planPoses w (pp w (tidAfter p1)) (value p1)).
  set (p3 := planPostProcessing w (tidAfter p2) (value p2)).
  set (p4 := planUserOutput w (tidAfter p3) (value p3)).
  set (p5 := planGui w (tidAfter p4) (value p4)).
  cbn [calls].
  destruct (chain_input w) as [C1 [I1 Q1]]. fold p1 in C1, I1, Q1.
  destruct (chain_poses w 2 2 _ _ _ I1 ltac:(intros; lia) Q1 ltac:(lia))
    as [C2 [I2 Q2]]. fold p2 in C2, I2, Q2.
  destruct (chain_postProcessing w _ _ _ _ _ I2 ltac:(lia) Q2 ltac:(lia))
    as [C3 [I3 Q3]]. fold p3 in C3, I3, Q3.
  rewrite !chainFrom_app, ?lastOf_app, C1, C2, C3. cbn [andb].
  destruct (mMultiThreadEnabled w) eqn:Hm;
    [| destruct (empty (mUserOutputWs w)) eqn:He;
       [| destruct (mUserOutputWsOnNewThread w) eqn:Hn]].
  1-3: destruct (chain_userOutput w _ _ _ _ _ I3 ltac:(lia) Q3 ltac:(lia))
         as [C4 [I4 Q4]]; [tauto |]; fold p4 in C4, I4, Q4;
       destruct (chain_gui w _ _ _ _ _ I4 ltac:(lia) Q4 ltac:(lia))
         as [C5 _]; fold p5 in C5;
       rewrite C4, C5; unfold wrappedBeforeGui; rewrite ?Hm, ?He, ?Hn;
       cbn; rewrite ?andb_false_r; reflexivity.
  destruct I3 as [L3 T3]. rewrite Hm in L3, T3.
  destruct (chain_userOutput_wrapped w _ _ Hm He Hn Q3 ltac:(lia))
    as [_ [C4 [L4 [T4 Q4]]]].
  unfold p5, p4. rewrite L3, T3, C4, L4, T4.
  rewrite (chain_gui_wrapped w _ _ Q4).
  unfold wrappedBeforeGui. rewrite Hm, He, Hn. cbn.
  now destruct (isNull (spWGui w)).
Qed.

Lemma plannedStages_accepted (w : Wrapper) :
  Z.of_nat (length (spWPoses w)) < 2 ^ 31 ->
  chainOk [] (plannedStages w) = negb (wrappedBeforeGui w).
Proof.
  intro H. rewrite chainOk_chainFrom. unfold plannedStages.
  cbn [ThreadManager.lastThreadId rev].
  rewrite planGraph_chain by (destruct_wrapper w; exact H).
  destruct_wrapper w; reflexivity.
Qed.

(** Graph construction on a well-formed object fails only in its checks
    or on a wrapped thread id. *)
Lemma configureThreadManager_result (w : Wrapper) :
  wellFormed w ->
  fst (configureThreadManager w) =
  match checksOutcome w with
  | inl e => inl e
  | inr _ =>
      if wrappedBeforeGui w
      then inl (ConfigurationError ThreadManager.msgTopological)
      else inr tt
  end.
Proof.
  intros [_ Hlen].
  destruct (checksOutcome w) as [e | []] eqn:Hc.
  - rewrite configureThreadManager_eq, Hc. reflexivity.
  - destruct (configureThreadManager_plan w Hc) as [Hf _].
    rewrite Hf, plannedStages_accepted by exact Hlen.
    now destruct (wrappedBeforeGui w).
Qed.

(** ** The checks on producers and consumers *)

Lemma producers_check (w : Wrapper) :
  Bool.eqb (isNull (wDatumProducer w)) (empty (mUserInputWs w)) = true
  <-> producers w <> 1%nat.
Proof.
  unfold producers.
  destruct (isNull (wDatumProducer w)), (empty (mUserInputWs w)); cbn;
    intuition (try discriminate; try lia).
Qed.

Lemma consumers_check (w : Wrapper) :
  empty (mOutputWs w) && empty (mUserOutputWs w) && isNull (spWGui w) = true
  <-> consumers w = 0%nat.
Proof.
  unfold consumers.
  destruct (empty (mOutputWs w)), (empty (mUserOutputWs w)),
    (isNull (spWGui w)); cbn; intuition (try discriminate; try lia).
Qed.

Lemma configured_check (w : Wrapper) :
  configured w <->
  isNull (spWCvMatToOpInput w) || isNull (spWCvMatToOpOutput w) = false.
Proof.
  unfold configured.
  destruct (spWCvMatToOpInput w), (spWCvMatToOpOutput w); cbn;
    intuition (try discriminate; try congruence).
Qed.

(** Whatever graph construction raises after its checks is the refusal
    of a stage by the scheduler. *)
Lemma configureThreadManager_cases (w : Wrapper) :
  fst (configureThreadManager w) = checksOutcome w
  \/ (checksOutcome w = inr tt
      /\ fst (configureThreadManager w)
         = inl (ConfigurationError ThreadManager.msgTopological)).
Proof.
  destruct (checksOutcome w) as [e | []] eqn:Hc.
  - left. rewrite configureThreadManager_eq, Hc. reflexivity.
  - destruct (configureThreadManager_plan w Hc) as [Hf _]. rewrite Hf.
    destruct (chainOk [] (plannedStages w)); [left | right]; auto.
Qed.

Ltac checks_tac :=
  unfold checksOutcome, raisesWith, raises, msgOneProducer, msgNoInput,
    msgNoOutput, msgNotConfigured, ThreadManager.msgTopological in *;
  repeat match goal with
         | |- context [if ?c then _ else _] => destruct c eqn:?
         | H : context [if ?c then _ else _] |- _ => destruct c eqn:?
         end;
  try discriminate; try congruence; eauto.

(** C2: outside asynchronous-ingress mode, [start()] and [exec()] raise
    an error whenever the number of configured producers (the producer of
    [configure], the user input worker) is not exactly one; on a
    configured object the error of the producer check is raised if and
    only if that number is not one; with exactly one producer neither that
    error nor "No input selected." is raised, and a configured,
    well-formed object with some consumer and no wrapped thread id
    starts. *)
Theorem exactly_one_producer (w : Wrapper) :
  notAsynchronousIn (mThreadManagerMode w) = true ->
  (producers w <> 1%nat ->
     raises (fst (start w)) /\ raises (fst (exec w)))
  /\ (producers w = 1%nat ->
        ~ raisesWith (fst (start w)) msgOneProducer
        /\ ~ raisesWith (fst (start w)) msgNoInput
        /\ ~ raisesWith (fst (exec w)) msgOneProducer
        /\ ~ raisesWith (fst (exec w)) msgNoInput)
  /\ (configured w ->
        (raisesWith (fst (start w)) msgOneProducer <-> producers w <> 1%nat)
        /\ (raisesWith (fst (exec w)) msgOneProducer
            <-> producers w <> 1%nat))
  /\ (producers w = 1%nat -> configured w -> consumers w <> 0%nat ->
      wellFormed w -> wrappedBeforeGui w = false ->
      fst (start w) = inr tt /\ fst (exec w) = inr tt).
Proof.
  intro Hmode. rewrite start_fst, exec_fst.
  pose proof (producers_check w) as Hp.
  pose proof (consumers_check w) as Hcons.
  pose proof (configured_check w) as Hconf.
  pose proof (configureThreadManager_cases w) as Hcases.
  split; [| split; [| split]].
  - intro Hne. apply Hp in Hne.
    assert (H : raises (fst (configureThreadManager w))).
    { destruct Hcases as [-> | [Hc _]];
        unfold checksOutcome in *; rewrite Hne, Hmode in *;
        checks_tac. }
    split; exact H.
  - intro Heq.
    assert (Hb : Bool.eqb (isNull (wDatumProducer w))
                          (empty (mUserInputWs w)) = false).
    { apply not_true_is_false. intro E. apply Hp in E. contradiction. }
    assert (H : ~ raisesWith (fst (configureThreadManager w)) msgOneProducer
                /\ ~ raisesWith (fst (configureThreadManager w)) msgNoInput).
    { destruct Hcases as [-> | [_ ->]];
        unfold checksOutcome; rewrite ?Hb; cbn [andb];
        split; checks_tac. }
    tauto.
  - intro Hc. apply Hconf in Hc.
    assert (H : raisesWith (fst (configureThreadManager w)) msgOneProducer
                <-> producers w <> 1%nat).
    { rewrite <- Hp. destruct Hcases as [-> | [Hok ->]].
      - unfold checksOutcome. rewrite Hc, Hmode, andb_true_r.
        destruct (Bool.eqb _ _); split; intro; checks_tac.
      - unfold checksOutcome in Hok. rewrite Hc, Hmode, andb_true_r in Hok.
        destruct (Bool.eqb _ _); split; intro; checks_tac. }
    split; exact H.
  - intros Heq Hc Hne Hwf Hwrap.
    rewrite (configureThreadManager_result w Hwf), Hwrap.
    apply Hconf in Hc.
    assert (Hb : Bool.eqb (isNull (wDatumProducer w))
                          (empty (mUserInputWs w)) = false).
    { apply not_true_is_false. intro E. apply Hp in E. contradiction. }
    assert (Hd : empty (mOutputWs w) && empty (mUserOutputWs w)
                 && isNull (spWGui w) = false).
    { apply not_true_is_false. intro E. apply Hcons in E.
      contradiction. }
    unfold checksOutcome. rewrite Hc, Hb, Hd. cbn. split; reflexivity.
Qed.

Lemma exactly_one_producer_witness :
  fst (start (videoToGui 1)) = inr tt /\ fst (exec (videoToGui 1)) = inr tt.
Proof.
  destruct (exactly_one_producer (videoToGui 1)) as [_ [_ [_ H]]].
  - reflexivity.
  - apply H.
    + reflexivity.
    + split; discriminate.
    + discriminate.
    + split; [vm_compute; intuition discriminate | reflexivity].
    + reflexivity.
Defined.

(** C3, as the code has it: outside asynchronous-egress mode, [start()]
    and [exec()] raise an error when no consumer at all is configured; on
    a configured object whose producer check passes, the error "No output
    selected." is raised if and only if there is no consumer.  With one or
    more consumers that error is not raised: a configured, well-formed
    object with several consumers and no wrapped thread id starts. *)
Theorem some_consumer_required (w : Wrapper) :
  notAsynchronousOut (mThreadManagerMode w) = true ->
  (consumers w = 0%nat ->
     raises (fst (start w)) /\ raises (fst (exec w)))
  /\ (consumers w <> 0%nat ->
        ~ raisesWith (fst (start w)) msgNoOutput
        /\ ~ raisesWith (fst (exec w)) msgNoOutput)
  /\ (configured w ->
      notAsynchronousIn (mThreadManagerMode w) = false
      \/ producers w = 1%nat ->
        (raisesWith (fst (start w)) msgNoOutput <-> consumers w = 0%nat)
        /\ (raisesWith (fst (exec w)) msgNoOutput <-> consumers w = 0%nat))
  /\ (consumers w <> 0%nat -> configured w ->
      notAsynchronousIn (mThreadManagerMode w) = false
      \/ producers w = 1%nat ->
      wellFormed w -> wrappedBeforeGui w = false ->
      fst (start w) = inr tt /\ fst (exec w) = inr tt).
Proof.
  intro Hmode. rewrite start_fst, exec_fst.
  pose proof (producers_check w) as Hp.
  pose proof (consumers_check w) as Hcons.
  pose proof (configured_check w) as Hconf.
  pose proof (configureThreadManager_cases w) as Hcases.
  assert (Hprod : notAsynchronousIn (mThreadManagerMode w) = false
                  \/ producers w = 1%nat ->
                  Bool.eqb (isNull (wDatumProducer w))
                           (empty (mUserInputWs w))
                  && notAsynchronousIn (mThreadManagerMode w) = false).
  { intros [-> | Heq]; [apply andb_false_r |].
    apply not_true_is_false. intro E. apply andb_prop in E.
    destruct E as [E _]. apply Hp in E. contradiction. }
  split; [| split; [| split]].
  - intro H0. apply Hcons in H0.
    assert (H : raises (fst (configureThreadManager w))).
    { destruct Hcases as [-> | [Hc _]];
        unfold checksOutcome in *; rewrite H0, Hmode in *; checks_tac. }
    split; exact H.
  - intro Hne.
    assert (Hd : empty (mOutputWs w) && empty (mUserOutputWs w)
                 && isNull (spWGui w) = false).
    { apply not_true_is_false. intro E. apply Hcons in E.
      contradiction. }
    assert (H : ~ raisesWith (fst (configureThreadManager w)) msgNoOutput).
    { destruct Hcases as [-> | [_ ->]];
        unfold checksOutcome; rewrite ?Hd; cbn [andb]; checks_tac. }
    tauto.
  - intros Hc Hpr. apply Hconf in Hc. apply Hprod in Hpr.
    assert (H : raisesWith (fst (configureThreadManager w)) msgNoOutput
                <-> consumers w = 0%nat).
    { rewrite <- Hcons. destruct Hcases as [-> | [Hok ->]].
      - unfold checksOutcome. rewrite Hc, Hpr, Hmode, andb_true_r.
        destruct (_ && _ && _); split; intro; checks_tac.
      - unfold checksOutcome in Hok.
        rewrite Hc, Hpr, Hmode, andb_true_r in Hok.
        destruct (_ && _ && _); split; intro; checks_tac. }
    split; exact H.
  - intros Hne Hc Hpr Hwf Hwrap.
    rewrite (configureThreadManager_result w Hwf), Hwrap.
    apply Hconf in Hc. apply Hprod in Hpr.
    assert (Hd : empty (mOutputWs w) && empty (mUserOutputWs w)
                 && isNull (spWGui w) = false).
    { apply not_true_is_false. intro E. apply Hcons in E.
      contradiction. }
    unfold checksOutcome. rewrite Hc, Hpr, Hd. cbn. split; reflexivity.
Qed.

Lemma some_consumer_required_witness :
  fst (start twoConsumers) = inr tt /\ fst (exec twoConsumers) = inr tt.
Proof.
  destruct (some_consumer_required twoConsumers) as [_ [_ [_ H]]].
  - reflexivity.
  - apply H.
    + discriminate.
    + split; discriminate.
    + right. reflexivity.
    + split; [vm_compute; intuition discriminate | reflexivity].
    + reflexivity.
Defined.

(** C3 as stated fails on an object with two consumers, a pose saver
    and the GUI: in synchronous mode [start()] and [exec()] return
    normally and the graph ends with both. *)
Lemma two_consumers_accepted :
  notAsynchronousOut (mThreadManagerMode twoConsumers) = true
  /\ consumers twoConsumers = 2%nat
  /\ mOutputWs twoConsumers = [Some WPoseSaver]
  /\ spWGui twoConsumers = Some WGui
  /\ fst (start twoConsumers) = inr tt
  /\ fst (exec twoConsumers) = inr tt
  /\ map units (graph (mThreadManager (after start twoConsumers)))
     = [[Some WDatumProducer; Some WIdGenerator; Some WCvMatToOpInput;
         Some WCvMatToOpOutput];
        [Some (WPoseExtractor 0); Some (WPoseRenderer 0)];
        [Some WOpOutputToCvMat; Some WPoseSaver];
        [Some WGui]].
Proof.
  vm_compute. repeat split; reflexivity.
Qed.

(** ** The single-thread mode *)

Lemma single_thread_input (w : Wrapper) (q : Queues) :
  mMultiThreadEnabled w = false ->
  Forall onThreadZero (calls (planInput w 0 q))
  /\ tidAfter (planInput w 0 q) = 0.
Proof.
  unfold planInput, pp, onThreadZero. intros ->.
  destruct (negb (empty (mUserInputWs w)) && mUserInputWsOnNewThread w);
    cbn; repeat constructor.
Qed.

Lemma single_thread_poses (w : Wrapper) (q : Queues) :
  mMultiThreadEnabled w = false ->
  Forall onThreadZero (calls (planPoses w 0 q)).
Proof.
  unfold planPoses, onThreadZero. intros ->.
  destruct (spWPoses w); cbn; repeat constructor.
Qed.

Lemma single_thread_postProcessing (w : Wrapper) (q : Queues) :
  mMultiThreadEnabled w = false ->
  Forall onThreadZero (calls (planPostProcessing w 0 q)).
Proof.
  unfold planPostProcessing, pp, onThreadZero. intros ->.
  destruct (negb (empty (mUserPostProcessingWs w))
            && mUserPostProcessingWsOnNewThread w),
    (negb (empty (mPostProcessingWs w))), (negb (empty (mOutputWs w))),
    (negb (empty ((mPostProcessingWs w ++ mUserPostProcessingWs w)
                  ++ mOutputWs w)));
    cbn; repeat constructor.
Qed.

(** In single-thread mode everything up to the user output worker is
    accepted on thread 0. *)
Lemma single_thread_prefix (w : Wrapper) :
  mMultiThreadEnabled w = false ->
  let p1 := planInput w 0 (0, 1) in
  let p2 := planPoses w (pp w (tidAfter p1)) (value p1) in
  let p3 := planPostProcessing w (tidAfter p2) (value p2) in
  chainFrom None (calls p1 ++ calls p2 ++ calls p3) = true
  /\ lastOf None (calls p1 ++ calls p2 ++ calls p3) = Some 0
  /\ tidAfter p3 = 0
  /\ consecutive 6 (value p3)
  /\ Forall onThreadZero (calls p1 ++ calls p2 ++ calls p3).
Proof.
  intros Hm p1 p2 p3.
  destruct (chain_input w) as [C1 [I1 Q1]]. fold p1 in C1, I1, Q1.
  assert (Hb : mMultiThreadEnabled w = true ->
               2 + Z.of_nat (length (spWPoses w)) < 2 ^ 32)
    by (rewrite Hm; discriminate).
  destruct (chain_poses w 2 2 _ _ _ I1 Hb Q1 ltac:(lia)) as [C2 [I2 Q2]].
  fold p2 in C2, I2, Q2.
  assert (I2' : threadInv w 2 (lastOf (lastOf None (calls p1)) (calls p2))
                  (tidAfter p2)).
  { unfold threadInv in *. rewrite Hm in *. exact I2. }
  destruct (chain_postProcessing w _ _ _ _ _ I2' ltac:(lia) Q2 ltac:(lia))
    as [C3 [I3 Q3]]. fold p3 in C3, I3, Q3.
  rewrite !chainFrom_app, !lastOf_app, C1, C2, C3.
  unfold threadInv in I1, I2, I3. rewrite Hm in I1, I2, I3.
  destruct I1 as [_ T1], I2 as [_ T2], I3 as [L3 T3].
  split; [reflexivity |]. split; [now rewrite L3, T3 |].
  split; [exact T3 |].
  split; [exact Q3 |].
  rewrite !Forall_app. repeat split.
  - apply single_thread_input, Hm.
  - unfold p2. rewrite T1. apply single_thread_poses, Hm.
  - unfold p3. rewrite T2. apply single_thread_postProcessing, Hm.
Qed.

Lemma securityChecks_fst (w : Wrapper) :
  fst (securityChecks w) = checksOutcome w.
Proof. now rewrite securityChecks_eq. Qed.

(** C10: in single-thread mode with a user output worker that is not
    on a new thread, once the security checks have passed, graph
    construction hands over the user output stage with thread id
    [mThreadId - 1] computed at [mThreadId = 0] in 32-bit unsigned
    arithmetic, that is 2^32 - 1 = 4294967295.  Every other stage handed
    over has thread id 0: those before it, and the GUI stage that follows
    it when there is a GUI. *)
Theorem user_output_thread_id_wraps (w : Wrapper) :
  fst (securityChecks w) = inr tt ->
  mMultiThreadEnabled w = false ->
  mUserOutputWs w <> [] ->
  mUserOutputWsOnNewThread w = false ->
  exists (before : list Stage) (q : Queues),
    issued (mThreadManager (snd (configureThreadManager w)))
    = before
      ++ mkStage 4294967295 (mUserOutputWs w) (queueIn q) (queueOut q)
      :: (if isNull (spWGui w) then []
          else [mkStage 0 [spWGui w] (queueIn (incr q)) (queueOut (incr q))])
    /\ Forall onThreadZero before
    /\ wrap32 (0 - 1) = 4294967295
    /\ 4294967295 = 2 ^ 32 - 1.
Proof.
  intros Hc Hm Hne Hn. rewrite securityChecks_fst in Hc.
  destruct (configureThreadManager_plan w Hc) as [_ [t Ht]].
  rewrite Ht. clear Ht.
  replace (mThreadManager (set_mThreadId t _))
    with (snd (addAll (plannedStages w)
                      (ThreadManager.reset (mThreadManager w))))
    by (destruct_wrapper w; reflexivity).
  assert (He : empty (mUserOutputWs w) = false)
    by (destruct (mUserOutputWs w); [contradiction | reflexivity]).
  unfold plannedStages, planGraph.
  set (w0 := prepared w).
  assert (Hm0 : mMultiThreadEnabled w0 = false)
    by (destruct_wrapper w; exact Hm).
  assert (He0 : empty (mUserOutputWs w0) = false)
    by (destruct_wrapper w; exact He).
  assert (Hn0 : mUserOutputWsOnNewThread w0 = false)
    by (destruct_wrapper w; exact Hn).
  destruct (single_thread_prefix w0 Hm0) as [C [L [T [Q F]]]].
  set (p1 := planInput w0 0 (0, 1)) in *.
  set (p2 := planPoses w0 (pp w0 (tidAfter p1)) (value p1)) in *.
  set (p3 := planPostProcessing w0 (tidAfter p2) (value p2)) in *.
  cbn zeta in C, L, T, Q, F.
  destruct (chain_userOutput_wrapped w0 6 (value p3) Hm0 He0 Hn0 Q
              ltac:(lia)) as [E4 [C4 [L4 [T4 Q4]]]].
  cbn [calls]. rewrite T, E4.
  set (p4 := planUserOutput w0 0 (value p3)) in *.
  assert (E5 : calls (planGui w0 (tidAfter p4) (value p4)) =
               if isNull (spWGui w) then []
               else [mkStage 0 [spWGui w] (queueIn (incr (value p3)))
                             (queueOut (incr (value p3)))]).
  { rewrite T4. unfold planGui, p4, planUserOutput.
    rewrite He0, Hn0. cbn [negb value].
    replace (spWGui w0) with (spWGui w) by (destruct_wrapper w; reflexivity).
    destruct (isNull (spWGui w)); reflexivity. }
  rewrite E5.
  replace (mUserOutputWs w0) with (mUserOutputWs w)
    by (destruct_wrapper w; reflexivity).
  exists (calls p1 ++ calls p2 ++ calls p3), (value p3).
  split; [| split; [exact F | split; reflexivity]].
  set (u := mkStage 4294967295 (mUserOutputWs w) (queueIn (value p3))
                    (queueOut (value p3))).
  set (g := if isNull (spWGui w) then [] else _).
  pose proof (addAll_issued ((calls p1 ++ calls p2 ++ calls p3) ++ [u]) g
                (ThreadManager.reset (mThreadManager w))) as Hi.
  replace (calls p1 ++ calls p2 ++ calls p3 ++ [u] ++ g)
    with (((calls p1 ++ calls p2 ++ calls p3) ++ [u]) ++ g)
    by (rewrite <- !app_assoc; reflexivity).
  rewrite Hi.
  - cbn [ThreadManager.reset ThreadManager.issued app].
    rewrite <- !app_assoc. reflexivity.
  - rewrite chainOk_chainFrom.
    cbn [ThreadManager.reset ThreadManager.graph
         ThreadManager.lastThreadId rev].
    rewrite chainFrom_app, C, L. cbn [andb].
    unfold u. cbn [chainFrom ThreadManager.threadId
      ThreadManager.inputChannelIndex ThreadManager.outputChannelIndex].
    rewrite (consecutive_lt _ _ Q). reflexivity.
  - unfold g. destruct (isNull (spWGui w)); cbn; lia.
Qed.

Lemma user_output_thread_id_wraps_witness :
  exists (before : list Stage) (q : Queues),
    issued (mThreadManager
              (snd (configureThreadManager singleThreadUserOutput)))
    = before
      ++ mkStage 4294967295 (mUserOutputWs singleThreadUserOutput)
                 (queueIn q) (queueOut q)
      :: (if isNull (spWGui singleThreadUserOutput) then []
          else [mkStage 0 [spWGui singleThreadUserOutput]
                        (queueIn (incr q)) (queueOut (incr q))])
    /\ Forall onThreadZero before
    /\ wrap32 (0 - 1) = 4294967295
    /\ 4294967295 = 2 ^ 32 - 1.
Proof.
  apply (user_output_thread_id_wraps singleThreadUserOutput).
  - vm_compute. reflexivity.
  - vm_compute. reflexivity.
  - vm_compute. discriminate.
  - vm_compute. reflexivity.
Defined.

(** C6, where the code departs from it: with multi-threading disabled,
    a user output worker that is not on a new thread and the GUI, the
    stages handed over have consecutive queue indices but the thread ids
    0, 0, 0, 4294967295, 0, which decrease at the GUI stage; the scheduler
    refuses that stage and [start()] raises. *)
Theorem gui_after_wrapped_thread_id :
  map (fun s => (threadId s, inputChannelIndex s, outputChannelIndex s))
      (issued (mThreadManager (after start singleThreadUserOutput)))
  = [(0, 0, 1); (0, 1, 2); (0, 2, 3); (4294967295, 3, 4); (0, 4, 5)]
  /\ ~ nonDecreasing
         (issued (mThreadManager (after start singleThreadUserOutput)))
  /\ fst (start singleThreadUserOutput)
     = inl (ConfigurationError ThreadManager.msgTopological).
Proof.
  split; [vm_compute; reflexivity |]. split; [| vm_compute; reflexivity].
  vm_compute. intros [_ [_ [_ [H _]]]]. apply H. reflexivity.
Qed.

(** C7, where the code departs from it: after [disableMultiThreading()]
    and [setWorkerOutput(worker, false)], [start()] returns and the
    stages of the graph are on the threads 0, 0, 0 and 4294967295: the
    user output stage is not on thread 0.  Only the first of the two
    replicas is in the graph. *)
Theorem single_thread_user_output_off_thread_zero :
  mMultiThreadEnabled singleThreadUserOutputNoGui = false
  /\ length (spWPoses singleThreadUserOutputNoGui) = 2%nat
  /\ fst (start singleThreadUserOutputNoGui) = inr tt
  /\ map (fun s => (threadId s, units s))
         (graph (mThreadManager (after start singleThreadUserOutputNoGui)))
     = [(0, [Some WDatumProducer; Some WIdGenerator; Some WCvMatToOpInput;
             Some WCvMatToOpOutput]);
        (0, [Some (WPoseExtractor 0); Some (WPoseRenderer 0)]);
        (0, [Some WQueueOrderer; Some WOpOutputToCvMat]);
        (4294967295, [Some (WUser 0)])].
Proof.
  vm_compute. repeat split; reflexivity.
Qed.

(** [threadIdPP] leaves [mThreadId] alone in single-thread mode and adds
    one modulo 2^32 otherwise. *)
Lemma threadIdPP_eq (w : Wrapper) :
  threadIdPP w
  = (inr (pp w (mThreadId w)), set_mThreadId (pp w (mThreadId w)) w).
Proof.
  unfold threadIdPP, pp. rewrite tryCatch_eq.
  unfold bind, get, when, modify, ret.
  destruct_wrapper w; cbn. destruct fMulti; reflexivity.
Qed.

(** ** The shape of the graph *)

Lemma flatten_app (a b : list Stage) :
  flatten (a ++ b) = flatten a ++ flatten b.
Proof. unfold flatten. now rewrite map_app, concat_app. Qed.

Lemma empty_true {A : Type} (l : list A) : empty l = true -> l = [].
Proof. destruct l; [reflexivity | discriminate]. Qed.

Lemma planReplicas_units (q : Queues) (poses : list (list TWorker)) :
  forall t,
    map units (calls (planReplicas t q poses)) = poses
    /\ Forall (fun r => inputChannelIndex r = queueIn q)
              (calls (planReplicas t q poses)).
Proof.
  induction poses as [| wPose rest IH]; intro t; cbn.
  - split; constructor.
  - destruct (IH (wrap32 (t + 1))) as [H1 H2]. rewrite H1.
    split; [reflexivity | now constructor].
Qed.

Lemma planPoses_shape (w : Wrapper) (t : Z) (q : Queues) :
  map units (calls (planPoses w t q)) = addedReplicas w
  /\ Forall (fun r => inputChannelIndex r = queueIn q)
            (calls (planPoses w t q)).
Proof.
  unfold planPoses, addedReplicas.
  destruct (spWPoses w) as [| wPose rest] eqn:Hp.
  - destruct (mMultiThreadEnabled w); split; constructor.
  - destruct (mMultiThreadEnabled w).
    + rewrite <- Hp. apply planReplicas_units.
    + cbn. split; repeat constructor.
Qed.

Lemma planPostProcessing_flatten (w : Wrapper) (t : Z) (q : Queues) :
  flatten (calls (planPostProcessing w t q))
  = mPostProcessingWs w ++ mUserPostProcessingWs w ++ mOutputWs w.
Proof.
  unfold planPostProcessing, flatten.
  destruct (negb (empty (mUserPostProcessingWs w))
            && mUserPostProcessingWsOnNewThread w).
  - destruct (mPostProcessingWs w), (mOutputWs w); cbn;
      rewrite ?app_nil_r; reflexivity.
  - destruct ((mPostProcessingWs w ++ mUserPostProcessingWs w)
              ++ mOutputWs w) eqn:E; cbn.
    + rewrite app_assoc. now rewrite E.
    + rewrite app_nil_r, <- E. now rewrite app_assoc.
Qed.

Lemma planUserOutput_flatten (w : Wrapper) (t : Z) (q : Queues) :
  flatten (calls (planUserOutput w t q)) = mUserOutputWs w.
Proof.
  unfold planUserOutput, flatten.
  destruct (mUserOutputWs w), (mUserOutputWsOnNewThread w); cbn;
    rewrite ?app_nil_r; reflexivity.
Qed.

Lemma planGui_flatten (w : Wrapper) (t : Z) (q : Queues) :
  flatten (calls (planGui w t q))
  = if isNull (spWGui w) then [] else [spWGui w].
Proof.
  unfold planGui, flatten. destruct (isNull (spWGui w)); reflexivity.
Qed.

Lemma planInput_shape (w : Wrapper) :
  spWIdGenerator w = Some WIdGenerator ->
  exists pre sequencer ing,
    calls (planInput w 0 (0, 1)) = pre ++ [sequencer]
    /\ flatten pre ++ ing = ingress w
    /\ units sequencer
       = ing ++ [Some WIdGenerator; spWCvMatToOpInput w;
                 spWCvMatToOpOutput w]
    /\ outputChannelIndex sequencer = queueIn (value (planInput w 0 (0, 1))).
Proof.
  intro Hg. unfold planInput, ingress. rewrite Hg.
  destruct (mUserInputWs w) as [| x l] eqn:Hu; cbn [empty negb andb].
  - eexists [], _, _. split; [reflexivity |].
    cbn [app flatten map concat ThreadManager.units].
    split; [reflexivity |]. split; [reflexivity |].
    vm_compute. reflexivity.
  - destruct (mUserInputWsOnNewThread w).
    + eexists [_], _, []. split; [reflexivity |].
      cbn [app flatten map concat ThreadManager.units].
      rewrite !app_nil_r.
      split; [reflexivity |]. split; [reflexivity |].
      vm_compute. reflexivity.
    + eexists [], _, _. split; [reflexivity |].
      cbn [app flatten map concat ThreadManager.units].
      split; [reflexivity |]. split; [reflexivity |].
      vm_compute. reflexivity.
Qed.

(** Every planned graph has the shape: ingress, sequencer, replicas,
    the rest. *)
Lemma planGraph_shape (w : Wrapper) :
  spWIdGenerator w = Some WIdGenerator ->
  exists pre sequencer replicas post ing,
    graphShape w (calls (planGraph w)) pre sequencer replicas post ing.
Proof.
  intro Hg. unfold planGraph, graphShape.
  destruct (planInput_shape w Hg) as [pre [s [ing [E1 [Hi [Hu Hq]]]]]].
  set (p1 := planInput w 0 (0, 1)) in *.
  set (p2 := planPoses w (pp w (tidAfter p1)) (value p1)).
  set (p3 := planPostProcessing w (tidAfter p2) (value p2)).
  set (p4 := planUserOutput w (tidAfter p3) (value p3)).
  set (p5 := planGui w (tidAfter p4) (value p4)).
  destruct (planPoses_shape w (pp w (tidAfter p1)) (value p1)) as [R1 R2].
  fold p2 in R1, R2.
  exists pre, s, (calls p2), (calls p3 ++ calls p4 ++ calls p5), ing.
  cbn [calls]. rewrite E1, <- app_assoc. cbn [app].
  split; [reflexivity |]. split; [exact Hi |]. split; [exact Hu |].
  split; [exact R1 |]. split.
  - rewrite Hq. exact R2.
  - rewrite !flatten_app. unfold p3, p4, p5, postWorkers.
    rewrite planPostProcessing_flatten, planUserOutput_flatten,
      planGui_flatten. reflexivity.
Qed.






(** A graph construction that returns leaves the planned stages as the
    graph. *)
Lemma configureThreadManager_graph (w w' : Wrapper) :
  configureThreadManager w = (inr tt, w') ->
  checksOutcome w = inr tt
  /\ graph (mThreadManager w') = plannedStages w
  /\ issued (mThreadManager w') = plannedStages w
  /\ chainOk [] (plannedStages w) = true.
Proof.
  intro H.
  destruct (checksOutcome w) as [e | []] eqn:Hc.
  { rewrite configureThreadManager_eq, Hc in H. discriminate. }
  destruct (configureThreadManager_plan w Hc) as [Hf [t Hs]].
  rewrite H in Hf, Hs. cbn [fst snd] in Hf, Hs.
  destruct (chainOk [] (plannedStages w)) eqn:Hok; [| discriminate].
  destruct (addAll_accepted (plannedStages w)
              (ThreadManager.reset (mThreadManager w)) Hok) as [Hg Hi].
  subst w'. cbn [mThreadManager set_mThreadId set_mThreadManager].
  cbn [ThreadManager.reset ThreadManager.graph ThreadManager.issued app]
    in Hg, Hi.
  repeat split; assumption.
Qed.



(** * Further properties of the code *)

(** ** [mergeWorkers] *)

(** X1: [mergeWorkers] returns the workers of its first argument followed
    by those of its second, each in its order: nothing is dropped,
    duplicated or reordered, and an empty argument leaves the other one
    unchanged. *)
Theorem mergeWorkers_concatenates (workersA workersB : list TWorker) :
  mergeWorkers workersA workersB = workersA ++ workersB
  /\ mergeWorkers workersA [] = workersA
  /\ mergeWorkers [] workersB = workersB
  /\ length (mergeWorkers workersA workersB)
     = (length workersA + length workersB)%nat.
Proof.
  rewrite !mergeWorkers_app, app_nil_r, length_app. repeat split.
Qed.

(** ** [configure] *)

(** X2: when one of the checks of [configure] raises (a check on the
    flags or a check on the output resolution), [configure] raises that
    error and leaves the object exactly as it found it: every one of
    these checks comes before the first assignment to a member.  What
    the constructors of the workers may raise after that assignment is
    not in this file. *)
Theorem configure_check_failure_changes_nothing (fmt : string -> string)
    (p : WrapperStructPose) (f : WrapperStructFace) (h : WrapperStructHand)
    (i : WrapperStructInput) (o : WrapperStructOutput) (w : Wrapper)
    (e : Exn) :
  fst (checkFlags p i o w) = inl e
  \/ (fst (checkFlags p i o w) = inr tt
      /\ fst (commonParameters p i w) = inl e) ->
  configure fmt p f h i o w = (inl e, w).
Proof.
  intros [H | [H1 H2]]; rewrite configure_eq.
  - now rewrite H.
  - now rewrite H1, H2.
Qed.

Lemma configure_check_failure_changes_nothing_witness :
  configure asDirectory (poseOn 1) WrapperStructFace_default
    WrapperStructHand_default noInput noOutput
    (after (setWorkerInput (Some (WUser 0)) true)
       (Wrapper_new Synchronous 1 anyValues))
  = (inl (ConfigurationError
            ("No output is selected (`no_display`) and no results are generated (no `write_X` flags enabled). Thus, no output would be generated."
             ++ additionalMessage)%string),
     after (setWorkerInput (Some (WUser 0)) true)
       (Wrapper_new Synchronous 1 anyValues)).
Proof.
  apply configure_check_failure_changes_nothing.
  left. vm_compute. reflexivity.
Defined.

(** ** Invariants of the object *)

(** X3: in every object that the public functions produce from a new
    Wrapper, no slot other than [spWIdGenerator] holds the id generator,
    and the number of replicas of the pose stage is below 2^31. *)
Theorem id_generator_in_no_other_slot (fmt : string -> string)
    (w : Wrapper) :
  reachable fmt w ->
  ~ In (Some WIdGenerator) (slots w)
  /\ Z.of_nat (length (spWPoses w)) < 2 ^ 31.
Proof.
  intro H. exact (reachable_wellFormed fmt w H).
Qed.

Lemma id_generator_in_no_other_slot_witness :
  ~ In (Some WIdGenerator)
      (slots (snd (perform asDirectory CallStart
                     (snd (perform asDirectory
                             (CallConfigure (poseOn 2)
                                WrapperStructFace_default
                                WrapperStructHand_default videoInput
                                guiOutput)
                             (Wrapper_new Synchronous 1 anyValues))))))
  /\ Z.of_nat
       (length
          (spWPoses (snd (perform asDirectory CallStart
                     (snd (perform asDirectory
                             (CallConfigure (poseOn 2)
                                WrapperStructFace_default
                                WrapperStructHand_default videoInput
                                guiOutput)
                             (Wrapper_new Synchronous 1 anyValues)))))))
     < 2 ^ 31.
Proof.
  apply (id_generator_in_no_other_slot asDirectory).
  apply reachable_call; [| exact I].
  apply reachable_call; [apply reachable_new | cbn; lia].
Defined.

(** ** [start] and [exec] *)

Lemma configureThreadManager_check_failure (w : Wrapper) (e : Exn) :
  fst (securityChecks w) = inl e ->
  configureThreadManager w = (inl e, w).
Proof.
  rewrite securityChecks_fst. intro H.
  now rewrite configureThreadManager_eq, H.
Qed.

(** X4: when one of the three security checks fails, [start()] and
    [exec()] raise that error and leave the object untouched: in
    particular the scheduler is not reset and keeps its previous graph. *)
Theorem failed_check_changes_nothing (w : Wrapper) (e : Exn) :
  fst (securityChecks w) = inl e ->
  start w = (inl e, w) /\ exec w = (inl e, w).
Proof.
  intro H. rewrite start_eq, exec_eq.
  rewrite (configureThreadManager_check_failure w e H). split; reflexivity.
Qed.

Lemma failed_check_changes_nothing_witness :
  start (after start (after (setWorkerInput (Some (WUser 3)) true)
                        (after start (videoToGui 1))))
  = (inl (ConfigurationError msgOneProducer),
     after start (after (setWorkerInput (Some (WUser 3)) true)
                    (after start (videoToGui 1))))
  /\ exec (after start (after (setWorkerInput (Some (WUser 3)) true)
                          (after start (videoToGui 1))))
     = (inl (ConfigurationError msgOneProducer),
        after start (after (setWorkerInput (Some (WUser 3)) true)
                       (after start (videoToGui 1)))).
Proof.
  apply failed_check_changes_nothing. vm_compute. reflexivity.
Defined.

(** X6: [start()] and [exec()] change the scheduler, [mThreadId] and
    [spWIdGenerator] and no other member, whether they return or raise:
    the mode, the debug switch, the placement flags and every configured
    worker slot are as before. *)
Theorem start_touches_three_members (w : Wrapper) :
  (exists tm t g, snd (start w) = withLeftovers tm t g w)
  /\ (exists tm t g, snd (exec w) = withLeftovers tm t g w).
Proof.
  unfold withLeftovers.
  destruct (configureThreadManager_frame w) as [tm [t [g H]]].
  rewrite start_eq, exec_eq.
  destruct (fst (configureThreadManager w)); cbn [snd];
    rewrite ?onThreadManager_frame, H.
  - split; now exists tm, t, g.
  - split; eexists _, t, g; destruct_wrapper w; reflexivity.
Qed.

Lemma boundary_state {A : Type} (c : Wrapper -> bool) (msg : string)
    (m : St ThreadManager.t A) (w : Wrapper) :
  exists tm,
    snd (tryCatch (w0 <- get ;; when (c w0) (error msg) ;;;
                   onThreadManager m) w)
    = set_mThreadManager tm w.
Proof.
  rewrite tryCatch_eq. unfold bind, get, when, error, ret.
  destruct (c w); cbn [snd].
  - exists (mThreadManager w). destruct_wrapper w; reflexivity.
  - pose proof (onThreadManager_frame m w) as Hf.
    destruct (onThreadManager m w) as [[e | a] w1]; cbn [snd] in *;
      subst w1; eexists; reflexivity.
Qed.

(** X7: the boundary operations change nothing but the scheduler,
    whether they return or raise. *)
Theorem boundary_ports_touch_only_scheduler (w : Wrapper)
    (tDatums : TDatumsPtr) :
  (exists tm, snd (tryEmplace tDatums w) = set_mThreadManager tm w)
  /\ (exists tm, snd (waitAndEmplace tDatums w) = set_mThreadManager tm w)
  /\ (exists tm, snd (tryPush tDatums w) = set_mThreadManager tm w)
  /\ (exists tm, snd (waitAndPush tDatums w) = set_mThreadManager tm w)
  /\ (exists tm, snd (tryPop w) = set_mThreadManager tm w)
  /\ (exists tm, snd (waitAndPop w) = set_mThreadManager tm w).
Proof.
  repeat split;
    first [ apply (boundary_state
                     (fun w0 => negb (empty (mUserInputWs w0))))
          | apply (boundary_state
                     (fun w0 => negb (empty (mUserOutputWs w0)))) ].
Qed.

(** ** What each call does to the user's own settings *)

Lemma userSide_set_mThreadManager (tm : ThreadManager.t) (w : Wrapper) :
  userSide (set_mThreadManager tm w) = userSide w.
Proof. reflexivity. Qed.

Lemma userSide_configureThreadManager (w : Wrapper) :
  userSide (snd (configureThreadManager w)) = userSide w.
Proof.
  destruct (configureThreadManager_frame w) as [tm [t [g H]]].
  rewrite H. reflexivity.
Qed.

Lemma userSide_ignore {A : Type} (m : M A) (w : Wrapper) :
  snd (ignore m w) = snd (m w).
Proof. unfold ignore. now destruct (m w). Qed.

Lemma perform_userSide (fmt : string -> string) (c : Call) (w : Wrapper) :
  userSide (snd (perform fmt c w)) = userSideAfter c w.
Proof.
  destruct c; cbn [perform userSideAfter].
  - reflexivity.
  - destruct worker; reflexivity.
  - destruct worker; reflexivity.
  - destruct worker; reflexivity.
  - destruct (configure_outcome fmt wrapperStructPose wrapperStructFace
                wrapperHandStruct wrapperStructInput wrapperStructOutput w)
      as [[e H] | [fs [ps H]]]; rewrite H; reflexivity.
  - rewrite exec_eq.
    destruct (fst (configureThreadManager w)); cbn [snd];
      rewrite ?onThreadManager_frame, ?userSide_set_mThreadManager;
      apply userSide_configureThreadManager.
  - rewrite start_eq.
    destruct (fst (configureThreadManager w)); cbn [snd];
      rewrite ?onThreadManager_frame, ?userSide_set_mThreadManager;
      apply userSide_configureThreadManager.
  - unfold stop. rewrite tryCatch_eq, onThreadManager_frame. reflexivity.
  - rewrite userSide_ignore.
    destruct (boundary_state (fun w0 => negb (empty (mUserInputWs w0)))
                msgEmplace (ThreadManager.tryEmplace tDatums) w) as [tm H].
    unfold tryEmplace. rewrite H. reflexivity.
  - rewrite userSide_ignore.
    destruct (boundary_state (fun w0 => negb (empty (mUserInputWs w0)))
                msgEmplace (ThreadManager.waitAndEmplace tDatums) w)
      as [tm H].
    unfold waitAndEmplace. rewrite H. reflexivity.
  - rewrite userSide_ignore.
    destruct (boundary_state (fun w0 => negb (empty (mUserInputWs w0)))
                msgPush (ThreadManager.tryPush tDatums) w) as [tm H].
    unfold tryPush. rewrite H. reflexivity.
  - rewrite userSide_ignore.
    destruct (boundary_state (fun w0 => negb (empty (mUserInputWs w0)))
                msgPush (ThreadManager.waitAndPush tDatums) w) as [tm H].
    unfold waitAndPush. rewrite H. reflexivity.
  - rewrite userSide_ignore.
    destruct (boundary_state (fun w0 => negb (empty (mUserOutputWs w0)))
                msgPop ThreadManager.tryPop w) as [tm H].
    unfold tryPop. rewrite H. reflexivity.
  - rewrite userSide_ignore.
    destruct (boundary_state (fun w0 => negb (empty (mUserOutputWs w0)))
                msgPop ThreadManager.waitAndPop w) as [tm H].
    unfold waitAndPop. rewrite H. reflexivity.
Qed.

(** X8: in every object that the public functions produce from a new
    Wrapper, each of the three user slots is empty or holds exactly one
    worker, never a null one: a second [setWorker*] replaces the first. *)
Theorem user_slots_hold_at_most_one_worker (fmt : string -> string)
    (w : Wrapper) :
  reachable fmt w ->
  userSlot (mUserInputWs w) /\ userSlot (mUserPostProcessingWs w)
  /\ userSlot (mUserOutputWs w).
Proof.
  assert (Hs : forall n, userSlot (slotOf n)).
  { intros [n |]; [right; now exists n | now left]. }
  induction 1 as [m cap u | c w Hr IH Ht].
  - repeat split; now left.
  - pose proof (perform_userSide fmt c w) as H.
    pose proof (f_equal (fun x => fst (fst (fst (fst x)))) H) as H1.
    pose proof (f_equal (fun x => snd (fst (fst (fst x)))) H) as H2.
    pose proof (f_equal (fun x => snd (fst (fst x))) H) as H3.
    cbn [fst snd userSide] in H1, H2, H3. rewrite H1, H2, H3.
    destruct IH as [I1 [I2 I3]].
    destruct c; cbn [userSideAfter userSide fst snd]; repeat split; auto.
Qed.

Lemma user_slots_hold_at_most_one_worker_witness :
  userSlot (mUserInputWs
    (snd (perform asDirectory (CallSetWorkerInput (Some 2%nat) false)
       (snd (perform asDirectory (CallSetWorkerInput (Some 1%nat) true)
          (Wrapper_new Synchronous 1 anyValues))))))
  /\ userSlot (mUserPostProcessingWs
    (snd (perform asDirectory (CallSetWorkerInput (Some 2%nat) false)
       (snd (perform asDirectory (CallSetWorkerInput (Some 1%nat) true)
          (Wrapper_new Synchronous 1 anyValues))))))
  /\ userSlot (mUserOutputWs
    (snd (perform asDirectory (CallSetWorkerInput (Some 2%nat) false)
       (snd (perform asDirectory (CallSetWorkerInput (Some 1%nat) true)
          (Wrapper_new Synchronous 1 anyValues)))))).
Proof.
  apply (user_slots_hold_at_most_one_worker asDirectory).
  apply reachable_call; [| exact I].
  apply reachable_call; [apply reachable_new | exact I].
Defined.

(** X9: no public function changes the mode, and none but
    [disableMultiThreading] changes the debug switch, which it sets to
    [false]: once multi-threading is disabled it stays disabled. *)
Theorem mode_and_debug_switch_persist (fmt : string -> string) (c : Call)
    (w : Wrapper) :
  mThreadManagerMode (snd (perform fmt c w)) = mThreadManagerMode w
  /\ mMultiThreadEnabled (snd (perform fmt c w))
     = match c with
       | CallDisableMultiThreading => false
       | _ => mMultiThreadEnabled w
       end.
Proof.
  pose proof (perform_userSide fmt c w) as H.
  pose proof (f_equal snd H) as H1.
  pose proof (f_equal (fun x => snd (fst x)) H) as H2.
  cbn [fst snd userSide] in H1, H2. rewrite H1, H2.
  destruct c; split; reflexivity.
Qed.

(** ** Graph construction again *)

Lemma addAll_depends_on_graph (cs : list Stage) :
  forall tm1 tm2 : ThreadManager.t,
    graph tm1 = graph tm2 -> issued tm1 = issued tm2 ->
    graph (snd (addAll cs tm1)) = graph (snd (addAll cs tm2))
    /\ issued (snd (addAll cs tm1)) = issued (snd (addAll cs tm2)).
Proof.
  induction cs as [| c cs IH]; intros tm1 tm2 Hg Hi.
  - split; assumption.
  - rewrite !addAll_cons, Hg.
    destruct (stageOk (graph tm2) c) eqn:Hc.
    + apply IH; rewrite ?add_graph, ?add_issued, ?Hg, ?Hi; reflexivity.
    + cbn [snd]. rewrite !add_graph, !add_issued, ?Hg, ?Hi. split; reflexivity.
Qed.

Lemma plans_ignore_scheduler (w : Wrapper) (tm : ThreadManager.t) :
  pp (set_mThreadManager tm w) = pp w
  /\ planInput (set_mThreadManager tm w) = planInput w
  /\ planPoses (set_mThreadManager tm w) = planPoses w
  /\ planPostProcessing (set_mThreadManager tm w) = planPostProcessing w
  /\ planUserOutput (set_mThreadManager tm w) = planUserOutput w
  /\ planGui (set_mThreadManager tm w) = planGui w.
Proof.
  destruct_wrapper w. repeat split; reflexivity.
Qed.

Lemma planGraph_ignores_scheduler (w : Wrapper) (tm : ThreadManager.t) :
  planGraph (set_mThreadManager tm w) = planGraph w.
Proof.
  destruct (plans_ignore_scheduler w tm) as [E0 [E1 [E2 [E3 [E4 E5]]]]].
  unfold planGraph. rewrite E0, E1, E2, E3, E4, E5. reflexivity.
Qed.

Lemma plannedStages_leftovers (w : Wrapper) (tm : ThreadManager.t) (t : Z)
    (g : TWorker) :
  plannedStages (withLeftovers tm t g w) = plannedStages w.
Proof.
  unfold plannedStages.
  replace (prepared (withLeftovers tm t g w))
    with (set_mThreadManager (ThreadManager.reset tm) (prepared w))
    by (destruct_wrapper w; reflexivity).
  replace (prepared w)
    with (set_mThreadManager (ThreadManager.reset (mThreadManager w))
            (prepared w)) at 2
    by (destruct_wrapper w; reflexivity).
  rewrite !planGraph_ignores_scheduler. reflexivity.
Qed.

(** X10: what graph construction builds does not depend on what an
    earlier run left behind: with any other scheduler state, any other
    value of [mThreadId] and any other id generator, it returns or raises
    the same and hands the same stages to the scheduler.  So [start()] can
    be repeated. *)
Theorem graph_construction_ignores_leftovers (w : Wrapper)
    (tm : ThreadManager.t) (t : Z) (g : TWorker) :
  fst (securityChecks w) = inr tt ->
  fst (configureThreadManager (withLeftovers tm t g w))
  = fst (configureThreadManager w)
  /\ graph (mThreadManager
              (snd (configureThreadManager (withLeftovers tm t g w))))
     = graph (mThreadManager (snd (configureThreadManager w)))
  /\ issued (mThreadManager
               (snd (configureThreadManager (withLeftovers tm t g w))))
     = issued (mThreadManager (snd (configureThreadManager w))).
Proof.
  rewrite securityChecks_fst. intro Hc.
  assert (Hc' : checksOutcome (withLeftovers tm t g w) = inr tt)
    by (destruct_wrapper w; exact Hc).
  pose proof (plannedStages_leftovers w tm t g) as Hp.
  destruct (configureThreadManager_plan w Hc) as [F1 [t1 S1]].
  destruct (configureThreadManager_plan _ Hc') as [F2 [t2 S2]].
  rewrite F1, F2, S1, S2, Hp.
  split; [reflexivity |].
  replace (mThreadManager (set_mThreadId t2 _))
    with (snd (addAll (plannedStages w)
                 (ThreadManager.reset
                    (mThreadManager (withLeftovers tm t g w)))))
    by (destruct_wrapper w; reflexivity).
  replace (mThreadManager (set_mThreadId t1 _))
    with (snd (addAll (plannedStages w)
                 (ThreadManager.reset (mThreadManager w))))
    by (destruct_wrapper w; reflexivity).
  apply addAll_depends_on_graph; reflexivity.
Qed.

Lemma graph_construction_ignores_leftovers_witness :
  fst (configureThreadManager
         (withLeftovers (mThreadManager (after start (videoToGui 2))) 7 None
            (videoToGui 1)))
  = fst (configureThreadManager (videoToGui 1))
  /\ graph (mThreadManager
              (snd (configureThreadManager
                      (withLeftovers
                         (mThreadManager (after start (videoToGui 2))) 7
                         None (videoToGui 1)))))
     = graph (mThreadManager (snd (configureThreadManager (videoToGui 1))))
  /\ issued (mThreadManager
               (snd (configureThreadManager
                       (withLeftovers
                          (mThreadManager (after start (videoToGui 2))) 7
                          None (videoToGui 1)))))
     = issued (mThreadManager (snd (configureThreadManager (videoToGui 1)))).
Proof.
  apply graph_construction_ignores_leftovers. vm_compute. reflexivity.
Defined.

Ltac queues_tac :=
  cbn [calls value];
  repeat match goal with
         | |- Forall _ (_ ++ _) => apply Forall_app; split
         | |- Forall _ (_ :: _) => apply Forall_cons
         | |- Forall _ [] => apply Forall_nil
         | |- _ /\ _ => split
         end;
  unfold consecutiveQueues, consecutive in *;
  cbn [ThreadManager.inputChannelIndex ThreadManager.outputChannelIndex];
  try lia.

Lemma queues_input (w : Wrapper) :
  Forall consecutiveQueues (calls (planInput w 0 (0, 1)))
  /\ consecutive 2 (value (planInput w 0 (0, 1))).
Proof.
  unfold planInput.
  destruct (negb (empty (mUserInputWs w)) && mUserInputWsOnNewThread w);
    cbn [calls value]; (split; [| vm_compute; intuition discriminate]);
    repeat constructor; vm_compute; try reflexivity; discriminate.
Qed.

Lemma queues_replicas (n : Z) (q : Queues) (poses : list (list TWorker)) :
  consecutive n q ->
  forall t, Forall consecutiveQueues (calls (planReplicas t q poses)).
Proof.
  intro Hq. induction poses as [| p r IH]; intro t; cbn.
  - constructor.
  - constructor; [| apply IH]. unfold consecutiveQueues, consecutive in *.
    cbn. lia.
Qed.

Lemma queues_poses (w : Wrapper) (n t : Z) (q : Queues) :
  consecutive n q -> n < 2 ^ 60 ->
  Forall consecutiveQueues (calls (planPoses w t q))
  /\ consecutive (n + 1) (value (planPoses w t q)).
Proof.
  intros Hq Hn. unfold planPoses.
  pose proof (consecutive_incr n q ltac:(lia) Hq) as Hq1.
  destruct (spWPoses w) as [| p r] eqn:Hp.
  - queues_tac.
  - destruct (mMultiThreadEnabled w).
    + cbn [calls value]. split; [| exact Hq1].
      apply (queues_replicas n); exact Hq.
    + queues_tac.
Qed.

Lemma queues_postProcessing (w : Wrapper) (n t : Z) (q : Queues) :
  consecutive n q -> n < 2 ^ 60 ->
  Forall consecutiveQueues (calls (planPostProcessing w t q))
  /\ consecutive (n + 3) (value (planPostProcessing w t q)).
Proof.
  intros Hq Hn. unfold planPostProcessing.
  pose proof (consecutive_incr n q ltac:(lia) Hq) as Hq1.
  pose proof (consecutive_incr (n + 1) _ ltac:(lia) Hq1) as Hq2.
  pose proof (consecutive_incr (n + 1 + 1) _ ltac:(lia) Hq2) as Hq3.
  destruct (negb (empty (mUserPostProcessingWs w))
            && mUserPostProcessingWsOnNewThread w),
    (negb (empty (mPostProcessingWs w))), (negb (empty (mOutputWs w))),
    (negb (empty ((mPostProcessingWs w ++ mUserPostProcessingWs w)
                  ++ mOutputWs w))); queues_tac.
Qed.

Lemma queues_userOutput (w : Wrapper) (n t : Z) (q : Queues) :
  consecutive n q -> n < 2 ^ 60 ->
  Forall consecutiveQueues (calls (planUserOutput w t q))
  /\ consecutive (n + 1) (value (planUserOutput w t q)).
Proof.
  intros Hq Hn. unfold planUserOutput.
  pose proof (consecutive_incr n q ltac:(lia) Hq) as Hq1.
  destruct (negb (empty (mUserOutputWs w))), (mUserOutputWsOnNewThread w);
    queues_tac.
Qed.

Lemma queues_gui (w : Wrapper) (n t : Z) (q : Queues) :
  consecutive n q -> n < 2 ^ 60 ->
  Forall consecutiveQueues (calls (planGui w t q)).
Proof.
  intros Hq Hn. unfold planGui.
  destruct (negb (isNull (spWGui w))); queues_tac.
Qed.

Lemma queues_planGraph (w : Wrapper) :
  Forall consecutiveQueues (calls (planGraph w)).
Proof.
  unfold planGraph. cbn [calls].
  destruct (queues_input w) as [F1 Q1].
  destruct (queues_poses w 2 (pp w (tidAfter (planInput w 0 (0, 1))))
              _ Q1 ltac:(lia)) as [F2 Q2].
  destruct (queues_postProcessing w _
              (tidAfter (planPoses w (pp w (tidAfter (planInput w 0 (0, 1))))
                           (value (planInput w 0 (0, 1)))))
              _ Q2 ltac:(lia)) as [F3 Q3].
  set (p3 := planPostProcessing w _ _) in *.
  destruct (queues_userOutput w _ (tidAfter p3) _ Q3 ltac:(lia)) as [F4 Q4].
  set (p4 := planUserOutput w _ _) in *.
  pose proof (queues_gui w _ (tidAfter p4) _ Q4 ltac:(lia)) as F5.
  rewrite !Forall_app. repeat split; assumption.
Qed.

Lemma issued_planned (w : Wrapper) (s : Stage) :
  fst (securityChecks w) = inr tt ->
  In s (issued (mThreadManager (snd (configureThreadManager w)))) ->
  In s (plannedStages w).
Proof.
  rewrite securityChecks_fst. intros Hc Hin.
  destruct (configureThreadManager_plan w Hc) as [_ [t Hs]].
  rewrite Hs in Hin.
  replace (mThreadManager (set_mThreadId t _))
    with (snd (addAll (plannedStages w)
                 (ThreadManager.reset (mThreadManager w)))) in Hin
    by (destruct_wrapper w; reflexivity).
  apply addAll_issued_incl in Hin. destruct Hin as [[] | Hin]. exact Hin.
Qed.

(** X11: every stage that graph construction hands to the scheduler
    writes the channel that follows the one it reads
    ([queueOut = queueIn + 1], no wrap-around of the 64-bit counters), in
    every configuration and in both threading modes. *)
Theorem stages_connect_consecutive_channels (w : Wrapper) :
  fst (securityChecks w) = inr tt ->
  Forall consecutiveQueues
         (issued (mThreadManager (snd (configureThreadManager w)))).
Proof.
  intro Hc. apply Forall_forall. intros s Hin.
  apply (issued_planned w s Hc) in Hin.
  pose proof (queues_planGraph (prepared w)) as H.
  rewrite Forall_forall in H. exact (H s Hin).
Qed.

Lemma stages_connect_consecutive_channels_witness :
  Forall consecutiveQueues
    (issued (mThreadManager
               (snd (configureThreadManager singleThreadUserOutput)))).
Proof.
  apply stages_connect_consecutive_channels. vm_compute. reflexivity.
Defined.

(** ** Thread ids *)

Lemma chainFrom_nonDecreasing (cs : list Stage) :
  forall last, chainFrom last cs = true -> nonDecreasing cs.
Proof.
  induction cs as [| c cs IH]; intros last H; cbn [nonDecreasing].
  - exact I.
  - cbn [chainFrom] in H. apply andb_prop in H. destruct H as [_ H].
    split; [| exact (IH _ H)].
    destruct cs as [| d cs]; [exact I |].
    cbn [chainFrom] in H. apply andb_prop in H. destruct H as [H _].
    apply andb_prop in H. destruct H as [_ H]. lia.
Qed.

Lemma issued_when_accepted (w : Wrapper) :
  fst (securityChecks w) = inr tt ->
  chainOk [] (plannedStages w) = true ->
  fst (configureThreadManager w) = inr tt
  /\ issued (mThreadManager (snd (configureThreadManager w)))
     = plannedStages w.
Proof.
  rewrite securityChecks_fst. intros Hc Hok.
  destruct (configureThreadManager_plan w Hc) as [Hf _].
  rewrite Hok in Hf. split; [exact Hf |].
  destruct (configureThreadManager w) as [r w'] eqn:E.
  cbn [fst snd] in *. subst r.
  destruct (configureThreadManager_graph w w' E) as [_ [_ [Hi _]]].
  exact Hi.
Qed.

(** X12: once the security checks have passed on a well-formed object,
    graph construction returns if and only if the object is not in
    single-thread mode with a user output worker that shares the thread
    and a GUI, and then the thread ids of the stages it hands over never
    decrease. *)
Theorem graph_construction_succeeds_unless_wrapped (w : Wrapper) :
  wellFormed w ->
  fst (securityChecks w) = inr tt ->
  (fst (configureThreadManager w) = inr tt <-> wrappedBeforeGui w = false)
  /\ (wrappedBeforeGui w = false ->
      nonDecreasing
        (issued (mThreadManager (snd (configureThreadManager w))))).
Proof.
  intros Hw Hc.
  pose proof (configureThreadManager_result w Hw) as Hr.
  rewrite <- securityChecks_fst, Hc in Hr.
  pose proof (plannedStages_accepted w (proj2 Hw)) as Ha.
  split.
  - rewrite Hr. destruct (wrappedBeforeGui w); split; intro H;
      try reflexivity; discriminate H.
  - intro Hn. rewrite Hn in Ha. cbn [negb] in Ha.
    destruct (issued_when_accepted w Hc Ha) as [_ Hi]. rewrite Hi.
    rewrite chainOk_chainFrom in Ha.
    exact (chainFrom_nonDecreasing _ _ Ha).
Qed.

Lemma graph_construction_succeeds_unless_wrapped_witness :
  (fst (configureThreadManager (videoToGui 2)) = inr tt
   <-> wrappedBeforeGui (videoToGui 2) = false)
  /\ (wrappedBeforeGui (videoToGui 2) = false ->
      nonDecreasing
        (issued (mThreadManager
                   (snd (configureThreadManager (videoToGui 2)))))).
Proof.
  apply graph_construction_succeeds_unless_wrapped.
  - split; [vm_compute; intuition discriminate | reflexivity].
  - vm_compute. reflexivity.
Defined.

Lemma single_thread_suffix (w : Wrapper) (n : Z) (q : Queues) :
  mMultiThreadEnabled w = false ->
  mUserOutputWs w = [] \/ mUserOutputWsOnNewThread w = true ->
  let p4 := planUserOutput w 0 q in
  Forall onThreadZero (calls p4 ++ calls (planGui w (tidAfter p4) (value p4))).
Proof.
  intros Hm Hu. unfold planUserOutput, planGui, pp, onThreadZero.
  rewrite Hm.
  destruct Hu as [-> | ->], (isNull (spWGui w));
    try destruct (negb (empty (mUserOutputWs w)));
    cbn; repeat constructor.
Qed.

(** X13: in single-thread mode, when there is no user output worker or
    it is on a new thread, every stage that graph construction hands to
    the scheduler is on thread 0. *)
Theorem single_thread_mode_uses_thread_zero (w : Wrapper) :
  mMultiThreadEnabled w = false ->
  mUserOutputWs w = [] \/ mUserOutputWsOnNewThread w = true ->
  fst (securityChecks w) = inr tt ->
  Forall onThreadZero
         (issued (mThreadManager (snd (configureThreadManager w)))).
Proof.
  intros Hm Hu Hc. apply Forall_forall. intros s Hin.
  apply (issued_planned w s Hc) in Hin. revert s Hin. apply Forall_forall.
  unfold plannedStages, planGraph. cbn [calls].
  assert (Hm' : mMultiThreadEnabled (prepared w) = false)
    by (destruct_wrapper w; exact Hm).
  assert (Hu' : mUserOutputWs (prepared w) = []
                \/ mUserOutputWsOnNewThread (prepared w) = true)
    by (destruct_wrapper w; exact Hu).
  generalize dependent (prepared w). clear w Hm Hu Hc. intros w Hm Hu.
  destruct (single_thread_prefix w Hm) as [_ [_ [Ht [_ Hf]]]].
  cbv zeta in Ht, Hf.
  set (p1 := planInput w 0 (0, 1)) in *.
  set (p2 := planPoses w (pp w (tidAfter p1)) (value p1)) in *.
  set (p3 := planPostProcessing w (tidAfter p2) (value p2)) in *.
  pose proof (single_thread_suffix w 0 (value p3) Hm Hu) as Hs.
  cbv zeta in Hs. rewrite Ht.
  rewrite !Forall_app in *. tauto.
Qed.

Lemma single_thread_mode_uses_thread_zero_witness :
  Forall onThreadZero
    (issued (mThreadManager
               (snd (configureThreadManager
                       (after disableMultiThreading (videoToGui 2)))))).
Proof.
  apply single_thread_mode_uses_thread_zero.
  - reflexivity.
  - left. reflexivity.
  - vm_compute. reflexivity.
Defined.

Lemma ownThreads_cons (t : Z) (c : Stage) (cs : list Stage) :
  ownThreads t (c :: cs) <-> threadId c = t /\ ownThreads (t + 1) cs.
Proof.
  unfold ownThreads. cbn [map length seq].
  rewrite <- seq_shift, map_map.
  replace (t + Z.of_nat 0) with t by lia.
  assert (E : map (fun k => t + Z.of_nat (S k)) (seq 0 (length cs))
              = map (fun k => t + 1 + Z.of_nat k) (seq 0 (length cs)))
    by (apply map_ext; intro k; lia).
  rewrite E. split.
  - intro H. injection H as H1 H2. split; assumption.
  - intros [H1 H2]. now rewrite H1, H2.
Qed.

Lemma ownThreads_app (a b : list Stage) :
  forall t t',
    ownThreads t a -> t' = t + Z.of_nat (length a) -> ownThreads t' b ->
    ownThreads t (a ++ b).
Proof.
  induction a as [| c a IH]; intros t t' Ha Ht Hb.
  - cbn in *. replace t with t' by lia. exact Hb.
  - cbn [app]. apply ownThreads_cons in Ha. destruct Ha as [Hc Ha].
    apply ownThreads_cons. split; [exact Hc |].
    apply (IH (t + 1) t' Ha); [| exact Hb].
    cbn [length] in Ht. lia.
Qed.

Ltac own_tac :=
  cbn [calls tidAfter length app];
  rewrite ?wrap32_small by lia;
  repeat match goal with
         | |- _ /\ _ => split
         | |- ownThreads _ (_ :: _) => apply ownThreads_cons
         | |- ownThreads _ [] => reflexivity
         end;
  cbn [ThreadManager.threadId]; try lia.

Lemma own_input (w : Wrapper) :
  mMultiThreadEnabled w = true ->
  let p := planInput w 0 (0, 1) in
  ownThreads 0 (calls p)
  /\ pp w (tidAfter p) = Z.of_nat (length (calls p))
  /\ (1 <= length (calls p) <= 2)%nat.
Proof.
  intro Hm. unfold planInput, pp. rewrite Hm.
  destruct (negb (empty (mUserInputWs w)) && mUserInputWsOnNewThread w);
    own_tac.
Qed.

Lemma own_replicas (q : Queues) (poses : list (list TWorker)) :
  forall t,
    0 <= t -> t + Z.of_nat (length poses) < 2 ^ 32 ->
    let p := planReplicas t q poses in
    ownThreads t (calls p)
    /\ tidAfter p = t + Z.of_nat (length (calls p))
    /\ length (calls p) = length poses.
Proof.
  induction poses as [| x poses IH]; intros t Ht Hb; cbn [planReplicas].
  - own_tac.
  - cbn [length] in Hb. cbv zeta.
    rewrite wrap32_small by lia.
    destruct (IH (t + 1) ltac:(lia) ltac:(lia)) as [H1 [H2 H3]].
    cbv zeta in H1, H2, H3. cbn [calls tidAfter length].
    split; [apply ownThreads_cons; split; [reflexivity | exact H1] |].
    split; [rewrite H2 | rewrite H3]; lia.
Qed.

Lemma own_poses (w : Wrapper) (t : Z) (q : Queues) :
  mMultiThreadEnabled w = true ->
  0 <= t -> t + Z.of_nat (length (spWPoses w)) < 2 ^ 32 ->
  let p := planPoses w t q in
  ownThreads t (calls p)
  /\ tidAfter p = t + Z.of_nat (length (calls p))
  /\ length (calls p) = length (spWPoses w).
Proof.
  intros Hm Ht Hb. unfold planPoses. rewrite Hm.
  destruct (spWPoses w) as [| x r] eqn:Hp; [own_tac |].
  cbv zeta. cbn [calls tidAfter].
  exact (own_replicas q (x :: r) t Ht Hb).
Qed.

Lemma own_postProcessing (w : Wrapper) (t : Z) (q : Queues) :
  mMultiThreadEnabled w = true -> 0 <= t -> t + 3 < 2 ^ 32 ->
  let p := planPostProcessing w t q in
  ownThreads t (calls p)
  /\ tidAfter p = t + Z.of_nat (length (calls p))
  /\ (length (calls p) <= 3)%nat.
Proof.
  intros Hm Ht Hb. unfold planPostProcessing, pp. rewrite Hm.
  destruct (negb (empty (mUserPostProcessingWs w))
            && mUserPostProcessingWsOnNewThread w),
    (negb (empty (mPostProcessingWs w))), (negb (empty (mOutputWs w))),
    (negb (empty ((mPostProcessingWs w ++ mUserPostProcessingWs w)
                  ++ mOutputWs w))); own_tac.
Qed.

Lemma own_userOutput (w : Wrapper) (t : Z) (q : Queues) :
  mMultiThreadEnabled w = true -> 0 <= t -> t + 1 < 2 ^ 32 ->
  mUserOutputWs w = [] \/ mUserOutputWsOnNewThread w = true ->
  let p := planUserOutput w t q in
  ownThreads t (calls p)
  /\ tidAfter p = t + Z.of_nat (length (calls p))
  /\ (length (calls p) <= 1)%nat.
Proof.
  intros Hm Ht Hb Hu. unfold planUserOutput, pp. rewrite Hm.
  destruct Hu as [Hu | Hu]; rewrite Hu;
    [cbn [empty negb] | destruct (negb (empty (mUserOutputWs w)))]; own_tac.
Qed.

Lemma own_gui (w : Wrapper) (t : Z) (q : Queues) :
  mMultiThreadEnabled w = true -> 0 <= t -> t + 1 < 2 ^ 32 ->
  ownThreads t (calls (planGui w t q)).
Proof.
  intros Hm Ht Hb. unfold planGui, pp. rewrite Hm.
  destruct (negb (isNull (spWGui w))); own_tac.
Qed.

Lemma own_planGraph (w : Wrapper) :
  mMultiThreadEnabled w = true ->
  Z.of_nat (length (spWPoses w)) < 2 ^ 31 ->
  mUserOutputWs w = [] \/ mUserOutputWsOnNewThread w = true ->
  ownThreads 0 (calls (planGraph w)).
Proof.
  intros Hm Hl Hu. unfold planGraph. cbn [calls].
  destruct (own_input w Hm) as [A1 [B1 C1]]. cbv zeta in A1, B1, C1.
  set (p1 := planInput w 0 (0, 1)) in *.
  destruct (own_poses w (pp w (tidAfter p1)) (value p1) Hm ltac:(lia)
              ltac:(lia)) as [A2 [B2 C2]]. cbv zeta in A2, B2, C2.
  set (p2 := planPoses w (pp w (tidAfter p1)) (value p1)) in *.
  destruct (own_postProcessing w (tidAfter p2) (value p2) Hm ltac:(lia)
              ltac:(lia)) as [A3 [B3 C3]]. cbv zeta in A3, B3, C3.
  set (p3 := planPostProcessing w (tidAfter p2) (value p2)) in *.
  destruct (own_userOutput w (tidAfter p3) (value p3) Hm ltac:(lia)
              ltac:(lia) Hu) as [A4 [B4 C4]]. cbv zeta in A4, B4, C4.
  set (p4 := planUserOutput w (tidAfter p3) (value p3)) in *.
  pose proof (own_gui w (tidAfter p4) (value p4) Hm ltac:(lia) ltac:(lia))
    as A5.
  set (p5 := planGui w (tidAfter p4) (value p4)) in *.
  apply (ownThreads_app _ _ 0 (pp w (tidAfter p1)) A1); [lia |].
  apply (ownThreads_app _ _ _ (tidAfter p2) A2); [lia |].
  apply (ownThreads_app _ _ _ (tidAfter p3) A3); [lia |].
  apply (ownThreads_app _ _ _ (tidAfter p4) A4); [lia |].
  exact A5.
Qed.

(** X14: in multi-thread mode, when there is no user output worker or it
    is on a new thread, graph construction on a well-formed object whose
    security checks pass returns, and the stages it hands over are on the
    threads 0, 1, 2, ... in this order: every stage has a thread of its
    own, every replica included. *)
Theorem multi_thread_stages_on_own_threads (w : Wrapper) :
  wellFormed w ->
  mMultiThreadEnabled w = true ->
  mUserOutputWs w = [] \/ mUserOutputWsOnNewThread w = true ->
  fst (securityChecks w) = inr tt ->
  fst (configureThreadManager w) = inr tt
  /\ ownThreads 0 (issued (mThreadManager (snd (configureThreadManager w)))).
Proof.
  intros Hw Hm Hu Hc.
  pose proof (plannedStages_accepted w (proj2 Hw)) as Ha.
  unfold wrappedBeforeGui in Ha. rewrite Hm in Ha. cbn in Ha.
  destruct (issued_when_accepted w Hc Ha) as [Hf Hi].
  split; [exact Hf |]. rewrite Hi. unfold plannedStages.
  apply own_planGraph; destruct_wrapper w; [exact Hm | exact (proj2 Hw) | exact Hu].
Qed.

Lemma multi_thread_stages_on_own_threads_witness :
  fst (configureThreadManager (videoToGui 2)) = inr tt
  /\ ownThreads 0
       (issued (mThreadManager (snd (configureThreadManager (videoToGui 2))))).
Proof.
  apply multi_thread_stages_on_own_threads.
  - split; [vm_compute; intuition discriminate | reflexivity].
  - reflexivity.
  - left. reflexivity.
  - vm_compute. reflexivity.
Defined.

(** X15: in multi-thread mode with a user output worker that is not on a
    new thread, graph construction on a well-formed object whose security
    checks pass returns; the stages before the user output stage and the
    GUI stage after it are on the threads 0, 1, 2, ... one each, and the
    user output stage is on the thread of the stage handed over just
    before it. *)
Theorem multi_thread_user_output_shares_thread (w : Wrapper) :
  wellFormed w ->
  mMultiThreadEnabled w = true ->
  mUserOutputWs w <> [] ->
  mUserOutputWsOnNewThread w = false ->
  fst (securityChecks w) = inr tt ->
  fst (configureThreadManager w) = inr tt
  /\ exists pre userOutput rest,
       issued (mThreadManager (snd (configureThreadManager w)))
       = pre ++ userOutput :: rest
       /\ units userOutput = mUserOutputWs w
       /\ (1 <= length pre)%nat
       /\ threadId userOutput = Z.of_nat (length pre) - 1
       /\ ownThreads 0 (pre ++ rest)
       /\ flatten rest = (if isNull (spWGui w) then [] else [spWGui w]).
Proof.
  intros Hw Hm Hne Hn Hc.
  pose proof (plannedStages_accepted w (proj2 Hw)) as Ha.
  unfold wrappedBeforeGui in Ha. rewrite Hm in Ha. cbn in Ha.
  destruct (issued_when_accepted w Hc Ha) as [Hf Hi].
  split; [exact Hf |]. rewrite Hi. unfold plannedStages.
  assert (Hm' : mMultiThreadEnabled (prepared w) = true)
    by (destruct_wrapper w; exact Hm).
  assert (Hl' : Z.of_nat (length (spWPoses (prepared w))) < 2 ^ 31)
    by (destruct_wrapper w; exact (proj2 Hw)).
  assert (Hn' : mUserOutputWsOnNewThread (prepared w) = false)
    by (destruct_wrapper w; exact Hn).
  replace (mUserOutputWs w) with (mUserOutputWs (prepared w)) in *
    by (destruct_wrapper w; reflexivity).
  replace (spWGui w) with (spWGui (prepared w))
    by (destruct_wrapper w; reflexivity).
  clear Hw Hm Hn Hc Ha Hf Hi. revert Hne Hm' Hl' Hn'.
  generalize (prepared w). clear w. intros w Hne Hm Hl Hn.
  unfold planGraph. cbn [calls].
  destruct (own_input w Hm) as [A1 [B1 C1]]. cbv zeta in A1, B1, C1.
  set (p1 := planInput w 0 (0, 1)) in *.
  destruct (own_poses w (pp w (tidAfter p1)) (value p1) Hm ltac:(lia)
              ltac:(lia)) as [A2 [B2 C2]]. cbv zeta in A2, B2, C2.
  set (p2 := planPoses w (pp w (tidAfter p1)) (value p1)) in *.
  destruct (own_postProcessing w (tidAfter p2) (value p2) Hm ltac:(lia)
              ltac:(lia)) as [A3 [B3 C3]]. cbv zeta in A3, B3, C3.
  set (p3 := planPostProcessing w (tidAfter p2) (value p2)) in *.
  assert (E4 : planUserOutput w (tidAfter p3) (value p3)
               = mkPlan [mkStage (tidAfter p3 - 1) (mUserOutputWs w)
                           (queueIn (value p3)) (queueOut (value p3))]
                        (tidAfter p3) (incr (value p3))).
  { unfold planUserOutput. rewrite Hn.
    destruct (mUserOutputWs w) as [| u l]; [contradiction |].
    cbn [empty negb]. rewrite wrap32_small by lia. reflexivity. }
  rewrite E4. cbn [calls tidAfter value].
  pose proof (own_gui w (tidAfter p3) (incr (value p3)) Hm ltac:(lia)
                ltac:(lia)) as A5.
  set (p5 := planGui w (tidAfter p3) (incr (value p3))) in *.
  exists (calls p1 ++ calls p2 ++ calls p3),
    (mkStage (tidAfter p3 - 1) (mUserOutputWs w)
       (queueIn (value p3)) (queueOut (value p3))), (calls p5).
  split; [now rewrite <- !app_assoc |].
  split; [reflexivity |].
  rewrite !length_app.
  split; [lia |]. split; [cbn [ThreadManager.threadId]; lia |].
  split.
  - rewrite <- !app_assoc.
    apply (ownThreads_app _ _ 0 (pp w (tidAfter p1)) A1); [lia |].
    apply (ownThreads_app _ _ _ (tidAfter p2) A2); [lia |].
    apply (ownThreads_app _ _ _ (tidAfter p3) A3); [lia |].
    exact A5.
  - unfold p5. rewrite planGui_flatten. reflexivity.
Qed.

Lemma multi_thread_user_output_shares_thread_witness :
  fst (configureThreadManager
         (after (setWorkerOutput (Some (WUser 0)) false) (videoToGui 2)))
  = inr tt
  /\ exists pre userOutput rest,
       issued (mThreadManager
                 (snd (configureThreadManager
                         (after (setWorkerOutput (Some (WUser 0)) false)
                            (videoToGui 2)))))
       = pre ++ userOutput :: rest
       /\ units userOutput
          = mUserOutputWs
              (after (setWorkerOutput (Some (WUser 0)) false) (videoToGui 2))
       /\ (1 <= length pre)%nat
       /\ threadId userOutput = Z.of_nat (length pre) - 1
       /\ ownThreads 0 (pre ++ rest)
       /\ flatten rest
          = (if isNull
                  (spWGui
                     (after (setWorkerOutput (Some (WUser 0)) false)
                        (videoToGui 2)))
             then []
             else [spWGui
                     (after (setWorkerOutput (Some (WUser 0)) false)
                        (videoToGui 2))]).
Proof.
  apply multi_thread_user_output_shares_thread.
  - split; [vm_compute; intuition discriminate | reflexivity].
  - reflexivity.
  - vm_compute. discriminate.
  - reflexivity.
  - vm_compute. reflexivity.
Defined.

(** ** More on [configure] *)

Lemma checkFlags_frame (p : WrapperStructPose) (i : WrapperStructInput)
    (o : WrapperStructOutput) (w1 w2 : Wrapper) :
  mUserOutputWs w1 = mUserOutputWs w2 ->
  mThreadManagerMode w1 = mThreadManagerMode w2 ->
  fst (checkFlags p i o w1) = fst (checkFlags p i o w2).
Proof.
  intros H1 H2. unfold checkFlags, bind, get, when, error, ret.
  repeat (cbv beta iota; cbn [fst snd]; rewrite ?H1, ?H2;
          match goal with
          | |- context [if ?c then _ else _] => destruct c
          end);
    cbn [fst snd]; reflexivity.
Qed.

Lemma commonParameters_frame (p : WrapperStructPose)
    (i : WrapperStructInput) (w1 w2 : Wrapper) :
  fst (commonParameters p i w1) = fst (commonParameters p i w2).
Proof.
  unfold commonParameters, error, ret.
  destruct (producerSharedPtr i);
    repeat match goal with
           | |- context [if ?c then _ else _] => destruct c; cbn [snd fst]
           end; reflexivity.
Qed.

Lemma configure_keeps_user_side (fmt : string -> string)
    (p : WrapperStructPose) (f : WrapperStructFace) (h : WrapperStructHand)
    (i : WrapperStructInput) (o : WrapperStructOutput) (w : Wrapper) :
  mUserOutputWs (snd (configure fmt p f h i o w)) = mUserOutputWs w
  /\ mThreadManagerMode (snd (configure fmt p f h i o w))
     = mThreadManagerMode w.
Proof.
  destruct (configure_outcome fmt p f h i o w) as [[e E] | [fs [ps E]]];
    rewrite E; split; reflexivity.
Qed.

(** X16: a [configure] that returns replaces whatever an earlier
    [configure] had set up: the object is the one that the later call
    alone would have produced. *)
Theorem later_configure_replaces_earlier (fmt : string -> string)
    (p p' : WrapperStructPose) (f f' : WrapperStructFace)
    (h h' : WrapperStructHand) (i i' : WrapperStructInput)
    (o o' : WrapperStructOutput) (w : Wrapper) :
  fst (configure fmt p' f' h' i' o' w) = inr tt ->
  configure fmt p' f' h' i' o' (snd (configure fmt p f h i o w))
  = configure fmt p' f' h' i' o' w.
Proof.
  intro Hok.
  destruct (configure_keeps_user_side fmt p f h i o w) as [Hu Hm].
  rewrite (configure_eq fmt p' f' h' i' o' w) in Hok |- *.
  rewrite (configure_eq fmt p' f' h' i' o' (snd (configure fmt p f h i o w))).
  rewrite (checkFlags_frame p' i' o' _ w Hu Hm).
  rewrite (commonParameters_frame p' i' _ w).
  destruct (fst (checkFlags p' i' o' w)) as [e | []]; [discriminate Hok |].
  destruct (fst (commonParameters p' i' w)) as [e | sizes];
    [discriminate Hok |].
  f_equal.
  destruct (configure_outcome fmt p f h i o w) as [[e E] | [fs [ps E]]];
    rewrite E; cbn [snd]; [reflexivity |].
  destruct_wrapper w. reflexivity.
Qed.

Lemma later_configure_replaces_earlier_witness :
  configure asDirectory (poseOn 1) WrapperStructFace_default
    WrapperStructHand_default videoInput guiOutput
    (snd (configure asDirectory (poseOn 2) (mkWrapperStructFace true)
            (mkWrapperStructHand true) videoInput guiAndPoseFiles
            (Wrapper_new Synchronous 1 anyValues)))
  = configure asDirectory (poseOn 1) WrapperStructFace_default
      WrapperStructHand_default videoInput guiOutput
      (Wrapper_new Synchronous 1 anyValues).
Proof.
  apply later_configure_replaces_earlier. vm_compute. reflexivity.
Defined.

Lemma empty_emplaceBackIf (c : bool) (x : Worker) (v : list TWorker) :
  empty (emplaceBackIf c x v) = empty v && negb c.
Proof.
  unfold emplaceBackIf. destruct c, v; reflexivity.
Qed.

(** What [checkFlags] has established when it returns. *)
Lemma checkFlags_accepted (p : WrapperStructPose) (i : WrapperStructInput)
    (o : WrapperStructOutput) (w : Wrapper) :
  fst (checkFlags p i o w) = inr tt ->
  (sempty (writeVideo o) = false -> isNull (producerSharedPtr i) = false)
  /\ (empty (mUserOutputWs w) = true ->
      notAsynchronousOut (mThreadManagerMode w) = true ->
      displayGui o
      || (negb (sempty (writeImages o)) || negb (sempty (writeVideo o))
          || negb (sempty (writePose o)) || negb (sempty (writePoseJson o))
          || negb (sempty (writeCocoJson o))
          || negb (sempty (writeHeatMaps o))) = true).
Proof.
  intro H. unfold checkFlags, bind, get, when, error, ret in H.
  repeat match type of H with
         | context [if ?c then _ else _] =>
             destruct c eqn:?; cbv beta iota zeta in H; cbn [fst snd] in H
         end;
    try discriminate H; clear H;
    (split;
     [ intro Hv;
       match goal with
       | E : negb (sempty (writeVideo o)) && isNull _ = false |- _ =>
           rewrite Hv in E; exact E
       end
     | intros Hu Hm;
       match goal with
       | E : empty _ && _ = false |- _ =>
           rewrite Hu, Hm in E; discriminate E
       | E : negb (displayGui o) && negb _ = false |- _ =>
           destruct (displayGui o);
           [ reflexivity
           | cbn [negb andb orb] in E |- *; now apply negb_false_iff in E ]
       end ]).
Qed.

(** X17: after a [configure] that returns, with a formatter that keeps
    non-empty paths non-empty, the security checks of [start()] and
    [exec()] can fail in one way only, on the number of producers: the
    object is configured, and outside the asynchronous-out modes it has
    an output worker, a user output worker or the GUI. *)
Theorem after_configure_only_producer_check_fails (fmt : string -> string)
    (p : WrapperStructPose) (f : WrapperStructFace) (h : WrapperStructHand)
    (i : WrapperStructInput) (o : WrapperStructOutput) (w : Wrapper) :
  keepsPaths fmt ->
  fst (configure fmt p f h i o w) = inr tt ->
  fst (securityChecks (snd (configure fmt p f h i o w)))
  = if Bool.eqb (isNull (producerSharedPtr i)) (empty (mUserInputWs w))
       && notAsynchronousIn (mThreadManagerMode w)
    then inl (ConfigurationError msgOneProducer)
    else inr tt.
Proof.
  intros Hfmt Hok. rewrite securityChecks_fst.
  rewrite configure_eq in Hok |- *.
  destruct (fst (checkFlags p i o w)) as [e | []] eqn:Hc;
    [discriminate Hok |].
  destruct (fst (commonParameters p i w)) as [e | sizes];
    [discriminate Hok |].
  cbn [snd]. clear Hok.
  destruct (checkFlags_accepted p i o w Hc) as [Hv Hs].
  unfold checksOutcome.
  replace (spWCvMatToOpInput (configuredWith _ _ _ _ _ _ _ _ _))
    with (Some WCvMatToOpInput) by reflexivity.
  replace (spWCvMatToOpOutput (configuredWith _ _ _ _ _ _ _ _ _))
    with (Some WCvMatToOpOutput) by reflexivity.
  replace (wDatumProducer (configuredWith _ _ _ _ _ _ _ _ _))
    with (if isNull (producerSharedPtr i) then None
          else Some WDatumProducer) by reflexivity.
  replace (mUserInputWs (configuredWith _ _ _ _ _ _ _ _ _))
    with (mUserInputWs w) by reflexivity.
  replace (mUserOutputWs (configuredWith _ _ _ _ _ _ _ _ _))
    with (mUserOutputWs w) by reflexivity.
  replace (mThreadManagerMode (configuredWith _ _ _ _ _ _ _ _ _))
    with (mThreadManagerMode w) by reflexivity.
  replace (mOutputWs (configuredWith _ _ _ _ _ _ _ _ _))
    with (buildOutput fmt i o) by reflexivity.
  replace (spWGui (configuredWith _ _ _ _ _ _ _ _ _))
    with (if displayGui o then Some WGui else None) by reflexivity.
  cbn [isNull orb].
  replace (isNull (if isNull (producerSharedPtr i) then None
                   else Some WDatumProducer))
    with (isNull (producerSharedPtr i))
    by (destruct (producerSharedPtr i); reflexivity).
  destruct (Bool.eqb (isNull (producerSharedPtr i)) (empty (mUserInputWs w))
            && notAsynchronousIn (mThreadManagerMode w)); [reflexivity |].
  assert (Hout : empty (buildOutput fmt i o) && empty (mUserOutputWs w)
                 && isNull (if displayGui o then Some WGui else None)
                 && notAsynchronousOut (mThreadManagerMode w) = false).
  { destruct (empty (mUserOutputWs w)) eqn:Hu;
      [| now rewrite andb_false_r].
    destruct (notAsynchronousOut (mThreadManagerMode w)) eqn:Hm;
      [| now rewrite andb_false_r].
    specialize (Hs eq_refl eq_refl).
    destruct (displayGui o); [now rewrite andb_false_r |].
    cbn [orb isNull] in Hs |- *. rewrite !andb_true_r.
    unfold buildOutput. rewrite !empty_emplaceBackIf. cbn [empty andb].
    pose proof (Hfmt (writeImages o)) as F1.
    pose proof (Hfmt (writePose o)) as F2.
    pose proof (Hfmt (writePoseJson o)) as F3.
    pose proof (Hfmt (writeHeatMaps o)) as F4.
    destruct (sempty (writeImages o));
      [| rewrite (F1 eq_refl); cbn; now rewrite ?andb_false_r].
    destruct (sempty (writePose o));
      [| rewrite (F2 eq_refl); cbn; now rewrite ?andb_false_r].
    destruct (sempty (writePoseJson o));
      [| rewrite (F3 eq_refl); cbn; now rewrite ?andb_false_r].
    destruct (sempty (writeHeatMaps o));
      [| rewrite (F4 eq_refl); cbn; now rewrite ?andb_false_r].
    destruct (sempty (writeCocoJson o));
      [| cbn; now rewrite ?andb_false_r].
    destruct (sempty (writeVideo o)); [discriminate Hs |].
    rewrite (Hv eq_refl). cbn. now rewrite ?andb_false_r. }
  rewrite Hout. reflexivity.
Qed.

Lemma after_configure_only_producer_check_fails_witness :
  fst (securityChecks
         (snd (configure asDirectory (poseOn 1) WrapperStructFace_default
                 WrapperStructHand_default noInput guiAndPoseFiles
                 (Wrapper_new Synchronous 1 anyValues))))
  = if Bool.eqb (isNull (producerSharedPtr noInput))
         (empty (mUserInputWs (Wrapper_new Synchronous 1 anyValues)))
       && notAsynchronousIn
            (mThreadManagerMode (Wrapper_new Synchronous 1 anyValues))
    then inl (ConfigurationError msgOneProducer)
    else inr tt.
Proof.
  apply after_configure_only_producer_check_fails.
  - intros s Hs. unfold asDirectory. rewrite Hs.
    destruct s; [discriminate Hs | reflexivity].
  - vm_compute. reflexivity.
Defined.

Lemma emplaceBackEach_map (make : nat -> Worker) (g : nat -> list TWorker)
    (n : nat) :
  forall k,
    emplaceBackEach make k (map g (seq k n))
    = map (fun j => g j ++ [Some (make j)]) (seq k n).
Proof.
  induction n as [| n IH]; intro k; cbn; [reflexivity |].
  now rewrite IH.
Qed.

(** X18: after a [configure] that returns there is one replica per
    device, [gpuNumber] of them (none when [gpuNumber] is not positive).
    The replica at index [i] holds the pose, face and hand extractors
    built for the device [i + gpuNumberStart] and the renderers built in
    the [i]-th turn of their loops, in the order pose extractor, face
    extractor, hand extractor, pose renderer, hand renderer, face
    renderer, each present exactly when its option is set.  The device
    numbers are taken in the range of an [int]. *)
Theorem replicas_hold_workers_of_their_device (fmt : string -> string)
    (p : WrapperStructPose) (f : WrapperStructFace) (h : WrapperStructHand)
    (i : WrapperStructInput) (o : WrapperStructOutput) (w : Wrapper) :
  - 2 ^ 31 <= gpuNumberStart p ->
  gpuNumberStart p + gpuNumber p <= 2 ^ 31 ->
  fst (configure fmt p f h i o w) = inr tt ->
  spWPoses (snd (configure fmt p f h i o w))
  = map (replica p f h) (seq 0 (Z.to_nat (gpuNumber p))).
Proof.
  intros _ _ Hok.
  destruct (configure_outcome fmt p f h i o w) as [[e E] | [fs [ps E]]];
    rewrite E in Hok |- *; [discriminate Hok |].
  cbn [snd]. replace (spWPoses (configuredWith _ _ _ _ _ _ _ _ _))
    with (buildPoses p f h) by reflexivity.
  unfold buildPoses, replica.
  destruct (Z.to_nat (gpuNumber p)) as [| n] eqn:Hn.
  - now destruct (extractAndRenderFace f), (extractAndRenderHands h),
      (renderOutput p).
  - rewrite <- Hn.
    replace (negb (empty (if renderOutput p
                          then seq 0 (Z.to_nat (gpuNumber p)) else [])))
      with (renderOutput p)
      by (rewrite Hn; now destruct (renderOutput p)).
    destruct (extractAndRenderFace f), (extractAndRenderHands h),
      (renderOutput p);
      rewrite ?emplaceBackEach_map; apply map_ext; intro j;
      cbv zeta; cbn [app]; rewrite <- ?app_assoc; reflexivity.
Qed.

Lemma replicas_hold_workers_of_their_device_witness :
  spWPoses
    (snd (configure asDirectory
            (mkWrapperStructPose (mkSize 656 368) (mkSize 1280 720) 1
               0.25%float true 0.5%float 0.5%float [] UnsignedChar
               InputResolution 2 3)
            (mkWrapperStructFace true) (mkWrapperStructHand false)
            videoInput guiOutput (Wrapper_new Synchronous 1 anyValues)))
  = map (replica
           (mkWrapperStructPose (mkSize 656 368) (mkSize 1280 720) 1
              0.25%float true 0.5%float 0.5%float [] UnsignedChar
              InputResolution 2 3)
           (mkWrapperStructFace true) (mkWrapperStructHand false))
      (seq 0 (Z.to_nat
                (gpuNumber
                   (mkWrapperStructPose (mkSize 656 368) (mkSize 1280 720) 1
                      0.25%float true 0.5%float 0.5%float [] UnsignedChar
                      InputResolution 2 3)))).
Proof.
  apply replicas_hold_workers_of_their_device.
  - vm_compute. discriminate.
  - vm_compute. discriminate.
  - vm_compute. reflexivity.
Defined.

(** X19: after a [configure] that returns, the video saver is among the
    output workers exactly when [writeVideo] is not empty: the test on
    the producer that guards its creation never decides, since
    [configure] has already raised when [writeVideo] is set without a
    producer. *)
Theorem video_saver_iff_write_video (fmt : string -> string)
    (p : WrapperStructPose) (f : WrapperStructFace) (h : WrapperStructHand)
    (i : WrapperStructInput) (o : WrapperStructOutput) (w : Wrapper) :
  fst (configure fmt p f h i o w) = inr tt ->
  (In (Some WVideoSaver) (mOutputWs (snd (configure fmt p f h i o w)))
   <-> sempty (writeVideo o) = false).
Proof.
  intro Hok. rewrite configure_eq in Hok |- *.
  destruct (fst (checkFlags p i o w)) as [e | []] eqn:Hc;
    [discriminate Hok |].
  destruct (fst (commonParameters p i w)) as [e | sizes];
    [discriminate Hok |].
  cbn [snd]. clear Hok.
  destruct (checkFlags_accepted p i o w Hc) as [Hv _].
  replace (mOutputWs (configuredWith _ _ _ _ _ _ _ _ _))
    with (buildOutput fmt i o) by reflexivity.
  unfold buildOutput. rewrite !emplaceBackIf_In. cbn [In].
  split.
  - intros [[[[[[[[] | [_ H]] | [_ H]] | [_ H]] | [_ H]] | [H _]] | [_ H]]
            | [_ H]]; try discriminate H.
    apply andb_prop in H. destruct H as [H _].
    now destruct (sempty (writeVideo o)).
  - intro H. left. left. right. split; [| reflexivity].
    rewrite H, (Hv H). reflexivity.
Qed.

Lemma video_saver_iff_write_video_witness :
  In (Some WVideoSaver)
     (mOutputWs
        (snd (configure asDirectory (poseOn 1) WrapperStructFace_default
                WrapperStructHand_default videoInput
                (mkWrapperStructOutput false false false noPath noPath noPath
                   noPath "out.avi" noPath)
                (Wrapper_new Synchronous 1 anyValues))))
  <-> sempty
        (writeVideo
           (mkWrapperStructOutput false false false noPath noPath noPath
              noPath "out.avi" noPath)) = false.
Proof.
  apply video_saver_iff_write_video. vm_compute. reflexivity.
Defined.

(** ** The graph as a pipeline *)

Lemma chained_app (a b : list Stage) :
  forall qi,
    chained qi a -> chained (qi + Z.of_nat (length a)) b ->
    chained qi (a ++ b).
Proof.
  induction a as [| c a IH]; intros qi Ha Hb.
  - cbn in *. replace qi with (qi + 0) by lia. exact Hb.
  - destruct Ha as [H1 [H2 Ha]]. cbn [app chained].
    split; [exact H1 |]. split; [exact H2 |].
    apply IH; [exact Ha |].
    replace (qi + 1 + Z.of_nat (length a))
      with (qi + Z.of_nat (length (c :: a))) by (cbn [length]; lia).
    exact Hb.
Qed.

Lemma queueIn_incr (n : Z) (q : Queues) :
  consecutive n q -> n < 2 ^ 62 ->
  queueIn (incr q) = queueIn q + 1 /\ queueOut q = queueIn q + 1.
Proof.
  unfold consecutive, incr, queueIn, queueOut. destruct q as [qi qo].
  cbn [fst snd]. intros [-> Hq] Hn. rewrite wrap64_small by lia. lia.
Qed.

Ltac link_tac :=
  cbv zeta;
  cbn [calls value app chained length ThreadManager.inputChannelIndex
       ThreadManager.outputChannelIndex];
  repeat match goal with
         | |- _ /\ _ => split
         end;
  try exact I; try lia.

Lemma link_input (w : Wrapper) (t : Z) :
  let p := planInput w t (0, 1) in
  chained 0 (calls p)
  /\ queueIn (value p) = Z.of_nat (length (calls p))
  /\ (1 <= length (calls p))%nat.
Proof.
  unfold planInput.
  destruct (negb (empty (mUserInputWs w)) && mUserInputWsOnNewThread w);
    link_tac; reflexivity.
Qed.

Lemma link_poses (w : Wrapper) (n t : Z) (q : Queues) :
  consecutive n q -> n < 2 ^ 60 ->
  let p := planPoses w t q in
  sideBySide (queueIn q) (calls p)
  /\ queueIn (value p)
     = queueIn q + (if empty (calls p) then 0 else 1).
Proof.
  intros Hq Hn. cbv zeta.
  destruct (queueIn_incr n q Hq ltac:(lia)) as [E1 E2].
  split.
  - destruct (planPoses_shape w t q) as [_ Hi].
    destruct (queues_poses w n t q Hq Hn) as [Ho _].
    unfold sideBySide. rewrite Forall_forall in *. intros r Hr.
    specialize (Hi r Hr). destruct (Ho r Hr) as [Ho' _].
    split; [exact Hi | lia].
  - unfold planPoses. destruct (spWPoses w) as [| x r];
      [cbn [calls value empty]; lia |].
    destruct (mMultiThreadEnabled w); cbv zeta;
      cbn [planReplicas calls value empty]; lia.
Qed.

Lemma link_postProcessing (w : Wrapper) (n t : Z) (q : Queues) :
  consecutive n q -> n < 2 ^ 60 ->
  let p := planPostProcessing w t q in
  chained (queueIn q) (calls p)
  /\ queueIn (value p) = queueIn q + Z.of_nat (length (calls p)).
Proof.
  intros Hq Hn.
  pose proof (consecutive_incr n q ltac:(lia) Hq) as Hq1.
  pose proof (consecutive_incr (n + 1) _ ltac:(lia) Hq1) as Hq2.
  destruct (queueIn_incr n q Hq ltac:(lia)) as [E1 E2].
  destruct (queueIn_incr (n + 1) _ Hq1 ltac:(lia)) as [E3 E4].
  destruct (queueIn_incr (n + 1 + 1) _ Hq2 ltac:(lia)) as [E5 E6].
  unfold planPostProcessing.
  destruct (negb (empty (mUserPostProcessingWs w))
            && mUserPostProcessingWsOnNewThread w),
    (negb (empty (mPostProcessingWs w))), (negb (empty (mOutputWs w))),
    (negb (empty ((mPostProcessingWs w ++ mUserPostProcessingWs w)
                  ++ mOutputWs w))); link_tac.
Qed.

Lemma link_userOutput (w : Wrapper) (n t : Z) (q : Queues) :
  consecutive n q -> n < 2 ^ 60 ->
  let p := planUserOutput w t q in
  chained (queueIn q) (calls p)
  /\ queueIn (value p) = queueIn q + Z.of_nat (length (calls p)).
Proof.
  intros Hq Hn. destruct (queueIn_incr n q Hq ltac:(lia)) as [E1 E2].
  unfold planUserOutput.
  destruct (negb (empty (mUserOutputWs w))), (mUserOutputWsOnNewThread w);
    link_tac.
Qed.

Lemma link_gui (w : Wrapper) (n t : Z) (q : Queues) :
  consecutive n q -> n < 2 ^ 60 ->
  chained (queueIn q) (calls (planGui w t q)).
Proof.
  intros Hq Hn. destruct (queueIn_incr n q Hq ltac:(lia)) as [E1 E2].
  unfold planGui. destruct (negb (isNull (spWGui w))); link_tac.
Qed.

Lemma link_planGraph (w : Wrapper) :
  exists pre replicas post,
    calls (planGraph w) = pre ++ replicas ++ post
    /\ (1 <= length pre)%nat
    /\ map units replicas = addedReplicas w
    /\ flatten post = postWorkers w
    /\ chained 0 pre
    /\ sideBySide (Z.of_nat (length pre)) replicas
    /\ chained (Z.of_nat (length pre) + (if empty replicas then 0 else 1))
               post.
Proof.
  unfold planGraph. cbn [calls].
  destruct (queues_input w) as [_ Q1].
  destruct (link_input w 0) as [P1 [L1 N1]]. cbv zeta in P1, L1, N1.
  set (p1 := planInput w 0 (0, 1)) in *.
  destruct (queues_poses w 2 (pp w (tidAfter p1)) _ Q1 ltac:(lia))
    as [_ Q2].
  destruct (link_poses w 2 (pp w (tidAfter p1)) _ Q1 ltac:(lia))
    as [P2 L2]. cbv zeta in P2, L2.
  destruct (planPoses_shape w (pp w (tidAfter p1)) (value p1)) as [R1 _].
  set (p2 := planPoses w (pp w (tidAfter p1)) (value p1)) in *.
  destruct (queues_postProcessing w _ (tidAfter p2) _ Q2 ltac:(lia))
    as [_ Q3].
  destruct (link_postProcessing w _ (tidAfter p2) _ Q2 ltac:(lia))
    as [P3 L3]. cbv zeta in P3, L3.
  set (p3 := planPostProcessing w (tidAfter p2) (value p2)) in *.
  destruct (queues_userOutput w _ (tidAfter p3) _ Q3 ltac:(lia)) as [_ Q4].
  destruct (link_userOutput w _ (tidAfter p3) _ Q3 ltac:(lia)) as [P4 L4].
  cbv zeta in P4, L4.
  set (p4 := planUserOutput w (tidAfter p3) (value p3)) in *.
  pose proof (link_gui w _ (tidAfter p4) _ Q4 ltac:(lia)) as P5.
  set (p5 := planGui w (tidAfter p4) (value p4)) in *.
  exists (calls p1), (calls p2), (calls p3 ++ calls p4 ++ calls p5).
  split; [reflexivity |]. split; [exact N1 |]. split; [exact R1 |].
  split.
  { rewrite !flatten_app. unfold p3, p4, p5, postWorkers.
    rewrite planPostProcessing_flatten, planUserOutput_flatten,
      planGui_flatten. reflexivity. }
  split; [exact P1 |]. rewrite <- L1. split; [exact P2 |].
  rewrite <- L2.
  apply chained_app; [exact P3 |]. rewrite <- L3.
  apply chained_app; [exact P4 |]. rewrite <- L4. exact P5.
Qed.

(** X20: a graph that [configureThreadManager] has built is one
    pipeline from channel 0.  Its stages are the ones up to the id
    generator, then the replicas, then the ones after them.  The first
    stage reads channel 0, every stage writes the channel after the one
    it reads, and every stage reads the channel that the stage before it
    writes, with one exception: the replicas stand side by side, all of
    them reading the channel that the last stage before them writes and
    writing the channel that the first stage after them reads.  No two
    stages other than replicas share a channel to read, and no stage
    reads a channel that no stage writes. *)
Theorem graph_is_a_pipeline (w w' : Wrapper) :
  configureThreadManager w = (inr tt, w') ->
  exists pre replicas post,
    graph (mThreadManager w') = pre ++ replicas ++ post
    /\ (1 <= length pre)%nat
    /\ map units replicas = addedReplicas w
    /\ flatten post = postWorkers w
    /\ chained 0 pre
    /\ sideBySide (Z.of_nat (length pre)) replicas
    /\ chained (Z.of_nat (length pre) + (if empty replicas then 0 else 1))
               post.
Proof.
  intro H.
  destruct (configureThreadManager_graph w w' H) as [_ [Hg _]].
  rewrite Hg. unfold plannedStages.
  destruct (link_planGraph (prepared w))
    as [pre [replicas [post [E [N [R [F [C1 [S C2]]]]]]]]].
  exists pre, replicas, post.
  split; [exact E |]. split; [exact N |].
  split; [destruct_wrapper w; exact R |].
  split; [destruct_wrapper w; exact F |].
  split; [exact C1 |]. split; [exact S | exact C2].
Qed.

Lemma graph_is_a_pipeline_witness :
  exists pre replicas post,
    graph (mThreadManager (snd (configureThreadManager (videoToGui 2))))
    = pre ++ replicas ++ post
    /\ (1 <= length pre)%nat
    /\ map units replicas = addedReplicas (videoToGui 2)
    /\ flatten post = postWorkers (videoToGui 2)
    /\ chained 0 pre
    /\ sideBySide (Z.of_nat (length pre)) replicas
    /\ chained (Z.of_nat (length pre) + (if empty replicas then 0 else 1))
               post.
Proof.
  apply (graph_is_a_pipeline (videoToGui 2)). vm_compute. reflexivity.
Defined.

(** X21: the workers of a graph that [configureThreadManager] has
    built, read stage by stage, are the ingress workers (the user input
    worker if there is one, else the producer), the new id generator and
    the two converters, the workers of the replicas (of the first one
    only in single-thread mode), and then the post-processing, user
    post-processing, output and user output workers and the GUI: every
    one of them once and in this order. *)
Theorem graph_holds_the_workers_in_order (w w' : Wrapper) :
  configureThreadManager w = (inr tt, w') ->
  flatten (graph (mThreadManager w'))
  = ingress w
    ++ [Some WIdGenerator; spWCvMatToOpInput w; spWCvMatToOpOutput w]
    ++ concat (addedReplicas w) ++ postWorkers w.
Proof.
  intro H.
  destruct (configureThreadManager_graph w w' H) as [_ [Hg _]].
  rewrite Hg. unfold plannedStages.
  destruct (planGraph_shape (prepared w) eq_refl)
    as [pre [s [replicas [post [ing Hshape]]]]].
  assert (Hshape' : graphShape w (calls (planGraph (prepared w)))
                      pre s replicas post ing)
    by (destruct_wrapper w; exact Hshape).
  destruct Hshape' as [E [Hi [Hu [Hr [_ Hp]]]]].
  rewrite E, flatten_app. unfold flatten at 2. cbn [map concat].
  fold (flatten (replicas ++ post)). rewrite flatten_app, Hu, Hp.
  unfold flatten at 2. rewrite Hr.
  rewrite <- Hi, <- !app_assoc. reflexivity.
Qed.

Lemma graph_holds_the_workers_in_order_witness :
  flatten
    (graph (mThreadManager
              (snd (configureThreadManager
                      (after disableMultiThreading (videoToGui 2))))))
  = ingress (after disableMultiThreading (videoToGui 2))
    ++ [Some WIdGenerator;
        spWCvMatToOpInput (after disableMultiThreading (videoToGui 2));
        spWCvMatToOpOutput (after disableMultiThreading (videoToGui 2))]
    ++ concat (addedReplicas (after disableMultiThreading (videoToGui 2)))
    ++ postWorkers (after disableMultiThreading (videoToGui 2)).
Proof.
  apply (graph_holds_the_workers_in_order
           (after disableMultiThreading (videoToGui 2))).
  vm_compute. reflexivity.
Defined.

(** ** Before [configure] *)

Lemma converter_set_mThreadManager (tm : ThreadManager.t) (w : Wrapper) :
  spWCvMatToOpInput (set_mThreadManager tm w) = spWCvMatToOpInput w.
Proof. reflexivity. Qed.

Lemma converter_configureThreadManager (w : Wrapper) :
  spWCvMatToOpInput (snd (configureThreadManager w)) = spWCvMatToOpInput w.
Proof.
  destruct (configureThreadManager_frame w) as [tm [t [g H]]].
  rewrite H. reflexivity.
Qed.

Lemma converter_boundary {A : Type} (c : Wrapper -> bool) (msg : string)
    (m : St ThreadManager.t A) (w : Wrapper) :
  spWCvMatToOpInput
    (snd (ignore (tryCatch (w0 <- get ;; when (c w0) (error msg) ;;;
                            onThreadManager m)) w))
  = spWCvMatToOpInput w.
Proof.
  rewrite userSide_ignore.
  destruct (boundary_state c msg m w) as [tm H]. rewrite H. reflexivity.
Qed.

(** A call other than [configure] leaves the converter slot alone. *)
Lemma perform_converter (fmt : string -> string) (c : Call) (w : Wrapper) :
  notConfigure c ->
  spWCvMatToOpInput (snd (perform fmt c w)) = spWCvMatToOpInput w.
Proof.
  destruct c; cbn [perform notConfigure]; intro Hc; try contradiction.
  - reflexivity.
  - destruct worker; reflexivity.
  - destruct worker; reflexivity.
  - destruct worker; reflexivity.
  - rewrite exec_eq.
    destruct (fst (configureThreadManager w)); cbn [snd];
      rewrite ?onThreadManager_frame, ?converter_set_mThreadManager;
      apply converter_configureThreadManager.
  - rewrite start_eq.
    destruct (fst (configureThreadManager w)); cbn [snd];
      rewrite ?onThreadManager_frame, ?converter_set_mThreadManager;
      apply converter_configureThreadManager.
  - unfold stop. rewrite tryCatch_eq, onThreadManager_frame. reflexivity.
  - apply converter_boundary.
  - apply converter_boundary.
  - apply converter_boundary.
  - apply converter_boundary.
  - apply converter_boundary.
  - apply converter_boundary.
Qed.

Lemma neverConfigured_converter (fmt : string -> string) (w : Wrapper) :
  neverConfigured fmt w -> spWCvMatToOpInput w = None.
Proof.
  induction 1 as [m cap u | c w Hw IH Hc | p f h i o w Hw IH Hr].
  - reflexivity.
  - now rewrite perform_converter.
  - rewrite configure_eq.
    destruct Hr as [[e He] | [e He]].
    + now rewrite He.
    + destruct (fst (checkFlags p i o w)); [exact IH |].
      now rewrite He.
Qed.

(** X5: on a Wrapper on which no [configure] has got past its checks,
    whatever other public functions have been called on it ([setWorker*],
    [disableMultiThreading], [start], [exec], [stop], the boundary
    operations, a [configure] that its checks reject), [start()] and
    [exec()] raise "Configure the Wrapper class before calling
    `start()`." in every mode and change nothing. *)
Theorem start_before_configure (fmt : string -> string) (w : Wrapper) :
  neverConfigured fmt w ->
  start w = (inl (ConfigurationError msgNotConfigured), w)
  /\ exec w = (inl (ConfigurationError msgNotConfigured), w).
Proof.
  intro H. apply neverConfigured_converter in H.
  assert (Hc : configureThreadManager w
               = (inl (ConfigurationError msgNotConfigured), w)).
  { apply configureThreadManager_check_failure.
    rewrite securityChecks_fst. unfold checksOutcome. now rewrite H. }
  rewrite start_eq, exec_eq, Hc. split; reflexivity.
Qed.

Lemma start_before_configure_witness :
  start rejectedThenStopped
  = (inl (ConfigurationError msgNotConfigured), rejectedThenStopped)
  /\ exec rejectedThenStopped
     = (inl (ConfigurationError msgNotConfigured), rejectedThenStopped).
Proof.
  apply (start_before_configure asDirectory). unfold rejectedThenStopped.
  apply neverConfigured_call; [| exact I].
  apply neverConfigured_rejected; [| left; eexists; vm_compute; reflexivity].
  apply neverConfigured_call; [| exact I].
  apply neverConfigured_call; [| exact I].
  apply neverConfigured_new.
Defined.
